(** * Lead normalisation and sheet append of [cardano_x_leads_to_sheets.py]

    A shallow embedding of the script (parse_followers,
    extract_username_from_url, parse_apify_items, ensure_sheet_tab,
    append_leads_to_sheet, the start-up check, run_apify_search,
    authorize_gsheets and main) and the properties the specification
    states about it.

    Modelling conventions.
    - A Python [str] is a [string]; its characters are the code points
      below 256.  On that range the regular-expression classes used by
      the script coincide with the tables below: [\d] is '0'..'9', [\s]
      and [str.strip] use the white-space set of [is_space].
    - A Python exception is a value of [exn]; a function that may raise
      returns a [result].
    - A Python [float] is an IEEE-754 binary64 number, kept as an exact
      dyadic [m * 2^e] (or an infinity, or NaN); every operation rounds
      the exact result to nearest, ties to even.
    - The spreadsheet service is a store of tabs together with the trace
      of the calls issued to it.  In ensure_sheet_tab and
      append_leads_to_sheet every call is answered; the calls that the
      service refuses are the failures [main] is given and catches.
    - [str] of an int raises ValueError above 4300 digits, the limit of
      the interpreter.  parse_apify_items has that exception; the rows
      of append_leads_to_sheet are those of leads whose Followers are
      within the limit, as every lead of parse_apify_items is.
    - Writing to the standard output raises nothing, and the process is
      not interrupted. *)

From Stdlib Require Import ZArith List String Ascii Bool Lia SpecFloat.
Import ListNotations.
Local Open Scope string_scope.
Local Open Scope Z_scope.

(** ** Exceptions and results *)

Inductive exn : Type :=
| ValueError
| OverflowError
| TypeError
| AttributeError
| EOFError
| WorksheetNotFound.

Inductive result (A : Type) : Type :=
| Ok (a : A)
| Raise (e : exn).
Arguments Ok {A} a.
Arguments Raise {A} e.

Definition bind {A B : Type} (r : result A) (k : A -> result B) : result B :=
  match r with
  | Ok a => k a
  | Raise e => Raise e
  end.

Notation "x <- r ;; k" := (bind r (fun x => k))
  (at level 61, r at next level, right associativity).

(** [try: body except e: handler] *)
Definition try_except {A : Type} (body : result A) (e : exn) (handler : result A)
  : result A :=
  match body with
  | Ok a => Ok a
  | Raise e' =>
      match e, e' with
      | ValueError, ValueError
      | OverflowError, OverflowError
      | TypeError, TypeError
      | AttributeError, AttributeError
      | EOFError, EOFError
      | WorksheetNotFound, WorksheetNotFound => handler
      | _, _ => Raise e'
      end
  end.

(** ** Characters and strings *)

Definition code (c : ascii) : Z := Z.of_N (N_of_ascii c).

Definition is_digit (c : ascii) : bool := (48 <=? code c) && (code c <=? 57).

(** White space of [str.strip] and of [\s]: TAB..CR, FS..US, SPACE, NEL, NBSP. *)
Definition is_space (c : ascii) : bool :=
  let n := code c in
  ((9 <=? n) && (n <=? 13)) || ((28 <=? n) && (n <=? 32))
  || (n =? 133) || (n =? 160).

(** Lower case of the letters A..Z.  The script lowers a character only
    to compare it with 'k' or 'm', or, under re.IGNORECASE, with a
    character of the literal [x.com/]; no other character below 256 has
    one of these as its lower case. *)
Definition lower (c : ascii) : ascii :=
  let n := code c in
  if (65 <=? n) && (n <=? 90) then ascii_of_N (Z.to_N (n + 32)) else c.

Fixpoint lstrip (s : string) : string :=
  match s with
  | String c s' => if is_space c then lstrip s' else s
  | EmptyString => EmptyString
  end.

Fixpoint rstrip (s : string) : string :=
  match s with
  | EmptyString => EmptyString
  | String c s' =>
      match rstrip s' with
      | EmptyString => if is_space c then EmptyString else String c EmptyString
      | r => String c r
      end
  end.

Definition strip (s : string) : string := rstrip (lstrip s).

(** Longest prefix whose characters satisfy [p], and what follows it. *)
Fixpoint span (p : ascii -> bool) (s : string) : string * string :=
  match s with
  | String c s' =>
      if p c then let '(a, b) := span p s' in (String c a, b)
      else (EmptyString, s)
  | EmptyString => (EmptyString, EmptyString)
  end.

Fixpoint filter_chars (p : ascii -> bool) (s : string) : string :=
  match s with
  | String c s' => if p c then String c (filter_chars p s') else filter_chars p s'
  | EmptyString => EmptyString
  end.

Definition digit_value (c : ascii) : Z := code c - 48.

(** Value of a string of decimal digits, most significant first. *)
Fixpoint int_of_digits_from (acc : Z) (s : string) : Z :=
  match s with
  | String c s' => int_of_digits_from (10 * acc + digit_value c) s'
  | EmptyString => acc
  end.

Definition int_of_digits (s : string) : Z := int_of_digits_from 0 s.

Definition slen (s : string) : Z := Z.of_nat (String.length s).

(** ** binary64 floats *)

Inductive float : Type :=
| FFinite (m e : Z)        (* the number m * 2^e *)
| FInf (negative : bool)
| FNaN.

(** [round_nearest_even p q], for [0 < q]: the binary64 number nearest to
    the rational [p / q], ties to even mantissa; 53 bits of mantissa,
    least exponent -1074, overflow to infinity from 2^1024 on. *)
Definition round_nearest_even (p q : Z) : float :=
  if p =? 0 then FFinite 0 0 else
  let a := Z.abs p in
  let d := Z.log2 a - Z.log2 q in
  let lg := if (if 0 <=? d then q * 2 ^ d <=? a else q <=? a * 2 ^ (- d))
            then d else d - 1 in
  let e := Z.max (lg - 52) (-1074) in
  let '(num, den) := if 0 <=? e then (a, q * 2 ^ e) else (a * 2 ^ (- e), q) in
  let m := num / den in
  let r := num mod den in
  let m' := if (den <? 2 * r) || ((den =? 2 * r) && Z.odd m) then m + 1 else m in
  if (0 <=? e) && (2 ^ 1024 <=? m' * 2 ^ e) then FInf (p <? 0)
  else FFinite (Z.sgn p * m') e.

(** [x * k] for a float [x] and a positive integer [k] that is a binary64
    number itself (1_000 and 1_000_000 are). *)
Definition fmul_int (x : float) (k : Z) : float :=
  match x with
  | FFinite m e =>
      if 0 <=? e then round_nearest_even (m * k * 2 ^ e) 1
      else round_nearest_even (m * k) (2 ^ (- e))
  | FInf s => FInf s
  | FNaN => FNaN
  end.

(** [round(x)] with one argument: nearest integer, ties to even;
    OverflowError on an infinity, ValueError on NaN. *)
Definition py_round (x : float) : result Z :=
  match x with
  | FFinite m e =>
      if 0 <=? e then Ok (m * 2 ^ e)
      else
        let den := 2 ^ (- e) in
        let q := m / den in
        let r := m mod den in
        Ok (if (den <? 2 * r) || ((den =? 2 * r) && Z.odd q) then q + 1 else q)
  | FInf _ => Raise OverflowError
  | FNaN => Raise ValueError
  end.

(** [float(s)] for a string [s] of digits and dots, the only strings
    parse_followers passes: the literal is [digits], [digits.],
    [digits.digits] or [.digits]; anything else is a ValueError. *)
Definition py_float (s : string) : result float :=
  let '(ip, rest) := span is_digit s in
  match rest with
  | EmptyString =>
      match ip with
      | EmptyString => Raise ValueError
      | _ => Ok (round_nearest_even (int_of_digits ip) 1)
      end
  | String c rest' =>
      if Ascii.eqb c "." then
        let '(fp, rest'') := span is_digit rest' in
        match rest'' with
        | EmptyString =>
            match ip, fp with
            | EmptyString, EmptyString => Raise ValueError
            | _, _ =>
                Ok (round_nearest_even (int_of_digits (ip ++ fp)) (10 ^ slen fp))
            end
        | _ => Raise ValueError
        end
      else Raise ValueError
  end.

(** ** parse_followers *)

Definition is_num_char (c : ascii) : bool :=
  is_digit c || Ascii.eqb c "," || Ascii.eqb c ".".

Definition is_suffix_char (c : ascii) : bool :=
  Ascii.eqb c "K" || Ascii.eqb c "k" || Ascii.eqb c "M" || Ascii.eqb c "m".

(** [re.search(r'([\d,.]+)\s*([KkMm])?', text)]: groups 1 and 2 of the
    leftmost match.  A match starts at the first character of [[\d,.]];
    the three greedy pieces then take all they can, and since the last two
    may be empty the first attempt succeeds. *)
Fixpoint search_followers (text : string) : option (string * option ascii) :=
  match text with
  | EmptyString => None
  | String c text' =>
      if is_num_char c then
        let '(num_str, rest) := span is_num_char text in
        let '(_, rest') := span is_space rest in
        Some (num_str,
              match rest' with
              | String k _ => if is_suffix_char k then Some k else None
              | EmptyString => None
              end)
      else search_followers text'
  end.

(** [num_str.replace(",", "")] *)
Definition remove_commas (s : string) : string :=
  filter_chars (fun c => negb (Ascii.eqb c ",")) s.

(** [int(digits)] on a string of decimal digits *)
Definition py_int (digits : string) : result Z := Ok (int_of_digits digits).

Definition parse_followers (text : option string) : result (option Z) :=
  match text with
  | None => Ok None
  | Some text =>
      let text := strip text in
      match search_followers text with
      | None =>
          let digits := filter_chars is_digit text in
          try_except
            (match digits with
             | EmptyString => Ok None
             | _ => n <- py_int digits ;; Ok (Some n)
             end)
            ValueError (Ok None)
      | Some (num_str, suffix) =>
          num <- py_float (remove_commas num_str) ;;
          let num :=
            match suffix with
            | Some c =>
                let s := lower c in
                if Ascii.eqb s "k" then fmul_int num 1000
                else if Ascii.eqb s "m" then fmul_int num 1000000
                else num
            | None => num
            end in
          r <- py_round num ;;
          Ok (Some r)
      end
  end.

(** ** extract_username_from_url *)

Definition is_delim (c : ascii) : bool :=
  Ascii.eqb c "/" || Ascii.eqb c "?" || Ascii.eqb c "#".

Definition not_delim (c : ascii) : bool := negb (is_delim c).

(** The literal of the pattern, [x\.com\/]. *)
Definition marker : string := "x.com/".

(** Match a lower-case literal at the head of [s] under re.IGNORECASE;
    the result is what follows the literal. *)
Fixpoint match_literal_ci (lit s : string) : option string :=
  match lit with
  | EmptyString => Some s
  | String a lit' =>
      match s with
      | String c s' => if Ascii.eqb (lower c) a then match_literal_ci lit' s' else None
      | EmptyString => None
      end
  end.

(** One attempt of [x\.com\/([^\/\?\#]+)] at the head of [s]: group 1. *)
Definition match_username_at (s : string) : option string :=
  match match_literal_ci marker s with
  | Some rest =>
      match fst (span not_delim rest) with
      | EmptyString => None
      | seg => Some seg
      end
  | None => None
  end.

(** [re.search]: the attempt at the leftmost position that succeeds. *)
Fixpoint search_username (url : string) : option string :=
  match match_username_at url with
  | Some seg => Some seg
  | None =>
      match url with
      | String _ url' => search_username url'
      | EmptyString => None
      end
  end.

Definition extract_username_from_url (url : string) : string :=
  match url with
  | EmptyString => ""
  | _ =>
      match search_username url with
      | Some seg => seg
      | None => ""
      end
  end.

(** ** Python values (decoded JSON) *)

#[warnings="-register-all"]
Inductive value : Type :=
| VNone
| VBool (b : bool)
| VInt (z : Z)
| VFloat (f : float)
| VStr (s : string)
| VList (l : list value)
| VDict (d : list (string * value)).

(** A dict with string keys, in insertion order; a key occurs once. *)
Definition dict : Type := list (string * value).

Fixpoint dict_lookup (d : dict) (k : string) : option value :=
  match d with
  | [] => None
  | (k', v) :: d' => if String.eqb k' k then Some v else dict_lookup d' k
  end.

(** [d.get(k)] and [d.get(k, default)] *)
Definition dict_get (d : dict) (k : string) : value :=
  match dict_lookup d k with Some v => v | None => VNone end.

Definition dict_get_default (d : dict) (k : string) (default : value) : value :=
  match dict_lookup d k with Some v => v | None => default end.

Definition truthy (v : value) : bool :=
  match v with
  | VNone => false
  | VBool b => b
  | VInt z => negb (z =? 0)
  | VFloat (FFinite m _) => negb (m =? 0)
  | VFloat _ => true
  | VStr s => negb (String.eqb s "")
  | VList l => match l with [] => false | _ => true end
  | VDict d => match d with [] => false | _ => true end
  end.

(** [a or b] *)
Definition py_or (a b : value) : value := if truthy a then a else b.

Definition digit_char (d : Z) : ascii := ascii_of_N (Z.to_N (48 + d)).

(** Decimal digits of a positive number, most significant first. *)
Fixpoint digits_of_pos (fuel : nat) (n : Z) (acc : string) : string :=
  match fuel with
  | O => acc
  | S fuel' =>
      let acc' := String (digit_char (n mod 10)) acc in
      if n <? 10 then acc' else digits_of_pos fuel' (n / 10) acc'
  end.

(** The number of digits above which [str] of an int raises ValueError. *)
Definition str_digits_limit : Z := 4300.

(** The digits [str(n)] gives for an int within the limit. *)
Definition str_int (n : Z) : string :=
  if n =? 0 then "0"
  else if n <? 0 then String "-" (digits_of_pos (Z.to_nat (Z.log2 (- n)) + 1) (- n) "")
  else digits_of_pos (Z.to_nat (Z.log2 n) + 1) n "".

Section Str.
(** [str] of a float, a list or a dict is not defined by the script; it
    is a parameter of the model. *)
Variable repr : value -> string.

(** [str(v)] where it raises nothing: an int is within the limit of
    digits. *)
Definition py_str (v : value) : string :=
  match v with
  | VStr s => s
  | VInt z => str_int z
  | VNone => "None"
  | VBool true => "True"
  | VBool false => "False"
  | _ => repr v
  end.

(** [str(v)] with the exception of an int above the limit of digits. *)
Definition py_str_checked (v : value) : result string :=
  match v with
  | VInt z =>
      if 10 ^ str_digits_limit <=? Z.abs z then Raise ValueError
      else Ok (py_str v)
  | _ => Ok (py_str v)
  end.
End Str.

(** ** parse_apify_items *)

(** [item.get("json") if isinstance(item, dict) and "json" in item else item] *)
Definition unwrap_item (item : value) : value :=
  match item with
  | VDict d =>
      match dict_lookup d "json" with
      | Some _ => dict_get d "json"
      | None => item
      end
  | _ => item
  end.

(** The list the loop body binds to [organic]. *)
Definition organic_of (json_obj : value) : list value :=
  match json_obj with
  | VDict d =>
      match dict_lookup d "organicResults" with
      | Some (VList l) => l
      | _ =>
          match dict_lookup d "results" with
          | Some (VList l) => l
          | _ => []
          end
      end
  | _ => []
  end.

(** The call [extract_username_from_url(url)] on a value: a falsy value
    gives "", [re.search] on a value that is not a str is a TypeError. *)
Definition extract_username_of_value (url : value) : result string :=
  if truthy url then
    match url with
    | VStr s => Ok (extract_username_from_url s)
    | _ => Raise TypeError
    end
  else Ok "".

Definition followers_value (followers : option Z) : value :=
  match followers with
  | Some n => VInt n
  | None => VNone
  end.

Section Leads.
Variable repr : value -> string.

(** The body of [for r in organic]: the lead appended for [r].
    [followers_raw] is never None, so [parse_followers] works on
    [str(followers_raw)], which raises for an int above the limit of
    digits. *)
Definition lead_of_entry (r : value) : result dict :=
  match r with
  | VDict r =>
      let name := py_or (dict_get r "title") (VStr "") in
      let url := py_or (py_or (dict_get r "url") (dict_get r "link")) (VStr "") in
      username <- extract_username_of_value url ;;
      let description :=
        py_or (py_or (dict_get r "description") (dict_get r "snippet")) (VStr "") in
      let followers_raw :=
        py_or (py_or (dict_get r "followersAmount") (dict_get r "followers")) (VStr "") in
      text <- py_str_checked repr followers_raw ;;
      followers <- parse_followers (Some text) ;;
      Ok [("Name", name);
          ("Username", VStr username);
          ("Handle", url);
          ("Description", description);
          ("Followers", followers_value followers)]
  | _ => Raise AttributeError
  end.

(** [for r in organic: ... leads.append(...)] *)
Fixpoint append_entries (organic : list value) (leads : list dict)
  : result (list dict) :=
  match organic with
  | [] => Ok leads
  | r :: organic' =>
      lead <- lead_of_entry r ;;
      append_entries organic' (leads ++ [lead])
  end.

(** [for item in items: ...] *)
Fixpoint items_loop (items : list value) (leads : list dict)
  : result (list dict) :=
  match items with
  | [] => Ok leads
  | item :: items' =>
      let json_obj := unwrap_item item in
      let organic := organic_of json_obj in
      match organic with
      | [] => items_loop items' leads
      | _ =>
          leads' <- append_entries organic leads ;;
          items_loop items' leads'
      end
  end.

Definition parse_apify_items (items : list value) : result (list dict) :=
  items_loop items [].
End Leads.

(** ** The spreadsheet service and the clock *)

(** A tab: its title and its rows of displayed cell texts. *)
Record worksheet : Type := mkWorksheet {
  ws_title : string;
  ws_grid : list (list string)
}.

(** The calls the script issues to the service. *)
Inductive call : Type :=
| CallWorksheet (title : string)
| CallAddWorksheet (title rows cols : string)
| CallRowValues (title : string) (row : Z)
| CallUpdate (title range : string) (values : list (list string))
| CallAppendRows (title : string) (rows : list (list value)) (option : string).

Record datetime : Type := mkDatetime {
  year : Z; month : Z; day : Z; hour : Z; minute : Z; second : Z
}.

(** The world outside the script: the tabs of the spreadsheet, the calls
    made so far, and the clock, [clock n] being what its n-th reading
    returns. *)
Record world : Type := mkWorld {
  tabs : list worksheet;
  trace : list call;
  clock : nat -> datetime;
  ticks : nat
}.

Definition log (c : call) (w : world) : world :=
  mkWorld (tabs w) (trace w ++ [c]) (clock w) (ticks w).

Definition set_tabs (ts : list worksheet) (w : world) : world :=
  mkWorld ts (trace w) (clock w) (ticks w).

Fixpoint find_tab (ts : list worksheet) (title : string) : option worksheet :=
  match ts with
  | [] => None
  | t :: ts' => if String.eqb (ws_title t) title then Some t else find_tab ts' title
  end.

(** Replace the grid of the first tab called [title]. *)
Fixpoint update_tab (ts : list worksheet) (title : string)
  (f : list (list string) -> list (list string)) : list worksheet :=
  match ts with
  | [] => []
  | t :: ts' =>
      if String.eqb (ws_title t) title
      then mkWorksheet (ws_title t) (f (ws_grid t)) :: ts'
      else t :: update_tab ts' title f
  end.

Definition grid_of (w : world) (title : string) : list (list string) :=
  match find_tab (tabs w) title with
  | Some t => ws_grid t
  | None => []
  end.

(** A row as the service returns it: without its trailing empty cells. *)
Fixpoint trim_row (row : list string) : list string :=
  match row with
  | [] => []
  | c :: row' =>
      match trim_row row' with
      | [] => if String.eqb c "" then [] else [c]
      | r => c :: r
      end
  end.

(** [sheet.worksheet(title)]: a handle on the tab, which is its title. *)
Definition sheet_worksheet (title : string) (w : world) : result string * world :=
  let w := log (CallWorksheet title) w in
  match find_tab (tabs w) title with
  | Some _ => (Ok title, w)
  | None => (Raise WorksheetNotFound, w)
  end.

(** [sheet.add_worksheet(title, rows, cols)]: a new tab without content. *)
Definition sheet_add_worksheet (title rows cols : string) (w : world)
  : string * world :=
  let w := log (CallAddWorksheet title rows cols) w in
  (title, set_tabs (tabs w ++ [mkWorksheet title []]) w).

(** [ws.row_values(1)] *)
Definition ws_row_values_1 (ws : string) (w : world) : list string * world :=
  let w := log (CallRowValues ws 1) w in
  (trim_row (hd [] (grid_of w ws)), w).

(** Writing [cells] over the head of a row. *)
Definition overwrite_row (cells old : list string) : list string :=
  (cells ++ skipn (List.length cells) old)%list.

(** [ws.update("A1:G1", [row])] *)
Definition ws_update_A1G1 (ws : string) (row : list string) (w : world) : world :=
  let w := log (CallUpdate ws "A1:G1" [row]) w in
  set_tabs
    (update_tab (tabs w) ws
       (fun g => overwrite_row row (hd [] g) :: tl g)) w.

Section Sheets.
(** What a cell shows once the service has interpreted a value sent with
    the USER_ENTERED option: a parameter of the model. *)
Variable user_entered : value -> string.

(** [ws.append_rows(rows, value_input_option="USER_ENTERED")] *)
Definition ws_append_rows (ws : string) (rows : list (list value)) (w : world)
  : world :=
  let w := log (CallAppendRows ws rows "USER_ENTERED") w in
  set_tabs
    (update_tab (tabs w) ws
       (fun g => (g ++ map (map user_entered) rows)%list)) w.
End Sheets.

(** [datetime.utcnow()] *)
Definition utcnow (w : world) : datetime * world :=
  (clock w (ticks w), mkWorld (tabs w) (trace w) (clock w) (S (ticks w))).

Definition pad2 (n : Z) : string :=
  String (digit_char (n / 10)) (String (digit_char (n mod 10)) EmptyString).

Definition pad4 (n : Z) : string :=
  String (digit_char (n / 1000))
    (String (digit_char (n / 100 mod 10)) (pad2 (n mod 100))).

(** [d.isoformat(sep=" ", timespec="seconds")] of a naive datetime, whose
    fields lie in 1..9999, 1..12, 1..31, 0..23, 0..59, 0..59. *)
Definition isoformat_seconds (d : datetime) : string :=
  (pad4 (year d) ++ "-" ++ pad2 (month d) ++ "-" ++ pad2 (day d) ++ " "
   ++ pad2 (hour d) ++ ":" ++ pad2 (minute d) ++ ":" ++ pad2 (second d))%string.

(** ** ensure_sheet_tab *)

Definition headers : list string :=
  ["Timestamp"; "Topic"; "Name"; "Username"; "Handle"; "Description"; "Followers"].

Definition ensure_sheet_tab (tab_name : string) (w : world) : result string * world :=
  let '(found, w) := sheet_worksheet tab_name w in
  let '(ws, w) :=
    match found with
    | Raise WorksheetNotFound =>
        let '(ws, w) := sheet_add_worksheet tab_name "1000" "20" w in (Ok ws, w)
    | _ => (found, w)
    end in
  match ws with
  | Raise e => (Raise e, w)
  | Ok ws =>
      let '(existing, w) := ws_row_values_1 ws w in
      match existing with
      | [] => (Ok ws, ws_update_A1G1 ws headers w)
      | _ =>
          if list_eq_dec string_dec (firstn (List.length headers) existing) headers
          then (Ok ws, w)
          else (Ok ws, ws_update_A1G1 ws headers w)
      end
  end.

(** ** append_leads_to_sheet *)

Section Append.
Variable repr : value -> string.
Variable user_entered : value -> string.

(** The row built for one lead whose Followers [str] accepts (see
    [printable]): None, or an int within the limit of digits. *)
Definition row_of_lead (now topic : string) (lead : dict) : list value :=
  [VStr now;
   VStr topic;
   dict_get_default lead "Name" (VStr "");
   dict_get_default lead "Username" (VStr "");
   dict_get_default lead "Handle" (VStr "");
   dict_get_default lead "Description" (VStr "");
   VStr (py_str repr (py_or (dict_get_default lead "Followers" (VStr "")) (VStr "")))].

(** [for lead in leads: rows.append([...])] *)
Fixpoint build_rows (now topic : string) (leads : list dict)
  (rows : list (list value)) : list (list value) :=
  match leads with
  | [] => rows
  | lead :: leads' => build_rows now topic leads' (rows ++ [row_of_lead now topic lead])
  end.

Definition append_leads_to_sheet (ws topic : string) (leads : list dict) (w : world)
  : Z * world :=
  match leads with
  | [] => (0, w)
  | _ =>
      let '(d, w) := utcnow w in
      let now := (isoformat_seconds d ++ " UTC")%string in
      let rows := build_rows now topic leads [] in
      let w := ws_append_rows user_entered ws rows w in
      (Z.of_nat (List.length rows), w)
  end.
End Append.

(** ** Configuration *)

(** [not v] for what [os.getenv] returned: the variable is unset or empty. *)
Definition unset (v : option string) : bool :=
  match v with
  | None => true
  | Some s => String.eqb s ""
  end.

(** The list [missing] of the start-up check. *)
Definition missing_variables (apify_token sheet_credentials sheet_id : option string)
  : list string :=
  ((if unset apify_token then ["APIFY_TOKEN"] else [])
   ++ (if unset sheet_credentials then ["SHEET_CREDENTIALS"] else [])
   ++ (if unset sheet_id then ["SHEET_ID"] else []))%list.

(** How the module-level code ends: it goes on, or raises RuntimeError. *)
Inductive startup : Type :=
| Started
| RuntimeError (message : string).

Definition validate_config (apify_token sheet_credentials sheet_id : option string)
  : startup :=
  match missing_variables apify_token sheet_credentials sheet_id with
  | [] => Started
  | missing =>
      RuntimeError
        ("Missing required environment variables: " ++ String.concat ", " missing
         ++ ". Put them in a .env file or export them.")
  end.

(** ** run_apify_search, authorize_gsheets and main *)

(** What a call to a service outside the script gives: a value, or an
    exception, of which the script only uses the text. *)
Inductive outcome (A : Type) : Type :=
| Returned (a : A)
| Failed (message : string).
Arguments Returned {A} a.
Arguments Failed {A} message.

(** The arguments of [requests.post]. *)
Record request : Type := mkRequest {
  req_url : string;
  req_params : dict;
  req_json : dict;
  req_headers : dict;
  req_timeout : Z
}.

(** The process: the spreadsheet and the clock, the requests sent, and
    what was written to the standard output, one entry for each [print]
    and each prompt of [input]. *)
Record process : Type := mkProcess {
  sheet : world;
  requests : list request;
  stdout : list string
}.

Definition print (line : string) (p : process) : process :=
  mkProcess (sheet p) (requests p) (stdout p ++ [line])%list.

Definition with_sheet (w : world) (p : process) : process :=
  mkProcess w (requests p) (stdout p).

Definition APIFY_RUN_SYNC_URL : string :=
  "https://api.apify.com/v2/acts/apify~google-search-scraper/run-sync-get-dataset-items".

(** The list the function returns for the decoded body [data]. *)
Definition items_of_data (data : value) : list value :=
  match data with
  | VList l => l
  | VDict d =>
      match dict_lookup d "items" with
      | Some (VList l) => l
      | _ => []
      end
  | _ => []
  end.

Section Main.
(** The configuration read at start-up. *)
Variable APIFY_TOKEN : string.
Variable SHEET_CREDENTIALS : string.
Variable SHEET_ID : string.
Variable RESULTS_PER_REQUEST : Z.

(** The services: [requests.post] followed by [raise_for_status] and
    [json]; [os.path.exists]; the loading of the credentials followed by
    [gspread.authorize]; [open_by_key]. *)
Variable post : request -> outcome value.
Variable path_exists : string -> bool.
Variable authorize : string -> outcome unit.
Variable open_by_key : string -> outcome unit.

(** [str] of values and of exceptions, and what a cell shows. *)
Variable repr : value -> string.
Variable exn_text : exn -> string.
Variable user_entered : value -> string.

(** The failures of the spreadsheet service (quota, network, permission),
    which the model of the service leaves out.  [provision_failure w] is
    [Some (m, w')] when a call of [ensure_sheet_tab], entered on the
    spreadsheet [w], raises an exception of text [m] and the spreadsheet
    is left as [w']; [append_failure w] says the same of [append_rows] in
    [append_leads_to_sheet], which calls the service for leads that are
    not empty only. *)
Variable provision_failure : world -> option (string * world).
Variable append_failure : world -> option (string * world).

Definition search_request (topic apify_token : string) (max_pages_per_query : Z)
  : request :=
  let headers := [("Content-Type", VStr "application/json")] in
  let params := [("token", VStr apify_token)] in
  let queries_field := ("site:x.com " ++ topic ++ " cardano")%string in
  let payload :=
    [("focusOnPaidAds", VBool false);
     ("forceExactMatch", VBool false);
     ("includeIcons", VBool false);
     ("includeUnfilteredResults", VBool false);
     ("maxPagesPerQuery", VInt max_pages_per_query);
     ("mobileResults", VBool false);
     ("queries", VStr queries_field);
     ("resultsPerPage", VInt RESULTS_PER_REQUEST);
     ("saveHtml", VBool false);
     ("saveHtmlToKeyValueStore", VBool true)] in
  mkRequest APIFY_RUN_SYNC_URL params payload headers 120.

Definition run_apify_search (topic apify_token : string) (max_pages_per_query : Z)
  (p : process) : outcome (list value) * process :=
  let rq := search_request topic apify_token max_pages_per_query in
  let p := mkProcess (sheet p) (requests p ++ [rq])%list (stdout p) in
  match post rq with
  | Failed m => (Failed m, p)
  | Returned data => (Returned (items_of_data data), p)
  end.

Definition authorize_gsheets (creds_path : string) : outcome unit :=
  if path_exists creds_path then authorize creds_path
  else Failed ("Service account JSON not found at: " ++ creds_path).

(** [main], for the parsed arguments and the line typed at the prompt,
    which is missing when the input has ended: [input] then raises
    EOFError. *)
Definition main (args_topic : option string) (args_sheet_tab : string)
  (args_max_pages : Z) (typed : option string) (p : process)
  : result unit * process :=
  let '(topic, p) :=
    if unset args_topic
    then
      let p := print "Enter topic/niche to search for (e.g., 'nft artists'): " p in
      match typed with
      | Some line => (Ok (strip line), p)
      | None => (Raise EOFError, p)
      end
    else (Ok (match args_topic with Some t => t | None => EmptyString end), p) in
  match topic with
  | Raise e => (Raise e, p)
  | Ok topic =>
  if String.eqb topic "" then (Ok tt, print "No topic supplied. Exiting." p)
  else
    let p :=
      print ("Searching X.com for Cardano-related accounts about: '" ++ topic ++ "'") p in
    match run_apify_search topic APIFY_TOKEN args_max_pages p with
    | (Failed m, p) => (Ok tt, print ("Error calling Apify: " ++ m) p)
    | (Returned items, p) =>
        match parse_apify_items repr items with
        | Raise e => (Raise e, p)
        | Ok leads =>
            let p :=
              print ("Found " ++ str_int (Z.of_nat (List.length leads))
                     ++ " leads (parsed).") p in
            let sheet_error m p :=
              (Ok tt, print ("Error authorizing or opening Google Sheet: " ++ m) p) in
            match authorize_gsheets SHEET_CREDENTIALS with
            | Failed m => sheet_error m p
            | Returned _ =>
                match open_by_key SHEET_ID with
                | Failed m => sheet_error m p
                | Returned _ =>
                    match provision_failure (sheet p) with
                    | Some (m, w) => sheet_error m (with_sheet w p)
                    | None =>
                    match ensure_sheet_tab args_sheet_tab (sheet p) with
                    | (Raise e, w) => sheet_error (exn_text e) (with_sheet w p)
                    | (Ok ws, w) =>
                        match
                          match leads with
                          | [] => None
                          | _ => append_failure w
                          end
                        with
                        | Some (m, w) =>
                            (Ok tt,
                             print ("Error appending to sheet: " ++ m)
                                   (with_sheet w p))
                        | None =>
                        let '(appended, w) :=
                          append_leads_to_sheet repr user_entered ws topic leads w in
                        let p :=
                          print ("Appended " ++ str_int appended
                                 ++ " rows to sheet '" ++ args_sheet_tab ++ "'.")
                                (with_sheet w p) in
                        (Ok tt,
                         print "Done. Tip: open the Google Sheet to review and remove duplicates if needed." p)
                        end
                    end
                    end
                end
            end
        end
    end
  end.
End Main.

(** * Vocabulary of the properties *)

Local Open Scope list_scope.

(** ** Strings and numbers *)

(** Every character of [s] satisfies [p]. *)
Fixpoint all_chars (p : ascii -> bool) (s : string) : bool :=
  match s with
  | String c s' => p c && all_chars p s'
  | EmptyString => true
  end.

(** The string of [n] times the character [c]. *)
Fixpoint repeat_char (c : ascii) (n : nat) : string :=
  match n with
  | O => EmptyString
  | S n' => String c (repeat_char c n')
  end.

Fixpoint lower_string (s : string) : string :=
  match s with
  | String c s' => String (lower c) (lower_string s')
  | EmptyString => EmptyString
  end.

(** A float that is zero, positive or plus infinity. *)
Definition nonneg_float (x : float) : Prop :=
  match x with
  | FFinite m _ => 0 <= m
  | FInf s => s = false
  | FNaN => False
  end.

(** The numbers of the Standard Library's specification of IEEE-754
    arithmetic, at the binary64 format, read as floats of the model. *)
Definition of_spec_float (x : spec_float) : float :=
  match x with
  | S754_zero _ => FFinite 0 0
  | S754_infinity s => FInf s
  | S754_nan => FNaN
  | S754_finite s m e => FFinite (if s then Z.neg m else Z.pos m) e
  end.

(** Two floats denote the same number. *)
Definition same_number (x y : float) : bool :=
  match x, y with
  | FFinite m1 e1, FFinite m2 e2 =>
      let e := Z.min e1 e2 in
      m1 * 2 ^ (e1 - e) =? m2 * 2 ^ (e2 - e)
  | FInf a, FInf b => Bool.eqb a b
  | FNaN, FNaN => true
  | _, _ => false
  end.

(** The quotient of two positive integers and its product by a third, as
    the specification rounds them. *)
Definition spec_quotient (p q : Z) : spec_float :=
  SFdiv 53 1024 (S754_finite false (Z.to_pos p) 0) (S754_finite false (Z.to_pos q) 0).

Definition spec_product (x : spec_float) (k : Z) : spec_float :=
  SFmul 53 1024 x (S754_finite false (Z.to_pos k) 0).

(** ** Usernames *)

(** What may follow a segment: the end of the string or a delimiter. *)
Definition ends_segment (rest : string) : Prop :=
  match rest with
  | EmptyString => True
  | String c _ => is_delim c = true
  end.

(** [matches_at url i seg]: at offset [i] of [url] stands the marker, in
    any letter case, followed by the non-empty maximal run [seg] of
    characters other than '/', '?' and '#'. *)
Definition matches_at (url : string) (i : nat) (seg : string) : Prop :=
  exists pre mk rest,
    url = (pre ++ mk ++ seg ++ rest)%string /\ String.length pre = i /\
    lower_string mk = marker /\ seg <> EmptyString /\
    all_chars not_delim seg = true /\ ends_segment rest.

(** ** Leads *)

(** Apply [f] to the elements in order; the first exception ends it. *)
Fixpoint map_result {A B : Type} (f : A -> result B) (l : list A) : result (list B) :=
  match l with
  | [] => Ok []
  | x :: l' =>
      y <- f x ;;
      ys <- map_result f l' ;;
      Ok (y :: ys)
  end.

(** The entries a container contributes. *)
Definition entries_of (container : value) : list value :=
  organic_of (unwrap_item container).

Definition has_list (d : dict) (k : string) : Prop :=
  exists l, dict_lookup d k = Some (VList l).

(** The payload of the container, unwrapped from its "json" key when it
    has one, is no dict, or a dict in which neither "organicResults" nor
    "results" is bound to a list. *)
Definition lacks_result_lists (container : value) : Prop :=
  forall d, unwrap_item container = VDict d ->
            ~ has_list d "organicResults" /\ ~ has_list d "results".

(** ** Sheets *)

(** The ranges of the fields of a datetime. *)
Definition valid_datetime (d : datetime) : Prop :=
  1 <= year d <= 9999 /\ 1 <= month d <= 12 /\ 1 <= day d <= 31 /\
  0 <= hour d <= 23 /\ 0 <= minute d <= 59 /\ 0 <= second d <= 59.

(** The shape [YYYY-MM-DD HH:MM:SS UTC]. *)
Definition is_timestamp (s : string) : bool :=
  match list_ascii_of_string s with
  | [y1; y2; y3; y4; a; m1; m2; b; d1; d2; c; h1; h2; d; n1; n2; e; s1; s2;
     f; u; t; z] =>
      is_digit y1 && is_digit y2 && is_digit y3 && is_digit y4
      && Ascii.eqb a "-" && is_digit m1 && is_digit m2
      && Ascii.eqb b "-" && is_digit d1 && is_digit d2
      && Ascii.eqb c " " && is_digit h1 && is_digit h2
      && Ascii.eqb d ":" && is_digit n1 && is_digit n2
      && Ascii.eqb e ":" && is_digit s1 && is_digit s2
      && Ascii.eqb f " " && Ascii.eqb u "U" && Ascii.eqb t "T" && Ascii.eqb z "C"
  | _ => false
  end.

(** The first row of the tab, as stored. *)
Definition header_row (w : world) (tab : string) : list string :=
  hd [] (grid_of w tab).

(** The first row carries the header on its first seven cells. *)
Definition header_ok (w : world) (tab : string) : Prop :=
  firstn 7 (header_row w tab) = headers.

Definition tab_exists (w : world) (tab : string) : Prop :=
  exists t, find_tab (tabs w) tab = Some t.

(** The two reads of a provisioning that writes nothing. *)
Definition read_calls (tab : string) : list call :=
  [CallWorksheet tab; CallRowValues tab 1].

(** A value on which [x or ""] followed by [str] raises nothing and is
    given by the model: an int within the limit of digits, no list and
    no dict with an element (their text is not modelled, and it may hold
    an int), anything else. *)
Definition printable (v : value) : Prop :=
  match v with
  | VInt n => Z.abs n < 10 ^ str_digits_limit
  | VList (_ :: _) => False
  | VDict (_ :: _) => False
  | _ => True
  end.

(** The Followers of the lead can be printed. *)
Definition followers_printable (lead : dict) : Prop :=
  printable (dict_get_default lead "Followers" (VStr "")).

(** ** Sample data *)

(** Instances of the two parameters of the model for concrete runs, which
    involve no float, list or dict where a text is asked for. *)
Definition no_repr (_ : value) : string := EmptyString.

Definition shown (v : value) : string := py_str no_repr v.

Definition sample_skipped : value := VDict [("searchQuery", VStr "cardano")].

Definition sample_container : value :=
  VDict [("json",
          VDict [("results",
                  VList [VDict [("title", VStr "Ada");
                                ("link", VStr "https://x.com/ada");
                                ("followers", VStr "1.2M")];
                         VDict [("title", VStr "Bob");
                                ("url", VStr "https://x.com/bob?lang=en")]])])].

Definition sample_lead : dict :=
  [("Name", VStr "Ada"); ("Username", VStr "ada");
   ("Handle", VStr "https://x.com/ada"); ("Description", VStr "");
   ("Followers", VInt 1200000)].

Definition sample_clock (n : nat) : datetime :=
  mkDatetime 2025 3 9 (Z.of_nat n) 5 7.

Definition sample_world : world :=
  mkWorld [mkWorksheet "Sheet1" []; mkWorksheet "Leads" [headers ++ ["Notes"]]]
          [] sample_clock 14.

(** ** Follower texts *)

Definition non_num (c : ascii) : bool := negb (is_num_char c).

Definition non_digit (c : ascii) : bool := negb (is_digit c).

Definition non_comma (c : ascii) : bool := negb (Ascii.eqb c ",").

(** A digit or a comma. *)
Definition is_digit_or_comma (c : ascii) : bool := is_digit c || Ascii.eqb c ",".

(** A digit or a dot. *)
Definition is_digit_or_dot (c : ascii) : bool := is_digit c || Ascii.eqb c ".".

(** The number of occurrences of [c] in [s]. *)
Fixpoint count_char (c : ascii) (s : string) : nat :=
  match s with
  | String c' s' => ((if Ascii.eqb c' c then 1 else 0) + count_char c s')%nat
  | EmptyString => O
  end.

(** The suffix character met after the white space at the head of [rest]. *)
Definition suffix_after (rest : string) : option ascii :=
  match snd (span is_space rest) with
  | String k _ => if is_suffix_char k then Some k else None
  | EmptyString => None
  end.

(** The factor of a suffix character. *)
Definition suffix_factor (c : ascii) : Z :=
  if Ascii.eqb (lower c) "k" then 1000 else 1000000.

(** The float [x] is the integer [n], held without rounding. *)
Definition float_int (x : float) (n : Z) : Prop :=
  exists m e, x = FFinite m e /\ e <= 0 /\ m = n * 2 ^ (- e).

(** ** Usernames, continued *)

(** The character is not an x, in either case. *)
Definition no_x (c : ascii) : bool := negb (Ascii.eqb (lower c) "x").

(** ** Leads, continued *)

Definition lead_keys : list string :=
  ["Name"; "Username"; "Handle"; "Description"; "Followers"].

(** A lead as parse_apify_items builds it: the five keys in order, a
    Handle that is a str, the Username extracted from that Handle, and
    Followers that are None or an int that is not negative. *)
Definition lead_wf (lead : dict) : Prop :=
  map fst lead = lead_keys /\
  (exists h, dict_lookup lead "Handle" = Some (VStr h) /\
             dict_lookup lead "Username" = Some (VStr (extract_username_from_url h))) /\
  (dict_lookup lead "Followers" = Some VNone \/
   exists n, 0 <= n /\ dict_lookup lead "Followers" = Some (VInt n)).

(** ** Configuration *)

(** [needle in s]: the str [needle] occurs in [s]. *)
Definition occurs (needle s : string) : bool :=
  match index 0 needle s with
  | Some _ => true
  | None => false
  end.

(** ** Runs of main *)

(** The topic main works with: the argument, or the line typed at the
    prompt, stripped, when the argument is missing or empty; no topic
    when the input has ended before a line. *)
Definition effective_topic (args_topic : option string) (typed : option string)
  : string :=
  if unset args_topic
  then match typed with Some line => strip line | None => EmptyString end
  else match args_topic with Some t => t | None => EmptyString end.

(** [input] is called and finds the end of the input. *)
Definition input_ended (args_topic : option string) (typed : option string)
  : Prop :=
  unset args_topic = true /\ typed = None.

(** What the try block that opens the spreadsheet gives before the tab is
    provisioned: authorize_gsheets, then [open_by_key]. *)
Definition opening (path_exists : string -> bool)
  (authorize open_by_key : string -> outcome unit)
  (sheet_credentials sheet_id : string) : outcome unit :=
  match authorize_gsheets path_exists authorize sheet_credentials with
  | Failed m => Failed m
  | Returned _ => open_by_key sheet_id
  end.

(** The line main prints after the append. *)
Definition appended_line (n : nat) (tab : string) : string :=
  ("Appended " ++ str_int (Z.of_nat n) ++ " rows to sheet '" ++ tab ++ "'.")%string.

(** Sample services: a search that answers with one container, a
    credentials file that exists, an authorisation that succeeds. *)
Definition sample_post (_ : request) : outcome value :=
  Returned (VList [sample_container]).

Definition sample_exists (_ : string) : bool := true.

Definition sample_service (_ : string) : outcome unit := Returned tt.

Definition sample_exn_text (_ : exn) : string := "error".

(** A spreadsheet service that fails in no call, and one that refuses
    [append_rows] and leaves the spreadsheet as it is. *)
Definition no_failure (_ : world) : option (string * world) := None.

Definition quota_failure (w : world) : option (string * world) :=
  Some ("Quota exceeded"%string, w).

Definition sample_process : process := mkProcess sample_world [] [].

(** The leads of the sample search. *)
Definition sample_leads : list dict :=
  match parse_apify_items no_repr [sample_container] with
  | Ok leads => leads
  | Raise _ => []
  end.

(** A search whose only result has a follower text with two dots. *)
Definition malformed_post (_ : request) : outcome value :=
  Returned (VList [VDict [("results",
                           VList [VDict [("title", VStr "Ada");
                                         ("followers", VStr "1.2.3K")]])]]).

(** ** Floats, continued *)

(** A float that is not negative and, when finite, below 2^1024; a
    finite one with a negative exponent has a mantissa of at most 2^53. *)
Definition float_bounded (x : float) : Prop :=
  match x with
  | FFinite m e => 0 <= m /\ if 0 <=? e then m * 2 ^ e < 2 ^ 1024 else m <= 2 ^ 53
  | FInf s => s = false
  | FNaN => False
  end.

(** * Properties *)

(** ** Strings *)

Lemma span_fst_all p s : all_chars p (fst (span p s)) = true.
Proof.
  induction s as [|c s IH]; simpl; [reflexivity|].
  destruct (p c) eqn:Hc; [|reflexivity].
  destruct (span p s) as [a b]; simpl in *. now rewrite Hc.
Qed.

Lemma span_all p s : all_chars p s = true -> span p s = (s, EmptyString).
Proof.
  induction s as [|c s IH]; simpl; [reflexivity|].
  intros H; apply andb_true_iff in H as [Hc Hs].
  now rewrite Hc, (IH Hs).
Qed.

Lemma filter_chars_all p s : all_chars p (filter_chars p s) = true.
Proof.
  induction s as [|c s IH]; simpl; [reflexivity|].
  destruct (p c) eqn:Hc; simpl; [now rewrite Hc|assumption].
Qed.

Lemma all_chars_app p s t :
  all_chars p (s ++ t) = all_chars p s && all_chars p t.
Proof.
  induction s as [|c s IH]; simpl; [reflexivity|].
  now rewrite IH, andb_assoc.
Qed.

Lemma all_chars_repeat p c n : p c = true -> all_chars p (repeat_char c n) = true.
Proof. intros Hc; induction n as [|n IH]; simpl; [reflexivity|now rewrite Hc]. Qed.

Lemma is_digit_value c : is_digit c = true -> 0 <= digit_value c <= 9.
Proof.
  unfold is_digit, digit_value; intros H.
  apply andb_true_iff in H as [H1 H2].
  apply Z.leb_le in H1, H2. lia.
Qed.

Lemma int_of_digits_from_nonneg s :
  forall acc, 0 <= acc -> all_chars is_digit s = true ->
  0 <= int_of_digits_from acc s.
Proof.
  induction s as [|c s IH]; cbn [int_of_digits_from all_chars];
    intros acc Hacc H; [assumption|].
  apply andb_true_iff in H as [Hc Hs].
  apply IH; [|assumption].
  pose proof (is_digit_value c Hc). lia.
Qed.

Lemma int_of_digits_nonneg s :
  all_chars is_digit s = true -> 0 <= int_of_digits s.
Proof. apply int_of_digits_from_nonneg; lia. Qed.

(** ** Floats *)

Lemma round_nearest_even_nonneg p q :
  0 <= p -> 0 < q -> nonneg_float (round_nearest_even p q).
Proof.
  intros Hp Hq. unfold round_nearest_even.
  destruct (p =? 0) eqn:Hp0; [simpl; lia|].
  apply Z.eqb_neq in Hp0.
  cbv zeta.
  match goal with |- context [Z.max ?x (-1074)] => set (e := Z.max x (-1074)) end.
  assert (Hnd : forall num den,
             (if 0 <=? e then (Z.abs p, q * 2 ^ e) else (Z.abs p * 2 ^ (- e), q))
             = (num, den) -> 0 <= num /\ 0 < den).
  { intros num den. destruct (0 <=? e) eqn:He; intros [= <- <-].
    - apply Z.leb_le in He. split; [lia|].
      apply Z.mul_pos_pos; [assumption|]. now apply Z.pow_pos_nonneg.
    - apply Z.leb_gt in He. split; [|assumption].
      apply Z.mul_nonneg_nonneg; [lia|]. apply Z.pow_nonneg; lia. }
  destruct (if 0 <=? e then _ else _) as [num den] eqn:Hnd'.
  destruct (Hnd num den eq_refl) as [Hnum Hden].
  assert (Hm : 0 <= num / den) by (apply Z.div_pos; lia).
  assert (Hs : Z.sgn p = 1) by (apply Z.sgn_pos; lia).
  destruct ((0 <=? e) && _).
  - simpl. apply Z.ltb_ge. lia.
  - simpl. rewrite Hs. destruct (_ || _); lia.
Qed.

Lemma fmul_int_nonneg x k :
  nonneg_float x -> 0 < k -> nonneg_float (fmul_int x k).
Proof.
  destruct x as [m e|s|]; simpl; intros Hx Hk; try assumption.
  destruct (0 <=? e) eqn:He.
  - apply round_nearest_even_nonneg; [|lia].
    apply Z.mul_nonneg_nonneg; [apply Z.mul_nonneg_nonneg; lia|].
    apply Z.pow_nonneg; lia.
  - apply Z.leb_gt in He.
    apply round_nearest_even_nonneg; [apply Z.mul_nonneg_nonneg; lia|].
    apply Z.pow_pos_nonneg; lia.
Qed.

Lemma py_round_nonneg x n :
  nonneg_float x -> py_round x = Ok n -> 0 <= n.
Proof.
  destruct x as [m e|s|]; simpl; intros Hx; try discriminate.
  destruct (0 <=? e) eqn:He; intros [= <-].
  - apply Z.mul_nonneg_nonneg; [assumption|]. apply Z.pow_nonneg; lia.
  - apply Z.leb_gt in He.
    assert (0 < 2 ^ (- e)) by (apply Z.pow_pos_nonneg; lia).
    assert (0 <= m / 2 ^ (- e)) by (apply Z.div_pos; lia).
    destruct (_ || _); lia.
Qed.

Lemma py_float_nonneg s x : py_float s = Ok x -> nonneg_float x.
Proof.
  unfold py_float.
  pose proof (span_fst_all is_digit s) as Hip.
  destruct (span is_digit s) as [ip rest]; simpl in Hip.
  destruct rest as [|c rest'].
  - destruct ip; [discriminate|]. intros [= <-].
    apply round_nearest_even_nonneg; [now apply int_of_digits_nonneg|lia].
  - destruct (Ascii.eqb c "."); [|discriminate].
    pose proof (span_fst_all is_digit rest') as Hfp.
    destruct (span is_digit rest') as [fp rest'']; simpl in Hfp.
    destruct rest''; [|discriminate].
    assert (Hnn : nonneg_float
                    (round_nearest_even (int_of_digits (ip ++ fp)) (10 ^ slen fp))).
    { apply round_nearest_even_nonneg.
      - apply int_of_digits_nonneg. now rewrite all_chars_app, Hip, Hfp.
      - apply Z.pow_pos_nonneg; [lia|]. unfold slen; lia. }
    destruct ip, fp; try discriminate; intros [= <-]; exact Hnn.
Qed.

(** On the literals and scalings of the follower counts at hand, and at
    the edges of the format (ties, subnormal numbers, overflow), the
    rounding of the model is the rounding of the Standard Library's
    specification. *)
Example round_nearest_even_agrees :
  forallb
    (fun '(p, q) =>
       same_number (round_nearest_even p q) (of_spec_float (spec_quotient p q)))
    [(123, 10); (12, 10); (1234, 1); (12345, 10); (1, 10); (1, 3); (2, 3);
     (9007199254740993, 1); (9007199254740995, 1); (36028797018963970, 1);
     (9007199254740993, 9007199254740992); (1, 2 ^ 1074); (1, 2 ^ 1075);
     (3, 2 ^ 1075); (5, 2 ^ 1076); (7, 2 ^ 1076); (1, 10 ^ 400);
     (2 ^ 1024 - 2 ^ 970 - 1, 1); (2 ^ 1024 - 2 ^ 970, 1); (10 ^ 309, 1)]
  = true.
Proof. vm_compute; reflexivity. Qed.

Example fmul_int_agrees :
  forallb
    (fun '(p, q, k) =>
       same_number (fmul_int (round_nearest_even p q) k)
                   (of_spec_float (spec_product (spec_quotient p q) k)))
    [(123, 10, 1000); (12, 10, 1000000); (12345, 10, 1000); (1, 3, 1000);
     (7, 9, 1000000); (1, 10, 1000); (2 ^ 1023, 1, 1000); (1, 2 ^ 1074, 1000)]
  = true.
Proof. vm_compute; reflexivity. Qed.

(** ** parse_followers *)

(** When the pattern finds nothing the fallback answers None: a text
    without a character of [[\d,.]] has no digit either. *)
Lemma search_followers_none_no_digit s :
  search_followers s = None -> filter_chars is_digit s = EmptyString.
Proof.
  induction s as [|c s IH]; [reflexivity|].
  cbn [search_followers filter_chars].
  destruct (is_num_char c) eqn:Hc.
  - destruct (span is_num_char (String c s)) as [a b].
    destruct (span is_space b); discriminate.
  - intros H. unfold is_num_char in Hc.
    destruct (is_digit c); [discriminate|]. auto.
Qed.

Lemma parse_followers_fallback s :
  search_followers (strip s) = None -> parse_followers (Some s) = Ok None.
Proof.
  intros H. unfold parse_followers. rewrite H.
  now rewrite (search_followers_none_no_digit _ H).
Qed.

Lemma search_followers_run c n :
  is_num_char c = true -> is_space c = false ->
  search_followers (repeat_char c (S n)) = Some (repeat_char c (S n), None).
Proof.
  intros Hc Hs. cbn [repeat_char search_followers]. rewrite Hc.
  change (String c (repeat_char c n)) with (repeat_char c (S n)).
  rewrite (span_all is_num_char (repeat_char c (S n))).
  - reflexivity.
  - now apply all_chars_repeat.
Qed.

Lemma rstrip_repeat c n : is_space c = false -> rstrip (repeat_char c n) = repeat_char c n.
Proof.
  intros Hs. induction n as [|n IH]; [reflexivity|].
  cbn [repeat_char rstrip]. rewrite IH, Hs. now destruct (repeat_char c n).
Qed.

Lemma strip_repeat c n : is_space c = false -> strip (repeat_char c n) = repeat_char c n.
Proof.
  intros Hs. unfold strip.
  replace (lstrip (repeat_char c n)) with (repeat_char c n)
    by (destruct n; simpl; [reflexivity|now rewrite Hs]).
  now apply rstrip_repeat.
Qed.

Lemma remove_commas_repeat n : remove_commas (repeat_char "," n) = EmptyString.
Proof. induction n as [|n IH]; [reflexivity|exact IH]. Qed.

Lemma remove_commas_dots n : remove_commas (repeat_char "." n) = repeat_char "." n.
Proof.
  induction n as [|n IH]; [reflexivity|].
  cbn [repeat_char]. unfold remove_commas in *. cbn [filter_chars].
  change (negb ("." =? ",")%char) with true. cbv iota. now rewrite IH.
Qed.

Lemma py_float_dots n : py_float (repeat_char "." n) = Raise ValueError.
Proof.
  destruct n as [|n]; [reflexivity|].
  unfold py_float. cbn [repeat_char span].
  change (is_digit ".") with false. cbv iota beta.
  change ("." =? ".")%char with true. cbv iota.
  destruct n as [|n]; [reflexivity|].
  cbn [repeat_char span]. change (is_digit ".") with false. reflexivity.
Qed.

(** C3: parse_followers gives 12300 for "12.3K", 1200000 for "1.2M",
    1234 for "1234", and None for the empty string, for None and for
    "abc". *)
Theorem parse_followers_examples :
  parse_followers (Some "12.3K") = Ok (Some 12300) /\
  parse_followers (Some "1.2M") = Ok (Some 1200000) /\
  parse_followers (Some "1234") = Ok (Some 1234) /\
  parse_followers (Some "") = Ok None /\
  parse_followers None = Ok None /\
  parse_followers (Some "abc") = Ok None.
Proof. repeat split; vm_compute; reflexivity. Qed.

(** C1 fails on the code: on every non-empty string made of commas only,
    and on every non-empty string made of dots only, parse_followers
    raises ValueError instead of answering None; a number too large for a
    float raises OverflowError. *)
Theorem parse_followers_raises :
  (forall n, parse_followers (Some (repeat_char "," (S n))) = Raise ValueError) /\
  (forall n, parse_followers (Some (repeat_char "." (S n))) = Raise ValueError) /\
  parse_followers (Some "1.2.3") = Raise ValueError /\
  parse_followers (Some (String "1" (repeat_char "0" 309))) = Raise OverflowError.
Proof.
  split; [|split; [|split]].
  - intros n. unfold parse_followers.
    rewrite strip_repeat by reflexivity.
    rewrite search_followers_run by reflexivity.
    now rewrite remove_commas_repeat.
  - intros n. unfold parse_followers.
    rewrite strip_repeat by reflexivity.
    rewrite search_followers_run by reflexivity.
    now rewrite remove_commas_dots, py_float_dots.
  - vm_compute; reflexivity.
  - vm_compute; reflexivity.
Qed.

(** C9: a value returned by parse_followers is never negative. *)
Theorem parse_followers_nonneg (text : option string) (n : Z) :
  parse_followers text = Ok (Some n) -> 0 <= n.
Proof.
  unfold parse_followers. destruct text as [text|]; [|discriminate].
  destruct (search_followers (strip text)) as [[num_str suffix]|] eqn:Hm.
  - destruct (py_float (remove_commas num_str)) as [num|e] eqn:Hf; [|discriminate].
    apply py_float_nonneg in Hf. cbn [bind].
    set (num' := match suffix with Some _ => _ | None => _ end).
    assert (Hnum' : nonneg_float num').
    { subst num'. destruct suffix as [c|]; [|assumption].
      destruct (Ascii.eqb (lower c) "k"); [apply fmul_int_nonneg; [assumption|lia]|].
      destruct (Ascii.eqb (lower c) "m"); [apply fmul_int_nonneg; [assumption|lia]|].
      assumption. }
    destruct (py_round num') as [r|e] eqn:Hr; [|discriminate].
    intros [= <-]. exact (py_round_nonneg _ _ Hnum' Hr).
  - pose proof (filter_chars_all is_digit (strip text)) as Hd.
    destruct (filter_chars is_digit (strip text)) as [|c d] eqn:Hdig; [discriminate|].
    cbn [try_except bind py_int]. intros [= <-]. now apply int_of_digits_nonneg.
Qed.

Lemma parse_followers_nonneg_witness :
  parse_followers (Some "12.3K") = Ok (Some 12300) /\ 0 <= 12300.
Proof.
  split; [vm_compute; reflexivity|].
  apply (parse_followers_nonneg (Some "12.3K") 12300). vm_compute; reflexivity.
Defined.

(** ** extract_username_from_url *)

Lemma sapp_assoc (a b c : string) : ((a ++ b) ++ c = a ++ b ++ c)%string.
Proof. induction a as [|x a IH]; simpl; [reflexivity|now rewrite IH]. Qed.

Lemma sapp_empty_r (a : string) : (a ++ "")%string = a.
Proof. induction a as [|x a IH]; simpl; [reflexivity|now rewrite IH]. Qed.

Lemma slength_app (a b : string) :
  String.length (a ++ b) = (String.length a + String.length b)%nat.
Proof. induction a as [|x a IH]; simpl; [reflexivity|now rewrite IH]. Qed.

Lemma span_app p s a b : span p s = (a, b) -> s = (a ++ b)%string.
Proof.
  revert a b; induction s as [|c s IH]; simpl; intros a b.
  - now intros [= <- <-].
  - destruct (p c).
    + destruct (span p s) as [a' b']. intros [= <- <-]. simpl.
      now rewrite (IH a' b' eq_refl).
    + now intros [= <- <-].
Qed.

Lemma span_stop p s :
  match snd (span p s) with
  | EmptyString => True
  | String c _ => p c = false
  end.
Proof.
  induction s as [|c s IH]; simpl; [exact I|].
  destruct (p c) eqn:Hc; [|simpl; exact Hc].
  now destruct (span p s).
Qed.

Lemma span_maximal p a b :
  all_chars p a = true ->
  match b with EmptyString => True | String c _ => p c = false end ->
  span p (a ++ b) = (a, b).
Proof.
  intros Ha Hb. induction a as [|c a IH]; simpl in *.
  - destruct b as [|c b]; [reflexivity|]. simpl. now rewrite Hb.
  - apply andb_true_iff in Ha as [Hc Ha]. now rewrite Hc, (IH Ha).
Qed.

Lemma match_literal_ci_app lit : forall mk rest,
  lower_string mk = lit -> match_literal_ci lit (mk ++ rest) = Some rest.
Proof.
  induction lit as [|a lit IH]; intros mk rest H.
  - destruct mk; [reflexivity|discriminate].
  - destruct mk as [|c mk]; [discriminate|]. simpl in *.
    injection H as Hc Hmk. now rewrite Hc, Ascii.eqb_refl, (IH _ _ Hmk).
Qed.

Lemma match_literal_ci_inv lit : forall s rest,
  match_literal_ci lit s = Some rest ->
  exists mk, s = (mk ++ rest)%string /\ lower_string mk = lit.
Proof.
  induction lit as [|a lit IH]; simpl; intros s rest H.
  - injection H as <-. now exists EmptyString.
  - destruct s as [|c s]; [discriminate|].
    destruct (Ascii.eqb_spec (lower c) a) as [Hc|]; [|discriminate].
    destruct (IH _ _ H) as (mk & -> & Hmk).
    exists (String c mk). simpl. now rewrite Hc, Hmk.
Qed.

Lemma ends_segment_stop rest :
  ends_segment rest <->
  match rest with EmptyString => True | String c _ => not_delim c = false end.
Proof.
  destruct rest as [|c rest]; simpl; [tauto|].
  unfold not_delim. destruct (is_delim c); simpl; intuition congruence.
Qed.

(** One attempt succeeds exactly on the shape that [matches_at] describes. *)
Lemma match_username_at_intro mk seg rest :
  lower_string mk = marker -> seg <> EmptyString ->
  all_chars not_delim seg = true -> ends_segment rest ->
  match_username_at (mk ++ seg ++ rest) = Some seg.
Proof.
  intros Hmk Hne Hseg Hrest. unfold match_username_at.
  rewrite (match_literal_ci_app _ _ _ Hmk).
  rewrite (span_maximal not_delim seg rest Hseg); [|now apply ends_segment_stop].
  simpl. destruct seg; [congruence|reflexivity].
Qed.

Lemma match_username_at_inv s seg :
  match_username_at s = Some seg ->
  exists mk rest,
    s = (mk ++ seg ++ rest)%string /\ lower_string mk = marker /\
    seg <> EmptyString /\ all_chars not_delim seg = true /\ ends_segment rest.
Proof.
  unfold match_username_at.
  destruct (match_literal_ci marker s) as [t|] eqn:Hlit; [|discriminate].
  destruct (match_literal_ci_inv _ _ _ Hlit) as (mk & -> & Hmk).
  pose proof (span_fst_all not_delim t) as Hall.
  pose proof (span_stop not_delim t) as Hstop.
  destruct (span not_delim t) as [a b] eqn:Hsp. simpl in *.
  destruct a as [|c a]; [discriminate|]. intros [= <-].
  exists mk, b. rewrite <- (span_app _ _ _ _ Hsp).
  repeat split; try assumption; [discriminate|].
  now apply ends_segment_stop.
Qed.

Lemma search_username_unfold url :
  search_username url =
  match match_username_at url with
  | Some seg => Some seg
  | None =>
      match url with
      | String _ url' => search_username url'
      | EmptyString => None
      end
  end.
Proof. destruct url; reflexivity. Qed.

(** The search answers with the leftmost successful attempt. *)
Lemma search_username_first pre : forall t seg,
  match_username_at t = Some seg ->
  (forall p1 p2, pre = (p1 ++ p2)%string -> p2 <> EmptyString ->
                 match_username_at (p2 ++ t) = None) ->
  search_username (pre ++ t) = Some seg.
Proof.
  induction pre as [|c pre IH]; intros t seg Ht Hpre.
  - simpl. now rewrite search_username_unfold, Ht.
  - rewrite search_username_unfold.
    rewrite (Hpre EmptyString (String c pre) eq_refl) by discriminate.
    simpl. apply IH; [assumption|].
    intros p1 p2 -> Hp2. now apply (Hpre (String c p1) p2).
Qed.

Lemma search_username_none url :
  (forall pre t, url = (pre ++ t)%string -> match_username_at t = None) ->
  search_username url = None.
Proof.
  induction url as [|c url IH]; intros H.
  - rewrite search_username_unfold. now rewrite (H EmptyString EmptyString eq_refl).
  - rewrite search_username_unfold.
    rewrite (H EmptyString (String c url) eq_refl).
    apply IH. intros pre t ->. now apply (H (String c pre) t).
Qed.

Lemma search_username_some url seg :
  search_username url = Some seg ->
  exists pre t, url = (pre ++ t)%string /\ match_username_at t = Some seg.
Proof.
  induction url as [|c url IH]; rewrite search_username_unfold.
  - destruct (match_username_at "") eqn:Hm; [|discriminate].
    intros [= ->]. now exists EmptyString, EmptyString.
  - destruct (match_username_at (String c url)) eqn:Hm.
    + intros [= ->]. now exists EmptyString, (String c url).
    + intros H. destruct (IH H) as (pre & t & -> & Ht).
      now exists (String c pre), t.
Qed.

Lemma search_username_nonempty url seg :
  search_username url = Some seg -> seg <> EmptyString.
Proof.
  intros H. destruct (search_username_some _ _ H) as (pre & t & _ & Ht).
  now destruct (match_username_at_inv _ _ Ht) as (mk & rest & _ & _ & Hne & _).
Qed.

Lemma extract_username_search url :
  extract_username_from_url url =
  match search_username url with Some seg => seg | None => EmptyString end.
Proof. destruct url; reflexivity. Qed.

Lemma matches_at_attempt pre t seg :
  match_username_at t = Some seg -> matches_at (pre ++ t) (String.length pre) seg.
Proof.
  intros Ht. destruct (match_username_at_inv _ _ Ht) as (mk & rest & -> & H).
  now exists pre, mk, rest.
Qed.

Lemma extract_username_first url i seg :
  matches_at url i seg ->
  (forall j seg', (j < i)%nat -> ~ matches_at url j seg') ->
  extract_username_from_url url = seg.
Proof.
  intros (pre & mk & rest & -> & <- & Hmk & Hne & Hseg & Hrest) Hfirst.
  rewrite extract_username_search.
  rewrite (search_username_first pre (mk ++ seg ++ rest) seg); [reflexivity| |].
  - now apply match_username_at_intro.
  - intros p1 p2 -> Hp2.
    destruct (match_username_at (p2 ++ mk ++ seg ++ rest)) as [seg'|] eqn:Hm;
      [|reflexivity].
    exfalso. apply (Hfirst (String.length p1) seg').
    + rewrite slength_app. destruct p2; [congruence|simpl; lia].
    + rewrite sapp_assoc. now apply matches_at_attempt.
Qed.

Lemma extract_username_no_match url :
  (forall i seg, ~ matches_at url i seg) -> extract_username_from_url url = EmptyString.
Proof.
  intros H. rewrite extract_username_search, search_username_none; [reflexivity|].
  intros pre t ->.
  destruct (match_username_at t) as [seg|] eqn:Hm; [|reflexivity].
  exfalso. exact (H _ _ (matches_at_attempt pre t seg Hm)).
Qed.

(** C8: "https://x.com/someuser" gives "someuser"; the empty string and
    "not a url" give the empty string; so does every URL in which no
    marker is followed by a segment; and when the marker with a segment
    occurs, the segment of its first occurrence is returned verbatim.
    The function is total: it never raises. *)
Theorem extract_username_spec :
  extract_username_from_url "https://x.com/someuser" = "someuser" /\
  extract_username_from_url "" = "" /\
  extract_username_from_url "not a url" = "" /\
  (forall url, (forall i seg, ~ matches_at url i seg) ->
               extract_username_from_url url = "") /\
  (forall url i seg,
      matches_at url i seg ->
      (forall j seg', (j < i)%nat -> ~ matches_at url j seg') ->
      extract_username_from_url url = seg).
Proof.
  repeat split; try reflexivity.
  - exact extract_username_no_match.
  - exact extract_username_first.
Qed.

Lemma search_username_none_inv url :
  search_username url = None ->
  forall pre t, url = (pre ++ t)%string -> match_username_at t = None.
Proof.
  induction url as [|c url IH]; rewrite search_username_unfold.
  - destruct (match_username_at "") eqn:Hm; [discriminate|].
    intros _ pre t H. destruct pre; [|discriminate]. simpl in H. now subst t.
  - destruct (match_username_at (String c url)) eqn:Hm; [discriminate|].
    intros H pre t Hurl. destruct pre as [|c' pre]; simpl in Hurl.
    + now subst t.
    + injection Hurl as _ Hurl. exact (IH H pre t Hurl).
Qed.

Lemma matches_at_found url i seg :
  matches_at url i seg -> exists seg', search_username url = Some seg'.
Proof.
  intros (pre & mk & rest & -> & _ & Hmk & Hne & Hseg & Hrest).
  destruct (search_username (pre ++ mk ++ seg ++ rest)) as [seg'|] eqn:Hs;
    [now exists seg'|].
  pose proof (search_username_none_inv _ Hs pre _ eq_refl) as Hnone.
  now rewrite match_username_at_intro in Hnone.
Qed.

Lemma matches_at_split url i seg :
  matches_at url i seg ->
  exists pre t, url = (pre ++ t)%string /\ String.length pre = i /\
                match_username_at t = Some seg.
Proof.
  intros (pre & mk & rest & -> & Hi & Hmk & Hne & Hseg & Hrest).
  exists pre, (mk ++ seg ++ rest)%string.
  repeat split; [assumption|]. now apply match_username_at_intro.
Qed.

Lemma someuser_first_match j seg' :
  (j < 8)%nat -> ~ matches_at "https://x.com/someuser" j seg'.
Proof.
  intros Hj H. destruct (matches_at_split _ _ _ H) as (pre & t & Hurl & Hlen & Ht).
  subst j.
  repeat (destruct pre as [|? pre];
          [simpl in Hurl; subst t; vm_compute in Ht; discriminate|];
          simpl in Hurl; injection Hurl as _ Hurl);
  simpl in Hj; lia.
Qed.

Lemma extract_username_spec_witness :
  matches_at "https://x.com/someuser" 8 "someuser" /\
  extract_username_from_url "https://x.com/someuser" = "someuser".
Proof.
  assert (H : matches_at "https://x.com/someuser" 8 "someuser").
  { exists "https://", "x.com/", "". repeat split. discriminate. }
  split; [exact H|].
  exact (proj2 (proj2 (proj2 (proj2 extract_username_spec))) _ 8%nat _ H
           someuser_first_match).
Defined.

(** C10: the marker is looked for at every offset of the input, in any
    letter case, not at the position of the host: "https://fakex.com/user",
    whose host is fakex.com, gives "user"; in general a non-empty username
    is returned exactly when the marker followed by a segment stands at
    some offset. *)
Theorem extract_username_matches_anywhere :
  extract_username_from_url "https://fakex.com/user" = "user" /\
  extract_username_from_url "https://notX.COM/user?tab=1" = "user" /\
  (forall url,
      extract_username_from_url url <> "" <-> exists i seg, matches_at url i seg).
Proof.
  split; [reflexivity|split; [reflexivity|]].
  intros url. rewrite extract_username_search. split.
  - destruct (search_username url) as [seg|] eqn:Hs; [|congruence].
    intros _. destruct (search_username_some _ _ Hs) as (pre & t & -> & Ht).
    exists (String.length pre), seg. now apply matches_at_attempt.
  - intros (i & seg & H). destruct (matches_at_found _ _ _ H) as (seg' & Hs).
    rewrite Hs. exact (search_username_nonempty _ _ Hs).
Qed.

Lemma extract_username_matches_anywhere_witness :
  extract_username_from_url "https://fakex.com/user" <> "".
Proof.
  apply (proj2 (proj2 (proj2 extract_username_matches_anywhere) "https://fakex.com/user")).
  exists 12%nat, "user", "https://fake", "x.com/", "".
  repeat split. discriminate.
Defined.

(** ** Decimal strings *)

Lemma digit_value_digit_char d : 0 <= d <= 9 -> digit_value (digit_char d) = d.
Proof.
  intros H.
  assert (Hd : d = 0 \/ d = 1 \/ d = 2 \/ d = 3 \/ d = 4 \/ d = 5 \/ d = 6
               \/ d = 7 \/ d = 8 \/ d = 9) by lia.
  repeat (destruct Hd as [->|Hd]; [reflexivity|]). now subst d.
Qed.

Lemma digits_of_pos_value fuel : forall n acc,
  0 <= n < 2 ^ Z.of_nat fuel ->
  int_of_digits (digits_of_pos fuel n acc) = int_of_digits_from n acc.
Proof.
  induction fuel as [|fuel IH]; intros n acc Hn.
  - simpl in Hn. assert (n = 0) by lia. now subst n.
  - cbn [digits_of_pos].
    assert (Hmod : 0 <= n mod 10 <= 9) by (pose proof (Z.mod_pos_bound n 10); lia).
    destruct (n <? 10) eqn:Hlt.
    + apply Z.ltb_lt in Hlt. rewrite Z.mod_small by lia.
      unfold int_of_digits. cbn [int_of_digits_from].
      rewrite digit_value_digit_char by lia. now rewrite Z.mul_0_r.
    + rewrite IH.
      * cbn [int_of_digits_from]. rewrite digit_value_digit_char by assumption.
        now rewrite <- Z.div_mod by lia.
      * rewrite Nat2Z.inj_succ, Z.pow_succ_r in Hn by lia.
        split; [apply Z.div_pos; lia|].
        apply Z.div_lt_upper_bound; lia.
Qed.

(** [str_int] writes a number in decimal: reading the digits gives it back. *)
Lemma str_int_decimal n : 0 <= n -> int_of_digits (str_int n) = n.
Proof.
  intros Hn. unfold str_int.
  destruct (n =? 0) eqn:H0; [apply Z.eqb_eq in H0; now subst n|].
  apply Z.eqb_neq in H0.
  destruct (n <? 0) eqn:Hneg; [apply Z.ltb_lt in Hneg; lia|].
  rewrite digits_of_pos_value; [reflexivity|].
  split; [lia|].
  rewrite Nat2Z.inj_add, Z2Nat.id by apply Z.log2_nonneg.
  change (Z.of_nat 1) with 1. rewrite Z.add_1_r.
  apply Z.log2_spec. lia.
Qed.

(** ** parse_apify_items *)

Lemma lacks_result_lists_entries c : lacks_result_lists c -> entries_of c = [].
Proof.
  unfold lacks_result_lists, entries_of, organic_of. intros H.
  destruct (unwrap_item c) as [| | | | |l|d]; try reflexivity.
  destruct (H d eq_refl) as [Ho Hr].
  destruct (dict_lookup d "organicResults") as [[| | | | |l|]|] eqn:Eo;
    try (exfalso; apply Ho; now exists l);
    destruct (dict_lookup d "results") as [[| | | | |l'|]|] eqn:Er;
    try reflexivity; exfalso; apply Hr; now exists l'.
Qed.

Lemma map_result_app {A B : Type} (f : A -> result B) (l1 l2 : list A) :
  map_result f (l1 ++ l2) =
  (xs <- map_result f l1 ;; ys <- map_result f l2 ;; Ok (xs ++ ys)).
Proof.
  induction l1 as [|x l1 IH]; simpl.
  - now destruct (map_result f l2).
  - destruct (f x) as [y|e]; simpl; [|reflexivity].
    rewrite IH. destruct (map_result f l1) as [xs|e]; simpl; [|reflexivity].
    now destruct (map_result f l2).
Qed.

Lemma map_result_Forall2 {A B : Type} (f : A -> result B) (l : list A) :
  forall ys, map_result f l = Ok ys -> Forall2 (fun x y => f x = Ok y) l ys.
Proof.
  induction l as [|x l IH]; simpl; intros ys.
  - intros [= <-]. constructor.
  - destruct (f x) as [y|e] eqn:Hx; simpl; [|discriminate].
    destruct (map_result f l) as [ys'|e]; simpl; [|discriminate].
    intros [= <-]. constructor; [assumption|now apply IH].
Qed.

Section LeadsProperties.
Variable repr : value -> string.

Lemma append_entries_map organic : forall leads,
  append_entries repr organic leads =
  (ls <- map_result (lead_of_entry repr) organic ;; Ok (leads ++ ls)).
Proof.
  induction organic as [|r organic IH]; intros leads; simpl.
  - now rewrite app_nil_r.
  - destruct (lead_of_entry repr r) as [lead|e]; simpl; [|reflexivity].
    rewrite IH.
    destruct (map_result (lead_of_entry repr) organic) as [ls|e]; simpl;
      [|reflexivity].
    now rewrite <- app_assoc.
Qed.

Lemma items_loop_map items : forall leads,
  items_loop repr items leads =
  (ls <- map_result (lead_of_entry repr) (flat_map entries_of items) ;;
   Ok (leads ++ ls)).
Proof.
  induction items as [|item items IH]; intros leads.
  - simpl. now rewrite app_nil_r.
  - cbn [items_loop flat_map]. fold (entries_of item).
    rewrite map_result_app.
    destruct (entries_of item) as [|r organic] eqn:Ho.
    + rewrite IH. simpl.
      now destruct (map_result (lead_of_entry repr) (flat_map entries_of items)).
    + rewrite append_entries_map.
      destruct (map_result (lead_of_entry repr) (r :: organic)) as [xs|e];
        cbn [bind]; [|reflexivity].
      rewrite IH.
      destruct (map_result (lead_of_entry repr) (flat_map entries_of items))
        as [ys|e]; cbn [bind]; [|reflexivity].
      now rewrite app_assoc.
Qed.

Lemma parse_apify_items_map items :
  parse_apify_items repr items =
  map_result (lead_of_entry repr) (flat_map entries_of items).
Proof.
  unfold parse_apify_items. rewrite items_loop_map.
  now destruct (map_result (lead_of_entry repr) (flat_map entries_of items)).
Qed.

(** C7: a container without an "organicResults" list and without a
    "results" list adds no lead and raises nothing, wherever it stands
    among the containers; the leads are the leads of the entries of the
    containers, container after container and entry after entry, one
    lead for each entry. *)
Theorem parse_apify_items_order :
  (forall c, lacks_result_lists c -> parse_apify_items repr [c] = Ok []) /\
  (forall pre c post,
      lacks_result_lists c ->
      parse_apify_items repr (pre ++ c :: post) = parse_apify_items repr (pre ++ post)) /\
  (forall items,
      parse_apify_items repr items =
      map_result (lead_of_entry repr) (flat_map entries_of items)) /\
  (forall items leads,
      parse_apify_items repr items = Ok leads ->
      Forall2 (fun r lead => lead_of_entry repr r = Ok lead)
              (flat_map entries_of items) leads /\
      List.length leads = List.length (flat_map entries_of items)).
Proof.
  split; [|split; [|split]].
  - intros c Hc. rewrite parse_apify_items_map. simpl.
    now rewrite (lacks_result_lists_entries c Hc).
  - intros pre c post Hc. rewrite !parse_apify_items_map, !flat_map_app.
    simpl. now rewrite (lacks_result_lists_entries c Hc).
  - exact parse_apify_items_map.
  - intros items leads H. rewrite parse_apify_items_map in H.
    apply map_result_Forall2 in H. split; [assumption|].
    symmetry. exact (Forall2_length H).
Qed.
End LeadsProperties.

Lemma sample_skipped_lacks : lacks_result_lists sample_skipped.
Proof.
  intros d [= <-]. split; intros [l H]; discriminate.
Qed.

Lemma parse_apify_items_order_witness :
  lacks_result_lists sample_skipped /\
  parse_apify_items no_repr [sample_container; sample_skipped; sample_container] =
  parse_apify_items no_repr [sample_container; sample_container] /\
  List.length (flat_map entries_of [sample_skipped; sample_container]) = 2%nat.
Proof.
  split; [exact sample_skipped_lacks|split].
  - exact (proj1 (proj2 (parse_apify_items_order no_repr))
             [sample_container] sample_skipped [sample_container]
             sample_skipped_lacks).
  - reflexivity.
Defined.

(** ** Sheets *)

Lemma is_digit_digit_char d : 0 <= d <= 9 -> is_digit (digit_char d) = true.
Proof.
  intros H.
  assert (Hd : d = 0 \/ d = 1 \/ d = 2 \/ d = 3 \/ d = 4 \/ d = 5 \/ d = 6
               \/ d = 7 \/ d = 8 \/ d = 9) by lia.
  repeat (destruct Hd as [->|Hd]; [reflexivity|]). now subst d.
Qed.

Lemma is_timestamp_isoformat d :
  valid_datetime d -> is_timestamp (isoformat_seconds d ++ " UTC")%string = true.
Proof.
  intros (Hy & Hmo & Hd & Hh & Hmi & Hs).
  unfold isoformat_seconds, pad4, pad2, is_timestamp.
  cbn [append list_ascii_of_string].
  rewrite !is_digit_digit_char; [reflexivity|..];
    Z.to_euclidean_division_equations; lia.
Qed.

Section AppendProperties.
Variable repr : value -> string.
Variable user_entered : value -> string.

Lemma build_rows_map now topic leads : forall rows,
  build_rows repr now topic leads rows =
  rows ++ map (row_of_lead repr now topic) leads.
Proof.
  induction leads as [|lead leads IH]; intros rows; simpl.
  - now rewrite app_nil_r.
  - now rewrite IH, <- app_assoc.
Qed.

(** C6: with an empty list of leads append_leads_to_sheet returns 0 and
    leaves the world as it was: no call reaches the spreadsheet service
    (the trace is the same), no tab changes, the clock is not read. *)
Theorem append_leads_empty (ws topic : string) (w : world) :
  append_leads_to_sheet repr user_entered ws topic [] w = (0, w) /\
  trace (snd (append_leads_to_sheet repr user_entered ws topic [] w)) = trace w /\
  tabs (snd (append_leads_to_sheet repr user_entered ws topic [] w)) = tabs w.
Proof. repeat split. Qed.

(** C4: for a non-empty list of leads whose Followers can be printed
    (None, or an int within the limit of digits of [str], as every lead
    of parse_apify_items has them) append_leads_to_sheet returns the
    number of leads; it reads the clock once and issues one append call,
    whose rows, one for each lead in order, all start with the same
    timestamp of the shape [YYYY-MM-DD HH:MM:SS UTC] followed by the
    topic. *)
Theorem append_leads_nonempty (ws topic : string) (leads : list dict) (w : world) :
  leads <> [] ->
  Forall followers_printable leads ->
  valid_datetime (clock w (ticks w)) ->
  let now := (isoformat_seconds (clock w (ticks w)) ++ " UTC")%string in
  let rows := map (row_of_lead repr now topic) leads in
  let '(n, w') := append_leads_to_sheet repr user_entered ws topic leads w in
  n = Z.of_nat (List.length leads) /\
  ticks w' = S (ticks w) /\
  trace w' = trace w ++ [CallAppendRows ws rows "USER_ENTERED"] /\
  List.length rows = List.length leads /\
  is_timestamp now = true /\
  Forall (fun row => nth_error row 0 = Some (VStr now) /\
                     nth_error row 1 = Some (VStr topic)) rows.
Proof.
  intros Hne _ Hvalid now rows.
  destruct leads as [|lead leads']; [congruence|].
  set (leads := lead :: leads') in *.
  unfold append_leads_to_sheet. fold leads.
  change (match leads with [] => (0, w) | _ :: _ => ?x end) with x.
  cbn [utcnow]. fold now.
  rewrite build_rows_map. cbn [app]. fold rows.
  unfold ws_append_rows, log, set_tabs. cbn [tabs trace clock ticks].
  repeat split.
  - subst rows. now rewrite length_map.
  - subst rows. apply length_map.
  - now apply is_timestamp_isoformat.
  - subst rows. apply Forall_forall. intros row Hrow.
    apply in_map_iff in Hrow as (l & <- & _). split; reflexivity.
Qed.

(** The Followers cell of the row of a lead whose followers are [n]. *)
Lemma followers_cell_int now topic rest n :
  nth_error (row_of_lead repr now topic (("Followers", VInt n) :: rest)) 6 =
  Some (VStr (if n =? 0 then "" else str_int n)).
Proof.
  unfold row_of_lead. cbn [nth_error]. do 2 f_equal.
  unfold dict_get_default. cbn [dict_lookup].
  change ("Followers" =? "Followers")%string with true. cbv iota.
  unfold py_or. cbn [truthy]. now destruct (n =? 0).
Qed.

Lemma followers_cell_none now topic rest :
  nth_error (row_of_lead repr now topic (("Followers", VNone) :: rest)) 6 =
  Some (VStr "").
Proof. reflexivity. Qed.

(** C2 fails on the code at zero: the entry whose follower text is "0"
    becomes a lead with followers 0, and the row of that lead has an
    empty Followers cell, although the decimal string of 0 is "0".  In
    general the cell of followers [n] is empty when [n] is 0 and the
    decimal string of [n] otherwise; it is empty for absent followers. *)
Theorem followers_cell_zero_is_empty :
  let entry := VDict [("title", VStr "Ada"); ("url", VStr "https://x.com/ada");
                      ("followersAmount", VStr "0")] in
  let lead := [("Name", VStr "Ada"); ("Username", VStr "ada");
               ("Handle", VStr "https://x.com/ada"); ("Description", VStr "");
               ("Followers", VInt 0)] in
  parse_apify_items repr [VDict [("organicResults", VList [entry])]] = Ok [lead] /\
  (forall now topic,
      nth_error (row_of_lead repr now topic lead) 6 = Some (VStr "")) /\
  str_int 0 = "0"%string /\
  (forall now topic rest n,
      nth_error (row_of_lead repr now topic (("Followers", VInt n) :: rest)) 6 =
      Some (VStr (if n =? 0 then "" else str_int n))) /\
  (forall now topic rest,
      nth_error (row_of_lead repr now topic (("Followers", VNone) :: rest)) 6 =
      Some (VStr "")).
Proof.
  cbv zeta. split; [vm_compute; reflexivity|].
  split; [reflexivity|]. split; [reflexivity|].
  split; [exact followers_cell_int|exact followers_cell_none].
Qed.
End AppendProperties.

(** ** ensure_sheet_tab *)

Lemma find_tab_update ts title f :
  find_tab (update_tab ts title f) title =
  option_map (fun t => mkWorksheet (ws_title t) (f (ws_grid t))) (find_tab ts title).
Proof.
  induction ts as [|t ts IH]; simpl; [reflexivity|].
  destruct (String.eqb (ws_title t) title) eqn:Ht; simpl; now rewrite Ht.
Qed.

Lemma find_tab_new ts title g :
  find_tab ts title = None ->
  find_tab (ts ++ [mkWorksheet title g]) title = Some (mkWorksheet title g).
Proof.
  induction ts as [|t ts IH]; simpl.
  - now rewrite String.eqb_refl.
  - destruct (String.eqb (ws_title t) title); [discriminate|exact IH].
Qed.

Lemma trim_row_prefix a : forall b,
  Forall (fun c => c <> EmptyString) a ->
  firstn (List.length a) (trim_row (a ++ b)) = a.
Proof.
  induction a as [|c a IH]; intros b Ha; [reflexivity|].
  inversion Ha as [|? ? Hc Ha']; subst.
  specialize (IH b Ha'). cbn [app trim_row List.length].
  destruct (trim_row (a ++ b)) as [|c' r] eqn:Ht.
  - destruct a; [|discriminate].
    apply String.eqb_neq in Hc. now rewrite Hc.
  - cbn [firstn]. now rewrite IH.
Qed.

Lemma headers_nonempty : Forall (fun c => c <> EmptyString) headers.
Proof. repeat constructor; discriminate. Qed.

Lemma trim_row_headers row :
  firstn 7 row = headers -> firstn 7 (trim_row row) = headers.
Proof.
  intros H. rewrite <- (firstn_skipn 7 row), H.
  exact (trim_row_prefix headers (skipn 7 row) headers_nonempty).
Qed.

Lemma overwrite_row_headers old : firstn 7 (overwrite_row headers old) = headers.
Proof. reflexivity. Qed.

(** Provisioning a tab whose header is in place only reads. *)
Lemma ensure_sheet_tab_noop tab w :
  tab_exists w tab -> header_ok w tab ->
  ensure_sheet_tab tab w =
  (Ok tab, mkWorld (tabs w) (trace w ++ read_calls tab) (clock w) (ticks w)).
Proof.
  destruct w as [ts tr cl tk].
  unfold tab_exists, header_ok, header_row, grid_of. cbn [tabs trace clock ticks].
  intros [t Ht] Hok. rewrite Ht in Hok.
  unfold ensure_sheet_tab, sheet_worksheet, ws_row_values_1, grid_of, log.
  cbn [tabs trace clock ticks]. rewrite Ht. cbn [tabs trace clock ticks].
  rewrite Ht.
  pose proof (trim_row_headers _ Hok) as Htrim.
  destruct (trim_row (hd [] (ws_grid t))) as [|c r] eqn:Hrow; [discriminate|].
  change (List.length headers) with 7%nat. rewrite Htrim.
  destruct (list_eq_dec string_dec headers headers) as [_|Hn]; [|congruence].
  now rewrite <- app_assoc.
Qed.

Lemma trim_row_pad row : exists k, row = trim_row row ++ repeat EmptyString k.
Proof.
  induction row as [|c row [k IH]]; [now exists 0%nat|].
  cbn [trim_row]. destruct (trim_row row) as [|c' r] eqn:Ht.
  - destruct (String.eqb_spec c "") as [->|Hc].
    + exists (S k). simpl in *. now rewrite IH at 1.
    + exists k. simpl in *. now rewrite IH at 1.
  - exists k. simpl in *. now rewrite IH at 1.
Qed.

Lemma firstn_trim_row row :
  firstn 7 (trim_row row) = headers -> firstn 7 row = headers.
Proof.
  intros H. destruct (trim_row_pad row) as [k Hk].
  set (t := trim_row row) in *. rewrite Hk, firstn_app.
  assert (Hlen : (7 <= List.length t)%nat).
  { apply (f_equal (@List.length string)) in H.
    rewrite length_firstn in H. change (List.length headers) with 7%nat in H. lia. }
  replace (7 - List.length t)%nat with 0%nat by lia.
  now rewrite app_nil_r.
Qed.

(** After provisioning the tab is there, with the header in place. *)
Lemma ensure_sheet_tab_establishes tab w :
  exists w1, ensure_sheet_tab tab w = (Ok tab, w1) /\
             tab_exists w1 tab /\ header_ok w1 tab.
Proof.
  destruct w as [ts tr cl tk].
  unfold ensure_sheet_tab, sheet_worksheet, sheet_add_worksheet,
    ws_row_values_1, ws_update_A1G1, log, set_tabs, tab_exists, header_ok,
    header_row, grid_of.
  cbn [tabs trace clock ticks].
  destruct (find_tab ts tab) as [t|] eqn:Ht.
  - cbn [tabs trace clock ticks]. rewrite Ht.
    destruct (trim_row (hd [] (ws_grid t))) as [|c r] eqn:Hrow.
    + eexists; split; [reflexivity|]. cbn [tabs].
      rewrite find_tab_update, Ht. simpl. split; [eauto|reflexivity].
    + destruct (list_eq_dec string_dec _ headers) as [Heq|Hneq].
      * eexists; split; [reflexivity|]. cbn [tabs]. rewrite Ht.
        split; [eauto|].
        rewrite <- Hrow in Heq. exact (firstn_trim_row _ Heq).
      * eexists; split; [reflexivity|]. cbn [tabs].
        rewrite find_tab_update, Ht. simpl. split; [eauto|reflexivity].
  - cbn [tabs trace clock ticks]. rewrite (find_tab_new _ _ [] Ht). cbn.
    eexists; split; [reflexivity|]. cbn [tabs].
    rewrite find_tab_update, (find_tab_new _ _ [] Ht). simpl.
    split; [eauto|reflexivity].
Qed.

(** C5: provisioning is idempotent on the header.  On a tab whose first
    row carries the header on its first seven cells, ensure_sheet_tab
    only reads: no tab changes and the trace grows by the two reads, with
    no update call.  Hence, of two provisionings in succession, the second
    writes nothing and the header row after it is the header row after the
    first. *)
Theorem ensure_sheet_tab_idempotent (tab : string) (w : world) :
  (tab_exists w tab -> header_ok w tab ->
   exists w',
     ensure_sheet_tab tab w = (Ok tab, w') /\
     tabs w' = tabs w /\ trace w' = trace w ++ read_calls tab) /\
  (let '(_, w1) := ensure_sheet_tab tab w in
   let '(ws2, w2) := ensure_sheet_tab tab w1 in
   ws2 = Ok tab /\
   tabs w2 = tabs w1 /\
   trace w2 = trace w1 ++ read_calls tab /\
   header_row w2 tab = header_row w1 tab /\
   firstn 7 (header_row w2 tab) = headers).
Proof.
  split.
  - intros Hex Hok. rewrite (ensure_sheet_tab_noop tab w Hex Hok).
    eexists; split; [reflexivity|]. split; reflexivity.
  - destruct (ensure_sheet_tab_establishes tab w) as (w1 & -> & Hex & Hok).
    rewrite (ensure_sheet_tab_noop tab w1 Hex Hok).
    unfold header_ok, header_row, grid_of in *. cbn [tabs trace].
    repeat split. exact Hok.
Qed.

(** ** Concrete runs *)

Lemma sample_world_valid : valid_datetime (clock sample_world (ticks sample_world)).
Proof. unfold valid_datetime; simpl; lia. Qed.

Lemma sample_lead_printable : followers_printable sample_lead.
Proof. unfold followers_printable, printable. vm_compute. reflexivity. Qed.

Lemma append_leads_nonempty_witness :
  [sample_lead; sample_lead] <> [] /\
  Forall followers_printable [sample_lead; sample_lead] /\
  valid_datetime (clock sample_world (ticks sample_world)) /\
  fst (append_leads_to_sheet no_repr no_repr "Leads" "nft artists"
         [sample_lead; sample_lead] sample_world) = 2.
Proof.
  assert (Hne : [sample_lead; sample_lead] <> []) by discriminate.
  assert (Hpr : Forall followers_printable [sample_lead; sample_lead])
    by (repeat constructor; exact sample_lead_printable).
  split; [exact Hne|]. split; [exact Hpr|]. split; [exact sample_world_valid|].
  pose proof (append_leads_nonempty no_repr no_repr "Leads" "nft artists"
                [sample_lead; sample_lead] sample_world Hne Hpr
                sample_world_valid) as H.
  cbv zeta in H.
  destruct (append_leads_to_sheet no_repr no_repr "Leads" "nft artists"
              [sample_lead; sample_lead] sample_world) as [n w'].
  destruct H as [Hn _]. exact Hn.
Defined.

Lemma ensure_sheet_tab_idempotent_witness :
  tab_exists sample_world "Leads" /\ header_ok sample_world "Leads" /\
  exists w',
    ensure_sheet_tab "Leads" sample_world = (Ok "Leads"%string, w') /\
    tabs w' = tabs sample_world /\
    trace w' = trace sample_world ++ read_calls "Leads".
Proof.
  assert (Hex : tab_exists sample_world "Leads") by (eexists; reflexivity).
  assert (Hok : header_ok sample_world "Leads") by reflexivity.
  split; [exact Hex|]. split; [exact Hok|].
  exact (proj1 (ensure_sheet_tab_idempotent "Leads" sample_world) Hex Hok).
Defined.

Example ensure_sheet_tab_creates :
  ensure_sheet_tab "New" sample_world =
  (Ok "New"%string,
   mkWorld [mkWorksheet "Sheet1" []; mkWorksheet "Leads" [headers ++ ["Notes"]];
            mkWorksheet "New" [headers]]
           [CallWorksheet "New"; CallAddWorksheet "New" "1000" "20";
            CallRowValues "New" 1; CallUpdate "New" "A1:G1" [headers]]
           sample_clock 14).
Proof. reflexivity. Qed.

Example append_leads_run :
  append_leads_to_sheet no_repr shown "Leads" "nft" [sample_lead] sample_world =
  (1,
   mkWorld [mkWorksheet "Sheet1" [];
            mkWorksheet "Leads"
              [headers ++ ["Notes"];
               ["2025-03-09 14:05:07 UTC"; "nft"; "Ada"; "ada";
                "https://x.com/ada"; ""; "1200000"]%string]]
           [CallAppendRows "Leads"
              [[VStr "2025-03-09 14:05:07 UTC"; VStr "nft"; VStr "Ada"; VStr "ada";
                VStr "https://x.com/ada"; VStr ""; VStr "1200000"]]
              "USER_ENTERED"]
           sample_clock 15).
Proof. reflexivity. Qed.

(** * Further properties *)

(** ** Exact integers in binary64 *)

Lemma round_nearest_even_int n q :
  0 <= n < 2 ^ 53 -> 0 < q -> float_int (round_nearest_even (n * q) q) n.
Proof.
  intros [Hn0 Hn] Hq. unfold round_nearest_even.
  destruct (n * q =? 0) eqn:Hz.
  - apply Z.eqb_eq in Hz. exists 0, 0. assert (n = 0) by nia. subst n. now repeat split.
  - apply Z.eqb_neq in Hz. assert (Hn1 : 0 < n) by nia.
    assert (Ha : Z.abs (n * q) = n * q) by (apply Z.abs_eq; nia).
    rewrite Ha. clear Ha.
    pose proof (Z.log2_mul_below n q Hn1 Hq) as Hlo.
    pose proof (Z.log2_mul_above n q ltac:(lia) ltac:(lia)) as Hhi.
    pose proof (Z.log2_spec n Hn1) as [HL1 HL2].
    pose proof (Z.log2_nonneg n) as HL0.
    assert (HL : Z.log2 n <= 52)
      by (assert (Z.log2 n < 53) by (apply Z.log2_lt_pow2; lia); lia).
    set (L := Z.log2 n) in *.
    set (d := Z.log2 (n * q) - Z.log2 q).
    assert (Hd : d = L \/ d = L + 1) by (subst d; lia).
    assert (Hlg : (if (if 0 <=? d then q * 2 ^ d <=? n * q else q <=? n * q * 2 ^ (- d))
                   then d else d - 1) = L).
    { replace (0 <=? d) with true by (symmetry; apply Z.leb_le; lia).
      destruct Hd as [-> | ->].
      - replace (q * 2 ^ L <=? n * q) with true; [reflexivity|].
        symmetry; apply Z.leb_le. nia.
      - replace (q * 2 ^ (L + 1) <=? n * q) with false; [lia|].
        symmetry; apply Z.leb_gt.
        rewrite Z.add_1_r. rewrite <- Z.add_1_r. nia. }
    cbv zeta. fold d. rewrite Hlg.
    replace (Z.max (L - 52) (-1074)) with (L - 52) by lia.
    assert (Hsgn : Z.sgn (n * q) = 1) by (apply Z.sgn_pos; nia).
    rewrite Hsgn.
    destruct (0 <=? L - 52) eqn:He.
    + apply Z.leb_le in He. assert (L = 52) by lia.
      replace (L - 52) with 0 by lia. change (2 ^ 0) with 1.
      rewrite !Z.mul_1_r, Z.mul_1_l. rewrite Z.div_mul, Z.mod_mul by lia.
      replace (q <? 2 * 0) with false by (symmetry; apply Z.ltb_ge; lia).
      replace (q =? 2 * 0) with false by (symmetry; apply Z.eqb_neq; lia).
      cbn [orb andb].
      replace (2 ^ 1024 <=? n) with false.
      * exists n, 0. repeat split; [lia|]. change (2 ^ (- 0)) with 1. lia.
      * symmetry; apply Z.leb_gt.
        apply Z.lt_trans with (2 ^ 53); [assumption|reflexivity].
    + apply Z.leb_gt in He. cbn [andb]. rewrite Z.mul_1_l.
      replace (n * q * 2 ^ (- (L - 52))) with (n * 2 ^ (- (L - 52)) * q) by ring.
      rewrite Z.div_mul, Z.mod_mul by lia.
      replace (q <? 2 * 0) with false by (symmetry; apply Z.ltb_ge; lia).
      replace (q =? 2 * 0) with false by (symmetry; apply Z.eqb_neq; lia).
      cbn [orb andb].
      exists (n * 2 ^ (- (L - 52))), (L - 52). repeat split; lia.
Qed.

Lemma fmul_int_int x n k :
  float_int x n -> 0 <= n -> 0 < k -> n * k < 2 ^ 53 ->
  float_int (fmul_int x k) (n * k).
Proof.
  intros (m & e & -> & He & ->) Hn Hk Hnk. cbn [fmul_int].
  destruct (0 <=? e) eqn:Hpos.
  - apply Z.leb_le in Hpos. assert (e = 0) by lia. subst e.
    change (2 ^ (- 0)) with 1. change (2 ^ 0) with 1.
    rewrite !Z.mul_1_r. rewrite <- (Z.mul_1_r (n * k)) at 1.
    apply round_nearest_even_int; nia.
  - apply Z.leb_gt in Hpos.
    replace (n * 2 ^ (- e) * k) with (n * k * 2 ^ (- e)) by ring.
    apply round_nearest_even_int; [nia|]. apply Z.pow_pos_nonneg; lia.
Qed.

Lemma py_round_int x n : float_int x n -> py_round x = Ok n.
Proof.
  intros (m & e & -> & He & ->). cbn [py_round].
  destruct (0 <=? e) eqn:Hpos.
  - apply Z.leb_le in Hpos. assert (e = 0) by lia. subst e.
    change (2 ^ (- 0)) with 1. change (2 ^ 0) with 1. now rewrite !Z.mul_1_r.
  - apply Z.leb_gt in Hpos.
    assert (Hden : 0 < 2 ^ (- e)) by (apply Z.pow_pos_nonneg; lia).
    cbv zeta. rewrite Z.div_mul, Z.mod_mul by lia.
    replace (2 ^ (- e) <? 2 * 0) with false by (symmetry; apply Z.ltb_ge; lia).
    replace (2 ^ (- e) =? 2 * 0) with false by (symmetry; apply Z.eqb_neq; lia).
    reflexivity.
Qed.

(** ** Follower texts *)

Lemma space_not_num c : is_space c = true -> is_num_char c = false.
Proof.
  destruct c as [[] [] [] [] [] [] [] []]; intros H;
    first [reflexivity | discriminate H].
Qed.

Lemma num_not_space c : is_num_char c = true -> is_space c = false.
Proof.
  intros H. destruct (is_space c) eqn:Hs; [|reflexivity].
  apply space_not_num in Hs. congruence.
Qed.

Lemma suffix_char_cases c :
  is_suffix_char c = true -> c = "K"%char \/ c = "k"%char \/ c = "M"%char \/ c = "m"%char.
Proof.
  unfold is_suffix_char. intros H.
  repeat (apply orb_true_iff in H as [H|H]); apply Ascii.eqb_eq in H; auto.
Qed.

Lemma suffix_not_space c : is_suffix_char c = true -> is_space c = false.
Proof. intros H. destruct (suffix_char_cases c H) as [ -> | [ -> | [ -> | -> ] ] ]; reflexivity. Qed.

Lemma suffix_not_num c : is_suffix_char c = true -> is_num_char c = false.
Proof. intros H. destruct (suffix_char_cases c H) as [ -> | [ -> | [ -> | -> ] ] ]; reflexivity. Qed.

Lemma search_followers_cons c x :
  search_followers (String c x) =
  if is_num_char c
  then Some (fst (span is_num_char (String c x)),
             suffix_after (snd (span is_num_char (String c x))))
  else search_followers x.
Proof.
  cbn [search_followers]. destruct (is_num_char c); [|reflexivity].
  destruct (span is_num_char (String c x)) as [a b]. unfold suffix_after.
  cbn [fst snd]. now destruct (span is_space b) as [u v].
Qed.

Lemma search_followers_none_iff x :
  search_followers x = None <-> all_chars non_num x = true.
Proof.
  induction x as [|c x IH]; [split; reflexivity|].
  rewrite search_followers_cons. cbn [all_chars]. unfold non_num at 1.
  destruct (is_num_char c); cbn [negb andb]; [split; discriminate|exact IH].
Qed.

Lemma search_followers_prefix pre x :
  all_chars non_num pre = true ->
  search_followers (pre ++ x) = search_followers x.
Proof.
  induction pre as [|c pre IH]; [reflexivity|].
  cbn [all_chars append]. intros H. apply andb_true_iff in H as [Hc Hpre].
  rewrite search_followers_cons. unfold non_num in Hc.
  destruct (is_num_char c); [discriminate|]. now apply IH.
Qed.

Lemma lstrip_search x : search_followers (lstrip x) = search_followers x.
Proof.
  induction x as [|c x IH]; [reflexivity|].
  cbn [lstrip]. destruct (is_space c) eqn:Hs; [|reflexivity].
  rewrite IH, (search_followers_cons c x). now rewrite (space_not_num c Hs).
Qed.

Lemma rstrip_cons c x :
  is_space c = false -> rstrip (String c x) = String c (rstrip x).
Proof. intros H. cbn [rstrip]. rewrite H. now destruct (rstrip x). Qed.

Lemma rstrip_head c x :
  rstrip (String c x) = EmptyString \/ exists r, rstrip (String c x) = String c r.
Proof.
  cbn [rstrip]. destruct (rstrip x); [destruct (is_space c)|]; eauto.
Qed.

Lemma span_num_rstrip x :
  span is_num_char (rstrip x) =
  (fst (span is_num_char x), rstrip (snd (span is_num_char x))).
Proof.
  induction x as [|c x IH]; [reflexivity|].
  destruct (is_num_char c) eqn:Hc.
  - rewrite (rstrip_cons c x (num_not_space c Hc)). cbn [span]. rewrite Hc, IH.
    now destruct (span is_num_char x).
  - cbn [span]. rewrite Hc. cbn [fst snd].
    destruct (rstrip_head c x) as [-> | [r ->]]; [reflexivity|].
    cbn [span]. now rewrite Hc.
Qed.

Lemma suffix_after_space c y :
  is_space c = true -> suffix_after (String c y) = suffix_after y.
Proof.
  intros Hs. unfold suffix_after. cbn [span]. rewrite Hs.
  now destruct (span is_space y).
Qed.

Lemma suffix_after_rstrip y : suffix_after (rstrip y) = suffix_after y.
Proof.
  induction y as [|c y IH]; [reflexivity|].
  destruct (is_space c) eqn:Hs.
  - rewrite (suffix_after_space c y Hs), <- IH.
    cbn [rstrip]. rewrite Hs.
    destruct (rstrip y) as [|c' r]; [reflexivity|].
    now apply suffix_after_space.
  - rewrite (rstrip_cons c y Hs). unfold suffix_after. cbn [span]. now rewrite Hs.
Qed.

Lemma rstrip_search x : search_followers (rstrip x) = search_followers x.
Proof.
  induction x as [|c x IH]; [reflexivity|].
  destruct (is_num_char c) eqn:Hc.
  - rewrite (rstrip_cons c x (num_not_space c Hc)).
    rewrite !search_followers_cons, Hc.
    rewrite <- (rstrip_cons c x (num_not_space c Hc)), span_num_rstrip.
    cbn [fst snd]. now rewrite suffix_after_rstrip.
  - rewrite (search_followers_cons c x), Hc.
    cbn [rstrip]. destruct (rstrip x) as [|c' r] eqn:Hr.
    + rewrite <- IH. destruct (is_space c); [reflexivity|].
      rewrite search_followers_cons, Hc. reflexivity.
    + rewrite search_followers_cons, Hc. exact IH.
Qed.

(** Stripping the text changes nothing for the search. *)
Lemma strip_search x : search_followers (strip x) = search_followers x.
Proof. unfold strip. now rewrite rstrip_search, lstrip_search. Qed.

Lemma parse_followers_ext x y :
  search_followers x = search_followers y ->
  parse_followers (Some x) = parse_followers (Some y).
Proof.
  intros H. unfold parse_followers.
  pose proof (search_followers_none_no_digit (strip x)) as Hx.
  pose proof (search_followers_none_no_digit (strip y)) as Hy.
  rewrite !strip_search in *. rewrite <- H in *.
  destruct (search_followers x) as [[num_str suffix]|]; [reflexivity|].
  now rewrite Hx, Hy.
Qed.

Lemma all_chars_impl (p q : ascii -> bool) s :
  (forall c, p c = true -> q c = true) ->
  all_chars p s = true -> all_chars q s = true.
Proof.
  intros Hpq. induction s as [|c s IH]; [reflexivity|].
  cbn [all_chars]. intros H. apply andb_true_iff in H as [Hc Hs].
  now rewrite (Hpq c Hc), (IH Hs).
Qed.

Lemma digit_or_comma_num c : is_digit_or_comma c = true -> is_num_char c = true.
Proof.
  unfold is_digit_or_comma, is_num_char. intros H.
  apply orb_true_iff in H as [-> | ->]; [reflexivity|now rewrite orb_true_r].
Qed.

Lemma remove_commas_digits s :
  all_chars is_digit_or_comma s = true -> all_chars is_digit (remove_commas s) = true.
Proof.
  unfold remove_commas. induction s as [|c s IH]; [reflexivity|].
  cbn [all_chars filter_chars]. intros H. apply andb_true_iff in H as [Hc Hs].
  unfold is_digit_or_comma in Hc.
  destruct (Ascii.eqb c ",") eqn:Hcomma; cbn [negb]; [now apply IH|].
  rewrite orb_false_r in Hc. cbn [all_chars]. now rewrite Hc, IH.
Qed.

Lemma py_float_digits dg :
  all_chars is_digit dg = true -> dg <> EmptyString ->
  py_float dg = Ok (round_nearest_even (int_of_digits dg) 1).
Proof.
  intros Hd Hne. unfold py_float. rewrite (span_all is_digit dg Hd).
  destruct dg; [congruence|reflexivity].
Qed.

Lemma search_followers_token s rest :
  all_chars is_num_char s = true -> s <> EmptyString ->
  match rest with EmptyString => True | String c _ => is_num_char c = false end ->
  search_followers (s ++ rest) = Some (s, suffix_after rest).
Proof.
  intros Hs Hne Hrest. destruct s as [|c s]; [congruence|].
  pose proof (span_maximal is_num_char (String c s) rest Hs Hrest) as Hsp.
  cbn [append] in *. rewrite search_followers_cons, Hsp.
  cbn [all_chars] in Hs. apply andb_true_iff in Hs as [Hc _]. now rewrite Hc.
Qed.

Lemma parse_followers_found x num_str suffix :
  search_followers x = Some (num_str, suffix) ->
  parse_followers (Some x) =
  (num <- py_float (remove_commas num_str) ;;
   let num :=
     match suffix with
     | Some c =>
         let s := lower c in
         if Ascii.eqb s "k" then fmul_int num 1000
         else if Ascii.eqb s "m" then fmul_int num 1000000
         else num
     | None => num
     end in
   r <- py_round num ;;
   Ok (Some r)).
Proof. intros H. unfold parse_followers. now rewrite strip_search, H. Qed.

Lemma suffix_scaling c num :
  is_suffix_char c = true ->
  (let s := lower c in
   if Ascii.eqb s "k" then fmul_int num 1000
   else if Ascii.eqb s "m" then fmul_int num 1000000
   else num) = fmul_int num (suffix_factor c).
Proof.
  intros H. destruct (suffix_char_cases c H) as [ -> | [ -> | [ -> | -> ] ] ];
    reflexivity.
Qed.

Lemma suffix_factor_pos c : 0 < suffix_factor c.
Proof. unfold suffix_factor. destruct (Ascii.eqb (lower c) "k"); lia. Qed.

Lemma suffix_after_spaces ws c :
  all_chars is_space ws = true -> is_suffix_char c = true ->
  suffix_after (ws ++ String c EmptyString) = Some c.
Proof.
  intros Hws Hc. unfold suffix_after.
  rewrite (span_maximal is_space ws (String c EmptyString) Hws (suffix_not_space c Hc)).
  cbn [snd]. now rewrite Hc.
Qed.

Lemma parse_followers_plain s :
  all_chars is_digit_or_comma s = true ->
  remove_commas s <> EmptyString ->
  int_of_digits (remove_commas s) < 2 ^ 53 ->
  parse_followers (Some s) = Ok (Some (int_of_digits (remove_commas s))).
Proof.
  intros Hs Hdg Hn. set (n := int_of_digits (remove_commas s)) in *.
  assert (Hnum : all_chars is_num_char s = true)
    by (exact (all_chars_impl _ _ s digit_or_comma_num Hs)).
  assert (Hne : s <> EmptyString) by (intros ->; now apply Hdg).
  pose proof (remove_commas_digits s Hs) as Hdigits.
  assert (Hn0 : 0 <= n) by (now apply int_of_digits_nonneg).
  pose proof (search_followers_token s EmptyString Hnum Hne I) as Hsearch.
  rewrite sapp_empty_r in Hsearch.
  change (suffix_after EmptyString) with (@None ascii) in Hsearch.
  rewrite (parse_followers_found _ _ _ Hsearch).
  rewrite (py_float_digits _ Hdigits Hdg). cbn [bind]. fold n.
  assert (Hfl : float_int (round_nearest_even n 1) n).
  { rewrite <- (Z.mul_1_r n) at 1. apply round_nearest_even_int; lia. }
  now rewrite (py_round_int _ _ Hfl).
Qed.

Lemma parse_followers_suffixed s ws c :
  all_chars is_digit_or_comma s = true ->
  remove_commas s <> EmptyString ->
  all_chars is_space ws = true ->
  is_suffix_char c = true ->
  int_of_digits (remove_commas s) * suffix_factor c < 2 ^ 53 ->
  parse_followers (Some (s ++ ws ++ String c EmptyString)%string) =
  Ok (Some (int_of_digits (remove_commas s) * suffix_factor c)).
Proof.
  intros Hs Hdg Hws Hc Hn. set (n := int_of_digits (remove_commas s)) in *.
  assert (Hnum : all_chars is_num_char s = true)
    by (exact (all_chars_impl _ _ s digit_or_comma_num Hs)).
  assert (Hne : s <> EmptyString) by (intros ->; now apply Hdg).
  pose proof (remove_commas_digits s Hs) as Hdigits.
  assert (Hn0 : 0 <= n) by (now apply int_of_digits_nonneg).
  assert (Hrest : match (ws ++ String c EmptyString)%string with
                  | EmptyString => True
                  | String k _ => is_num_char k = false
                  end).
  { destruct ws as [|k ws]; cbn [append].
    - now apply suffix_not_num.
    - cbn [all_chars] in Hws. apply andb_true_iff in Hws as [Hk _].
      now apply space_not_num. }
  pose proof (search_followers_token s _ Hnum Hne Hrest) as Hsearch.
  rewrite (suffix_after_spaces ws c Hws Hc) in Hsearch.
  rewrite (parse_followers_found _ _ _ Hsearch).
  rewrite (py_float_digits _ Hdigits Hdg). cbn [bind]. fold n.
  rewrite (suffix_scaling c _ Hc).
  pose proof (suffix_factor_pos c) as Hk.
  assert (Hfl : float_int (round_nearest_even n 1) n).
  { rewrite <- (Z.mul_1_r n) at 1. apply round_nearest_even_int; nia. }
  now rewrite (py_round_int _ _ (fmul_int_int _ n _ Hfl Hn0 Hk Hn)).
Qed.

(** X1: a follower text made of digits and commas, with a digit, is read
    as the integer its digits spell, the commas being dropped wherever
    they stand; followed by optional white space and one of K, k, M, m it
    is that integer times 1000 or 1000000.  Both hold as long as the
    result is below 2^53, the range in which a float holds every
    integer. *)
Theorem parse_followers_integer (s ws : string) (c : ascii) :
  all_chars is_digit_or_comma s = true ->
  remove_commas s <> EmptyString ->
  all_chars is_space ws = true ->
  is_suffix_char c = true ->
  let n := int_of_digits (remove_commas s) in
  (n < 2 ^ 53 -> parse_followers (Some s) = Ok (Some n)) /\
  (n * suffix_factor c < 2 ^ 53 ->
   parse_followers (Some (s ++ ws ++ String c EmptyString)%string) =
   Ok (Some (n * suffix_factor c))).
Proof.
  intros Hs Hdg Hws Hc n. split; intros Hn.
  - now apply parse_followers_plain.
  - now apply parse_followers_suffixed.
Qed.

Lemma parse_followers_integer_witness :
  parse_followers (Some "1,234") = Ok (Some 1234) /\
  parse_followers (Some "1,234 k") = Ok (Some 1234000).
Proof.
  assert (Hdg : remove_commas "1,234" <> EmptyString) by (vm_compute; discriminate).
  pose proof (parse_followers_integer "1,234" " " "k" eq_refl Hdg eq_refl eq_refl) as H.
  cbv zeta in H. destruct H as [H1 H2]. split.
  - apply H1. reflexivity.
  - apply H2. reflexivity.
Defined.

(** Beyond 2^53 the digits are no longer read exactly. *)
Example parse_followers_rounds_large :
  parse_followers (Some "9007199254740993") = Ok (Some 9007199254740992).
Proof. vm_compute; reflexivity. Qed.

Lemma parse_followers_found_some x num_str suffix :
  search_followers x = Some (num_str, suffix) ->
  parse_followers (Some x) <> Ok None.
Proof.
  intros H. rewrite (parse_followers_found _ _ _ H).
  destruct (py_float (remove_commas num_str)) as [num|e]; cbn [bind]; [|discriminate].
  destruct (py_round _); cbn [bind]; discriminate.
Qed.

(** X2: parse_followers answers None exactly for None and for the texts
    without any digit, comma or dot; whenever the text has one of these
    the answer is a number or an exception. *)
Theorem parse_followers_none_iff (text : option string) :
  parse_followers text = Ok None <->
  text = None \/ exists s, text = Some s /\ all_chars non_num s = true.
Proof.
  destruct text as [s|]; [|split; [now left|reflexivity]].
  split.
  - intros H. right. exists s. split; [reflexivity|].
    apply search_followers_none_iff.
    destruct (search_followers s) as [[num_str suffix]|] eqn:Hs; [|reflexivity].
    exfalso. exact (parse_followers_found_some _ _ _ Hs H).
  - intros [H | (s' & [= <-] & H)]; [discriminate|].
    apply parse_followers_fallback. rewrite strip_search.
    now apply search_followers_none_iff.
Qed.

Lemma parse_followers_none_iff_witness :
  parse_followers (Some "n/a") = Ok None.
Proof.
  apply (proj2 (parse_followers_none_iff (Some "n/a"))).
  right. exists "n/a". split; reflexivity.
Defined.

Lemma parse_followers_skip_prefix pre text :
  all_chars non_num pre = true ->
  parse_followers (Some (pre ++ text)%string) = parse_followers (Some text).
Proof.
  intros H. apply parse_followers_ext. now apply search_followers_prefix.
Qed.

(** X3: the text before the first digit, comma or dot plays no part. *)
Theorem parse_followers_prefix (pre text : string) :
  all_chars non_num pre = true ->
  parse_followers (Some (pre ++ text)%string) = parse_followers (Some text).
Proof.
  intros Hpre. unfold parse_followers.
  pose proof (search_followers_none_no_digit (strip (pre ++ text))) as Hx.
  pose proof (search_followers_none_no_digit (strip text)) as Hy.
  rewrite !strip_search in *.
  rewrite (search_followers_prefix pre text Hpre) in *.
  destruct (search_followers text) as [[num_str suffix]|]; [reflexivity|].
  now rewrite Hx, Hy.
Qed.

Lemma parse_followers_prefix_witness :
  parse_followers (Some "Followers: 12.3K") = parse_followers (Some "12.3K").
Proof. exact (parse_followers_prefix "Followers: " "12.3K" eq_refl). Defined.

Lemma count_char_app c a b :
  count_char c (a ++ b) = (count_char c a + count_char c b)%nat.
Proof. induction a as [|x a IH]; cbn [append count_char]; [reflexivity|lia]. Qed.

Lemma count_dot_digits s : all_chars is_digit s = true -> count_char "." s = 0%nat.
Proof.
  induction s as [|c s IH]; [reflexivity|]. cbn [all_chars count_char].
  intros H. apply andb_true_iff in H as [Hc Hs]. rewrite (IH Hs).
  destruct (Ascii.eqb_spec c "."); [subst c; discriminate|reflexivity].
Qed.

Lemma non_digit_digits s :
  all_chars is_digit s = true -> all_chars non_digit s = true -> s = EmptyString.
Proof.
  destruct s as [|c s]; [reflexivity|]. cbn [all_chars]. unfold non_digit.
  intros H1 H2. apply andb_true_iff in H1 as [H1 _]. rewrite H1 in H2. discriminate.
Qed.

Lemma digit_or_dot_stop c :
  is_digit_or_dot c = true -> is_digit c = false -> c = "."%char.
Proof.
  unfold is_digit_or_dot. intros H Hd. rewrite Hd in H. now apply Ascii.eqb_eq.
Qed.

Lemma remove_commas_count c s :
  c <> ","%char -> count_char c (remove_commas s) = count_char c s.
Proof.
  intros Hc. unfold remove_commas. induction s as [|x s IH]; [reflexivity|].
  cbn [filter_chars count_char].
  destruct (Ascii.eqb_spec x ",") as [->|Hx]; cbn [negb count_char].
  - rewrite IH. destruct (Ascii.eqb_spec "," c); [congruence|reflexivity].
  - now rewrite IH.
Qed.

Lemma remove_commas_non_digit s :
  all_chars non_digit (remove_commas s) = all_chars non_digit s.
Proof.
  unfold remove_commas. induction s as [|x s IH]; [reflexivity|].
  cbn [filter_chars all_chars].
  destruct (Ascii.eqb_spec x ",") as [->|Hx]; cbn [negb all_chars]; now rewrite IH.
Qed.

Lemma remove_commas_digit_or_dot s :
  all_chars is_num_char s = true ->
  all_chars is_digit_or_dot (remove_commas s) = true.
Proof.
  unfold remove_commas. induction s as [|x s IH]; [reflexivity|].
  cbn [filter_chars all_chars]. intros H. apply andb_true_iff in H as [Hx Hs].
  destruct (Ascii.eqb x ",") eqn:Hcomma; cbn [negb]; [now apply IH|].
  cbn [all_chars]. rewrite (IH Hs), andb_true_r.
  unfold is_num_char in Hx. unfold is_digit_or_dot.
  rewrite Hcomma, orb_false_r in Hx.
  now destruct (is_digit x).
Qed.

(** [float] accepts a string of digits and dots exactly when it has a
    digit and at most one dot. *)
Lemma py_float_literal t :
  all_chars is_digit_or_dot t = true ->
  (py_float t = Raise ValueError <->
   all_chars non_digit t = true \/ (2 <= count_char "." t)%nat) /\
  (forall e, py_float t = Raise e -> e = ValueError).
Proof.
  intros Ht. unfold py_float.
  pose proof (span_fst_all is_digit t) as Hip.
  pose proof (span_stop is_digit t) as Hstop.
  destruct (span is_digit t) as [ip rest] eqn:Hsp. cbn [fst snd] in *.
  rewrite (span_app _ _ _ _ Hsp) in Ht |- *.
  rewrite all_chars_app in Ht. apply andb_true_iff in Ht as [_ Hrest].
  rewrite all_chars_app, count_char_app, (count_dot_digits ip Hip).
  destruct rest as [|c rest'].
  - cbn [all_chars count_char]. rewrite andb_true_r.
    destruct ip as [|d ip'].
    + split; [|now intros e [= <-]]. split; [now left|reflexivity].
    + split; [|discriminate]. split; [discriminate|].
      intros [H|H]; [|cbn in H; lia].
      now pose proof (non_digit_digits _ Hip H).
  - cbn [all_chars] in Hrest. apply andb_true_iff in Hrest as [Hc Hrest'].
    pose proof (digit_or_dot_stop c Hc Hstop) as ->.
    change ("." =? ".")%char with true. cbv iota.
    pose proof (span_fst_all is_digit rest') as Hfp.
    pose proof (span_stop is_digit rest') as Hstop'.
    destruct (span is_digit rest') as [fp rest''] eqn:Hsp'. cbn [fst snd] in *.
    rewrite (span_app _ _ _ _ Hsp') in Hrest' |- *.
    rewrite all_chars_app in Hrest'. apply andb_true_iff in Hrest' as [_ Hrest''].
    cbn [all_chars count_char]. change ("." =? ".")%char with true.
    change (non_digit ".") with true. cbn [andb].
    rewrite all_chars_app, count_char_app, (count_dot_digits fp Hfp).
    destruct rest'' as [|c2 r3].
    + cbn [all_chars count_char]. rewrite andb_true_r.
      destruct ip as [|d ip'], fp as [|d' fp'].
      * split; [|now intros e [= <-]]. split; [now left|reflexivity].
      * split; [|discriminate]. split; [discriminate|].
        intros [H|H]; [|cbn in H; lia].
        cbn [all_chars andb] in H. now pose proof (non_digit_digits _ Hfp H).
      * split; [|discriminate]. split; [discriminate|].
        intros [H|H]; [|cbn in H; lia].
        apply andb_true_iff in H as [H _]. now pose proof (non_digit_digits _ Hip H).
      * split; [|discriminate]. split; [discriminate|].
        intros [H|H]; [|cbn in H; lia].
        apply andb_true_iff in H as [H _]. now pose proof (non_digit_digits _ Hip H).
    + cbn [all_chars] in Hrest''. apply andb_true_iff in Hrest'' as [Hc2 _].
      pose proof (digit_or_dot_stop c2 Hc2 Hstop') as ->.
      split; [|now intros e [= <-]]. split; [|reflexivity].
      intros _. right. cbn [count_char]. change ("." =? ".")%char with true.
      cbv iota. lia.
Qed.

Lemma scaled_nonneg suffix num :
  nonneg_float num ->
  nonneg_float
    match suffix with
    | Some c =>
        let s := lower c in
        if Ascii.eqb s "k" then fmul_int num 1000
        else if Ascii.eqb s "m" then fmul_int num 1000000
        else num
    | None => num
    end.
Proof.
  intros H. destruct suffix as [c|]; [|assumption]. cbv zeta.
  destruct (Ascii.eqb (lower c) "k"); [apply fmul_int_nonneg; [assumption|lia]|].
  destruct (Ascii.eqb (lower c) "m"); [apply fmul_int_nonneg; [assumption|lia]|].
  assumption.
Qed.

Lemma py_round_nonneg_result x :
  nonneg_float x -> (exists n, py_round x = Ok n) \/ py_round x = Raise OverflowError.
Proof.
  destruct x as [m e|s|]; cbn [py_round nonneg_float]; intros H; [|now right|easy].
  left. destruct (0 <=? e); eauto.
Qed.

(** X4: on a text whose first run of digits, commas and dots is [s],
    parse_followers raises ValueError exactly when [s] has no digit or
    has two dots or more. *)
Theorem parse_followers_value_error (pre s rest : string) :
  all_chars non_num pre = true ->
  all_chars is_num_char s = true -> s <> EmptyString ->
  match rest with EmptyString => True | String c _ => is_num_char c = false end ->
  (parse_followers (Some (pre ++ s ++ rest)%string) = Raise ValueError <->
   all_chars non_digit s = true \/ (2 <= count_char "." s)%nat).
Proof.
  intros Hpre Hs Hne Hrest.
  rewrite (parse_followers_skip_prefix pre _ Hpre).
  rewrite (parse_followers_found _ _ _ (search_followers_token s rest Hs Hne Hrest)).
  destruct (py_float_literal _ (remove_commas_digit_or_dot s Hs)) as [Hiff Honly].
  rewrite remove_commas_non_digit, remove_commas_count in Hiff by discriminate.
  destruct (py_float (remove_commas s)) as [num|e] eqn:Hf; cbn [bind].
  - pose proof (scaled_nonneg (suffix_after rest) num (py_float_nonneg _ _ Hf)) as Hnn.
    cbv zeta in Hnn |- *.
    destruct (py_round_nonneg_result _ Hnn) as [[n ->] | ->]; cbn [bind];
      (split; [discriminate|]); intros H; apply Hiff in H; discriminate.
  - rewrite (Honly e eq_refl) in *. split; [intros _; now apply Hiff|reflexivity].
Qed.

Lemma parse_followers_value_error_witness :
  parse_followers (Some "about 1.2.3K fans") = Raise ValueError.
Proof.
  apply (proj2 (parse_followers_value_error "about " "1.2.3" "K fans"
                  eq_refl eq_refl ltac:(discriminate) eq_refl)).
  right. vm_compute. lia.
Defined.

(** X5: parse_followers raises nothing but ValueError and OverflowError. *)
Theorem parse_followers_exceptions (text : option string) (e : exn) :
  parse_followers text = Raise e -> e = ValueError \/ e = OverflowError.
Proof.
  destruct text as [x|]; [|discriminate].
  destruct (search_followers x) as [[num_str suffix]|] eqn:Hs.
  - rewrite (parse_followers_found _ _ _ Hs).
    destruct (py_float (remove_commas num_str)) as [num|e'] eqn:Hf; cbn [bind].
    + pose proof (scaled_nonneg suffix num (py_float_nonneg _ _ Hf)) as Hnn.
      cbv zeta in Hnn |- *.
      destruct (py_round_nonneg_result _ Hnn) as [[n ->] | ->]; cbn [bind];
        [discriminate|]. intros [= <-]. now right.
    + intros [= <-]. left. revert Hf. unfold py_float.
      destruct (span is_digit (remove_commas num_str)) as [ip rest].
      destruct rest as [|c rest']; [destruct ip; now intros [= <-]|].
      destruct (Ascii.eqb c "."); [|now intros [= <-]].
      destruct (span is_digit rest') as [fp rest''].
      destruct rest''; [|now intros [= <-]].
      destruct ip, fp; now intros [= <-].
  - rewrite parse_followers_fallback by now rewrite strip_search. discriminate.
Qed.

Lemma parse_followers_exceptions_witness :
  parse_followers (Some ",") = Raise ValueError /\
  (ValueError = ValueError \/ ValueError = OverflowError).
Proof.
  assert (H : parse_followers (Some ",") = Raise ValueError) by (vm_compute; reflexivity).
  split; [exact H|]. exact (parse_followers_exceptions (Some ",") ValueError H).
Defined.

(** ** Usernames, continued *)

(** X6: the username returned contains none of '/', '?' and '#', and it
    is a piece of the URL, taken as it stands there. *)
Theorem extract_username_shape (url : string) :
  all_chars not_delim (extract_username_from_url url) = true /\
  exists pre post, url = (pre ++ extract_username_from_url url ++ post)%string.
Proof.
  rewrite extract_username_search.
  destruct (search_username url) as [seg|] eqn:Hs.
  - destruct (search_username_some _ _ Hs) as (pre & t & -> & Ht).
    destruct (match_username_at_inv _ _ Ht) as (mk & rest & -> & _ & _ & Hseg & _).
    split; [assumption|]. exists (pre ++ mk)%string, rest. now rewrite sapp_assoc.
  - split; [reflexivity|]. now exists EmptyString, url.
Qed.

Lemma match_username_at_no_x c s :
  no_x c = true -> match_username_at (String c s) = None.
Proof.
  unfold no_x, match_username_at, marker. cbn [match_literal_ci].
  now destruct (Ascii.eqb (lower c) "x").
Qed.

(** X7: when nothing before the marker contains the letter x, the
    username is the first path segment after the marker, whatever path,
    query or fragment follows it. *)
Theorem extract_username_profile (pre mk seg rest : string) :
  all_chars no_x pre = true ->
  lower_string mk = marker ->
  seg <> EmptyString -> all_chars not_delim seg = true -> ends_segment rest ->
  extract_username_from_url (pre ++ mk ++ seg ++ rest)%string = seg.
Proof.
  intros Hpre Hmk Hne Hseg Hrest.
  rewrite extract_username_search.
  rewrite (search_username_first pre (mk ++ seg ++ rest) seg); [reflexivity| |].
  - now apply match_username_at_intro.
  - intros p1 p2 -> Hp2. rewrite all_chars_app in Hpre.
    apply andb_true_iff in Hpre as [_ Hp].
    destruct p2 as [|c p2]; [congruence|].
    cbn [all_chars] in Hp. apply andb_true_iff in Hp as [Hc _].
    cbn [append]. now apply match_username_at_no_x.
Qed.

Lemma extract_username_profile_witness :
  extract_username_from_url "https://www.X.com/ada_dev/status/12?s=20" = "ada_dev"%string.
Proof.
  exact (extract_username_profile "https://www." "X.com/" "ada_dev" "/status/12?s=20"
           eq_refl eq_refl ltac:(discriminate) eq_refl eq_refl).
Defined.

(** ** Leads, continued *)

Lemma py_or_default_falsy x :
  truthy (py_or x (VStr "")) = false -> py_or x (VStr "") = VStr "".
Proof. unfold py_or. destruct (truthy x) eqn:Hx; [congruence|reflexivity]. Qed.

Lemma extract_username_of_value_ok x u :
  extract_username_of_value (py_or x (VStr "")) = Ok u ->
  exists h, py_or x (VStr "") = VStr h /\ u = extract_username_from_url h.
Proof.
  unfold extract_username_of_value.
  destruct (truthy (py_or x (VStr ""))) eqn:Ht.
  - destruct (py_or x (VStr "")); try discriminate. intros [= <-]. eauto.
  - rewrite (py_or_default_falsy x Ht). intros [= <-]. now exists EmptyString.
Qed.

Lemma parse_followers_some_nonneg text n :
  parse_followers text = Ok (Some n) -> 0 <= n.
Proof.
  destruct text as [x|]; [|discriminate].
  destruct (search_followers x) as [[num_str suffix]|] eqn:Hs.
  - rewrite (parse_followers_found _ _ _ Hs).
    destruct (py_float (remove_commas num_str)) as [num|e] eqn:Hf; [|discriminate].
    cbn [bind].
    pose proof (scaled_nonneg suffix num (py_float_nonneg _ _ Hf)) as Hnn.
    cbv zeta in Hnn |- *.
    destruct (py_round _) as [r|e] eqn:Hr; [|discriminate].
    intros [= <-]. exact (py_round_nonneg _ _ Hnn Hr).
  - rewrite parse_followers_fallback by now rewrite strip_search. discriminate.
Qed.

Lemma lead_of_entry_wf repr r lead :
  lead_of_entry repr r = Ok lead -> lead_wf lead.
Proof.
  unfold lead_of_entry. destruct r as [| | | | | |d]; try discriminate.
  destruct (extract_username_of_value _) as [u|e] eqn:Hu; [|discriminate].
  destruct (extract_username_of_value_ok _ _ Hu) as (h & Hh & ->).
  cbn [bind]. destruct (py_str_checked _ _) as [text|e]; [|discriminate].
  cbn [bind]. destruct (parse_followers _) as [followers|e] eqn:Hf; [|discriminate].
  cbn [bind]. intros [= <-]. rewrite Hh. repeat split.
  - exists h. split; reflexivity.
  - destruct followers as [n|]; [right|now left].
    exists n. split; [|reflexivity]. exact (parse_followers_some_nonneg _ _ Hf).
Qed.

Lemma Forall2_Forall_r {A B : Type} (R : A -> B -> Prop) (P : B -> Prop) l l' :
  (forall x y, R x y -> P y) -> Forall2 R l l' -> Forall P l'.
Proof. intros H HF. induction HF; constructor; eauto. Qed.

Lemma map_result_ok_iff {A B : Type} (f : A -> result B) (l : list A) :
  (exists ys, map_result f l = Ok ys) <-> Forall (fun x => exists y, f x = Ok y) l.
Proof.
  induction l as [|x l IH]; cbn [map_result].
  - split; [constructor|eauto].
  - split.
    + intros [ys H]. destruct (f x) as [y|e] eqn:Hx; [|discriminate].
      cbn [bind] in H. destruct (map_result f l) as [ys'|e] eqn:Hl; [|discriminate].
      constructor; [eauto|]. apply IH. eauto.
    + intros H. inversion H as [|? ? [y Hy] Hl]; subst.
      apply IH in Hl as [ys Hys]. rewrite Hy, Hys. cbn [bind]. eauto.
Qed.

(** X8: every lead returned by parse_apify_items has the five keys Name,
    Username, Handle, Description, Followers in this order; its Handle is
    a str and its Username is the username extracted from that Handle;
    its Followers are None or an int that is not negative. *)
Theorem parse_apify_items_leads_wf (repr : value -> string)
  (items : list value) (leads : list dict) :
  parse_apify_items repr items = Ok leads -> Forall lead_wf leads.
Proof.
  rewrite parse_apify_items_map. intros H.
  apply map_result_Forall2 in H.
  apply (Forall2_Forall_r _ _ _ _ (lead_of_entry_wf repr) H).
Qed.

Lemma parse_apify_items_leads_wf_witness :
  exists leads,
    parse_apify_items no_repr [sample_container] = Ok leads /\ Forall lead_wf leads.
Proof.
  eexists. split; [vm_compute; reflexivity|].
  apply (parse_apify_items_leads_wf no_repr [sample_container]).
  vm_compute; reflexivity.
Defined.

(** X9: parse_apify_items returns leads exactly when every entry of every
    container can be turned into a lead; one entry that cannot (an entry
    that is not a dict, a follower text such as ",", a url that is not a
    str) makes the whole call raise, and no lead is returned. *)
Theorem parse_apify_items_all_or_nothing (repr : value -> string) (items : list value) :
  ((exists leads, parse_apify_items repr items = Ok leads) <->
   Forall (fun r => exists lead, lead_of_entry repr r = Ok lead)
          (flat_map entries_of items)) /\
  (forall r, In r (flat_map entries_of items) ->
             (forall d, r <> VDict d) ->
             exists e, parse_apify_items repr items = Raise e).
Proof.
  rewrite parse_apify_items_map. split; [apply map_result_ok_iff|].
  intros r Hin Hr.
  destruct (map_result (lead_of_entry repr) (flat_map entries_of items))
    as [leads|e] eqn:Hm; [|eauto].
  exfalso.
  assert (Hall : Forall (fun r => exists lead, lead_of_entry repr r = Ok lead)
                        (flat_map entries_of items))
    by (apply map_result_ok_iff; eauto).
  rewrite Forall_forall in Hall. destruct (Hall r Hin) as [lead Hlead].
  destruct r; try discriminate Hlead. now apply (Hr d).
Qed.

Lemma parse_apify_items_all_or_nothing_witness :
  exists e,
    parse_apify_items no_repr
      [sample_container; VDict [("results", VList [VStr "not an entry"])]] = Raise e.
Proof.
  apply (proj2 (parse_apify_items_all_or_nothing no_repr
                  [sample_container; VDict [("results", VList [VStr "not an entry"])]])
           (VStr "not an entry")).
  - vm_compute. auto.
  - discriminate.
Defined.

Lemma digits_of_pos_all fuel : forall n acc,
  0 <= n -> all_chars is_digit acc = true ->
  all_chars is_digit (digits_of_pos fuel n acc) = true.
Proof.
  induction fuel as [|fuel IH]; intros n acc Hn Hacc; [assumption|].
  cbn [digits_of_pos].
  assert (Hd : is_digit (digit_char (n mod 10)) = true).
  { apply is_digit_digit_char. pose proof (Z.mod_pos_bound n 10). lia. }
  destruct (n <? 10).
  - cbn [all_chars]. now rewrite Hd, Hacc.
  - apply IH; [apply Z.div_pos; lia|]. cbn [all_chars]. now rewrite Hd, Hacc.
Qed.

Lemma digits_of_pos_nonempty fuel : forall n acc,
  acc <> EmptyString -> digits_of_pos fuel n acc <> EmptyString.
Proof.
  induction fuel as [|fuel IH]; intros n acc Hacc; [assumption|].
  cbn [digits_of_pos]. destruct (n <? 10); [discriminate|].
  apply IH. discriminate.
Qed.

Lemma str_int_pos_digits n :
  0 < n -> all_chars is_digit (str_int n) = true /\ str_int n <> EmptyString.
Proof.
  intros Hn. unfold str_int.
  replace (n =? 0) with false by (symmetry; apply Z.eqb_neq; lia).
  replace (n <? 0) with false by (symmetry; apply Z.ltb_ge; lia).
  split; [apply digits_of_pos_all; [lia|reflexivity]|].
  rewrite Nat.add_1_r. cbn [digits_of_pos].
  destruct (n <? 10); [discriminate|]. apply digits_of_pos_nonempty. discriminate.
Qed.

Lemma remove_commas_id s : all_chars is_digit s = true -> remove_commas s = s.
Proof.
  unfold remove_commas. induction s as [|c s IH]; [reflexivity|].
  cbn [all_chars filter_chars]. intros H. apply andb_true_iff in H as [Hc Hs].
  destruct (Ascii.eqb_spec c ","); [subst c; discriminate|].
  cbn [negb]. now rewrite (IH Hs).
Qed.

Lemma digit_is_digit_or_comma c : is_digit c = true -> is_digit_or_comma c = true.
Proof. unfold is_digit_or_comma. now intros ->. Qed.

(** The text [str] gives for an int is read back as its absolute value. *)
Lemma parse_followers_str_int n :
  Z.abs n < 2 ^ 53 -> parse_followers (Some (str_int n)) = Ok (Some (Z.abs n)).
Proof.
  intros Hn.
  assert (Hpos : forall m, 0 < m -> m < 2 ^ 53 ->
                           parse_followers (Some (str_int m)) = Ok (Some m)).
  { intros m Hm Hlt. destruct (str_int_pos_digits m Hm) as [Hd Hne].
    pose proof (parse_followers_plain (str_int m)) as H.
    rewrite (remove_commas_id _ Hd), (str_int_decimal m) in H by lia.
    apply H; [|assumption|assumption].
    exact (all_chars_impl _ _ _ digit_is_digit_or_comma Hd). }
  destruct (Z.lt_trichotomy n 0) as [Hneg | [-> | Hp]].
  - assert (Hs : str_int n = String "-" (str_int (- n))).
    { unfold str_int.
      replace (n =? 0) with false by (symmetry; apply Z.eqb_neq; lia).
      replace (n <? 0) with true by (symmetry; apply Z.ltb_lt; lia).
      replace (- n =? 0) with false by (symmetry; apply Z.eqb_neq; lia).
      replace (- n <? 0) with false by (symmetry; apply Z.ltb_ge; lia).
      reflexivity. }
    rewrite Hs.
    change (String "-" (str_int (- n))) with ("-" ++ str_int (- n))%string.
    rewrite parse_followers_skip_prefix by reflexivity.
    rewrite Z.abs_neq by lia. apply Hpos; lia.
  - vm_compute; reflexivity.
  - rewrite Z.abs_eq by lia. apply Hpos; lia.
Qed.

(** An int of binary64 precision is within the limit of digits of [str]. *)
Lemma py_str_checked_int (repr : value -> string) (n : Z) :
  Z.abs n < 2 ^ 53 -> py_str_checked repr (VInt n) = Ok (str_int n).
Proof.
  intros Hn. unfold py_str_checked.
  assert (Hle : 2 ^ 53 <= 10 ^ str_digits_limit)
    by (vm_compute; discriminate).
  destruct (Z.leb_spec (10 ^ str_digits_limit) (Z.abs n)); [lia|reflexivity].
Qed.

(** X10: a follower count given as a JSON int under "followersAmount"
    goes through [str] and the parser: the lead carries its absolute
    value, the sign being lost, as long as that is below 2^53.  The int 0
    counts as missing: without a "followers" key the lead has no
    followers. *)
Theorem lead_followers_json_int (repr : value -> string) (r lead : dict) (n : Z) :
  lead_of_entry repr (VDict r) = Ok lead ->
  dict_lookup r "followersAmount" = Some (VInt n) ->
  (n <> 0 -> Z.abs n < 2 ^ 53 ->
   dict_lookup lead "Followers" = Some (VInt (Z.abs n))) /\
  (n = 0 -> dict_lookup r "followers" = None ->
   dict_lookup lead "Followers" = Some VNone).
Proof.
  unfold lead_of_entry. intros H Hraw.
  assert (Hg : dict_get r "followersAmount" = VInt n)
    by (unfold dict_get; now rewrite Hraw).
  rewrite Hg in H.
  destruct (extract_username_of_value _) as [u|e]; [|discriminate].
  cbn [bind] in H. split.
  - intros Hn Hlt.
    assert (Ht : truthy (VInt n) = true)
      by (cbn [truthy]; apply negb_true_iff, Z.eqb_neq; assumption).
    assert (Hor : forall x, py_or (py_or (VInt n) x) (VStr "") = VInt n)
      by (intros x; unfold py_or; now rewrite !Ht).
    rewrite Hor in H. rewrite (py_str_checked_int repr n Hlt) in H.
    cbn [bind] in H. rewrite (parse_followers_str_int n Hlt) in H.
    cbn [bind] in H. injection H as <-. reflexivity.
  - intros -> Hf.
    assert (Hg' : dict_get r "followers" = VNone)
      by (unfold dict_get; now rewrite Hf).
    rewrite Hg' in H.
    change (py_or (py_or (VInt 0) VNone) (VStr "")) with (VStr "") in H.
    cbn [py_str_checked py_str bind] in H.
    change (parse_followers (Some "")) with (@Ok (option Z) None) in H.
    cbn [bind] in H. injection H as <-. reflexivity.
Qed.

Lemma lead_followers_json_int_witness :
  exists lead,
    lead_of_entry no_repr (VDict [("title", VStr "Ada"); ("followersAmount", VInt (-1500))])
    = Ok lead /\
    dict_lookup lead "Followers" = Some (VInt 1500).
Proof.
  eexists. split; [vm_compute; reflexivity|].
  refine (proj1 (lead_followers_json_int no_repr
                   [("title", VStr "Ada"); ("followersAmount", VInt (-1500))] _ (-1500)
                   _ eq_refl) _ _).
  - vm_compute; reflexivity.
  - discriminate.
  - reflexivity.
Defined.

(** ** Sheets, continued *)

Lemma find_tab_update_other ts title f other :
  other <> title -> find_tab (update_tab ts title f) other = find_tab ts other.
Proof.
  intros Hne. induction ts as [|t ts IH]; [reflexivity|].
  cbn [update_tab find_tab].
  destruct (String.eqb_spec (ws_title t) title) as [Ht|Ht]; cbn [find_tab ws_title].
  - destruct (String.eqb_spec (ws_title t) other); [congruence|reflexivity].
  - now rewrite IH.
Qed.

Lemma find_tab_app_other ts t other :
  ws_title t <> other -> find_tab (ts ++ [t]) other = find_tab ts other.
Proof.
  intros Hne. induction ts as [|t' ts IH]; cbn [app find_tab].
  - now destruct (String.eqb_spec (ws_title t) other).
  - now rewrite IH.
Qed.

Lemma update_tab_titles ts title f :
  map ws_title (update_tab ts title f) = map ws_title ts.
Proof.
  induction ts as [|t ts IH]; [reflexivity|]. cbn [update_tab].
  destruct (String.eqb (ws_title t) title); cbn [map ws_title]; [reflexivity|].
  now rewrite IH.
Qed.

(** X11: ensure_sheet_tab writes nothing but the cells A1 to G1 of its
    tab: the other tabs, the rows below the first and the cells of the
    first row from the eighth on are as before, and the clock is not
    read. *)
Theorem ensure_sheet_tab_frame (tab : string) (w : world) :
  let '(_, w') := ensure_sheet_tab tab w in
  (forall other, other <> tab -> grid_of w' other = grid_of w other) /\
  tl (grid_of w' tab) = tl (grid_of w tab) /\
  skipn 7 (header_row w' tab) = skipn 7 (header_row w tab) /\
  clock w' = clock w /\ ticks w' = ticks w.
Proof.
  destruct w as [ts tr cl tk].
  unfold ensure_sheet_tab, sheet_worksheet, sheet_add_worksheet,
    ws_row_values_1, ws_update_A1G1, log, set_tabs, header_row, grid_of.
  cbn [tabs trace clock ticks].
  destruct (find_tab ts tab) as [t|] eqn:Ht.
  - cbn [tabs trace clock ticks]. rewrite Ht.
    assert (Hupd :
      (forall other, other <> tab ->
         match find_tab (update_tab ts tab
                  (fun g => overwrite_row headers (hd [] g) :: tl g)) other with
         | Some t0 => ws_grid t0 | None => [] end =
         match find_tab ts other with Some t0 => ws_grid t0 | None => [] end) /\
      tl match find_tab (update_tab ts tab
                  (fun g => overwrite_row headers (hd [] g) :: tl g)) tab with
         | Some t0 => ws_grid t0 | None => [] end = tl (ws_grid t) /\
      skipn 7 (hd [] match find_tab (update_tab ts tab
                  (fun g => overwrite_row headers (hd [] g) :: tl g)) tab with
         | Some t0 => ws_grid t0 | None => [] end) = skipn 7 (hd [] (ws_grid t))).
    { split; [|split].
      - intros other Ho. now rewrite find_tab_update_other.
      - now rewrite find_tab_update, Ht.
      - now rewrite find_tab_update, Ht. }
    destruct Hupd as (H1 & H2 & H3).
    destruct (trim_row (hd [] (ws_grid t))) as [|c r].
    + cbn [tabs clock ticks]. repeat split; auto.
    + destruct (list_eq_dec string_dec _ headers); cbn [tabs clock ticks];
        rewrite ?Ht; repeat split; auto.
  - cbn [tabs trace clock ticks]. rewrite (find_tab_new _ _ [] Ht). cbn [ws_grid hd trim_row].
    cbn [tabs clock ticks].
    split; [|split; [|split; [|split]]]; try reflexivity.
    + intros other Ho. rewrite find_tab_update_other by assumption.
      rewrite find_tab_app_other; [reflexivity|]. cbn [ws_title]. congruence.
    + now rewrite find_tab_update, (find_tab_new _ _ [] Ht).
    + now rewrite find_tab_update, (find_tab_new _ _ [] Ht).
Qed.

(** X12: ensure_sheet_tab always returns the tab, which then exists and
    carries the header; a tab is added, after the others and under the
    name asked for, exactly when none of that name was there. *)
Theorem ensure_sheet_tab_post (tab : string) (w : world) :
  exists w1,
    ensure_sheet_tab tab w = (Ok tab, w1) /\
    tab_exists w1 tab /\ header_ok w1 tab /\
    (tab_exists w tab -> map ws_title (tabs w1) = map ws_title (tabs w)) /\
    (~ tab_exists w tab -> map ws_title (tabs w1) = map ws_title (tabs w) ++ [tab]).
Proof.
  destruct (ensure_sheet_tab_establishes tab w) as (w1 & Hrun & Hex & Hok).
  exists w1. repeat split; try assumption; revert Hrun; clear;
    destruct w as [ts tr cl tk];
    unfold ensure_sheet_tab, sheet_worksheet, sheet_add_worksheet,
      ws_row_values_1, ws_update_A1G1, log, set_tabs, tab_exists, grid_of;
    cbn [tabs trace clock ticks].
  - intros Hrun [t Ht]. rewrite Ht in Hrun. cbn [tabs trace clock ticks] in Hrun.
    destruct (trim_row _) as [|c r]; [|destruct (list_eq_dec string_dec _ headers)];
      injection Hrun as <-; cbn [tabs]; now rewrite ?update_tab_titles.
  - intros Hrun Hno.
    destruct (find_tab ts tab) as [t|] eqn:Ht; [exfalso; apply Hno; eauto|].
    cbn [tabs trace clock ticks] in Hrun. rewrite (find_tab_new _ _ [] Ht) in Hrun.
    cbn [ws_grid hd trim_row] in Hrun. injection Hrun as <-. cbn [tabs].
    now rewrite update_tab_titles, map_app.
Qed.

Section AppendFurther.
Variable repr : value -> string.
Variable user_entered : value -> string.

Lemma append_leads_world ws topic leads w :
  leads <> [] ->
  snd (append_leads_to_sheet repr user_entered ws topic leads w) =
  mkWorld
    (update_tab (tabs w) ws
       (fun g => g ++ map (map user_entered)
                       (map (row_of_lead repr
                               (isoformat_seconds (clock w (ticks w)) ++ " UTC")%string
                               topic) leads)))
    (trace w ++ [CallAppendRows ws
                   (map (row_of_lead repr
                           (isoformat_seconds (clock w (ticks w)) ++ " UTC")%string
                           topic) leads) "USER_ENTERED"])
    (clock w) (S (ticks w)).
Proof.
  intros Hne. destruct leads as [|lead leads']; [congruence|].
  unfold append_leads_to_sheet. cbn [utcnow].
  rewrite build_rows_map. reflexivity.
Qed.

(** X13: on a tab that exists, for leads whose Followers can be printed,
    append_leads_to_sheet adds one row of seven cells for each lead below
    the rows that are there, and changes no other tab and no row that was
    there. *)
Theorem append_leads_grid (ws topic : string) (leads : list dict) (w : world) :
  tab_exists w ws ->
  Forall followers_printable leads ->
  let w' := snd (append_leads_to_sheet repr user_entered ws topic leads w) in
  (exists rows,
      List.length rows = List.length leads /\
      Forall (fun row => List.length row = List.length headers) rows /\
      grid_of w' ws = grid_of w ws ++ rows) /\
  (forall other, other <> ws -> grid_of w' other = grid_of w other).
Proof.
  intros [t Ht] _. cbv zeta.
  destruct leads as [|lead leads'] eqn:Hl.
  - cbn [append_leads_to_sheet snd]. split; [|reflexivity].
    exists []. rewrite app_nil_r. repeat split. constructor.
  - rewrite <- Hl. rewrite append_leads_world by (rewrite Hl; discriminate).
    unfold grid_of. cbn [tabs]. split.
    + rewrite find_tab_update, Ht. cbn [option_map ws_grid].
      eexists; split; [|split; [|reflexivity]].
      * now rewrite !length_map.
      * apply Forall_forall. intros row Hrow.
        apply in_map_iff in Hrow as (r & <- & Hr).
        apply in_map_iff in Hr as (l & <- & _). reflexivity.
    + intros other Ho. now rewrite find_tab_update_other.
Qed.

Lemma append_leads_count ws topic leads w :
  fst (append_leads_to_sheet repr user_entered ws topic leads w) =
  Z.of_nat (List.length leads).
Proof.
  destruct leads as [|lead leads']; [reflexivity|].
  unfold append_leads_to_sheet. cbn [utcnow fst].
  rewrite build_rows_map. cbn [app]. now rewrite length_map.
Qed.

Lemma append_leads_keeps_header ws topic leads w :
  tab_exists w ws -> header_ok w ws ->
  let w' := snd (append_leads_to_sheet repr user_entered ws topic leads w) in
  tab_exists w' ws /\ header_ok w' ws /\
  List.length (grid_of w' ws) = (List.length (grid_of w ws) + List.length leads)%nat.
Proof.
  intros [t Ht] Hok. cbv zeta.
  destruct leads as [|lead leads'] eqn:Hl.
  - cbn [append_leads_to_sheet snd List.length].
    repeat split; [now exists t|assumption|lia].
  - rewrite <- Hl. rewrite append_leads_world by (rewrite Hl; discriminate).
    unfold tab_exists, header_ok, header_row, grid_of in *. cbn [tabs].
    rewrite find_tab_update, Ht in *. cbn [option_map ws_grid].
    split; [eauto|]. split.
    + destruct (ws_grid t) as [|row g]; [discriminate Hok|exact Hok].
    + now rewrite length_app, !length_map.
Qed.

(** X14: for leads whose Followers can be printed, provisioning the tab
    and then appending leaves the header in place, returns the number of
    leads, and makes the tab that many rows longer. *)
Theorem provision_then_append (tab topic : string) (leads : list dict) (w : world) :
  Forall followers_printable leads ->
  let '(_, w1) := ensure_sheet_tab tab w in
  let '(n, w2) := append_leads_to_sheet repr user_entered tab topic leads w1 in
  n = Z.of_nat (List.length leads) /\
  header_ok w2 tab /\
  List.length (grid_of w2 tab) = (List.length (grid_of w1 tab) + List.length leads)%nat.
Proof.
  intros _.
  destruct (ensure_sheet_tab_establishes tab w) as (w1 & -> & Hex & Hok).
  pose proof (append_leads_count tab topic leads w1) as Hn.
  pose proof (append_leads_keeps_header tab topic leads w1 Hex Hok) as (_ & Hh & Hg).
  destruct (append_leads_to_sheet repr user_entered tab topic leads w1) as [n w2].
  cbn [fst snd] in *. auto.
Qed.
End AppendFurther.

Lemma append_leads_grid_witness :
  grid_of (snd (append_leads_to_sheet no_repr shown "Leads" "nft"
                  [sample_lead] sample_world)) "Sheet1" =
  grid_of sample_world "Sheet1".
Proof.
  assert (Hex : tab_exists sample_world "Leads") by (eexists; reflexivity).
  assert (Hpr : Forall followers_printable [sample_lead])
    by (repeat constructor; exact sample_lead_printable).
  apply (proj2 (append_leads_grid no_repr shown "Leads" "nft" [sample_lead]
                  sample_world Hex Hpr)).
  discriminate.
Defined.

Lemma provision_then_append_witness :
  fst (append_leads_to_sheet no_repr shown "New" "nft" [sample_lead]
         (snd (ensure_sheet_tab "New" sample_world))) = 1.
Proof.
  assert (Hpr : Forall followers_printable [sample_lead])
    by (repeat constructor; exact sample_lead_printable).
  pose proof (provision_then_append no_repr shown "New" "nft" [sample_lead]
                sample_world Hpr) as H.
  destruct (ensure_sheet_tab "New" sample_world) as [r w1]. cbn [snd].
  destruct (append_leads_to_sheet no_repr shown "New" "nft" [sample_lead] w1)
    as [n w2].
  destruct H as [Hn _]. exact Hn.
Defined.

Lemma ensure_sheet_tab_post_witness :
  exists w1,
    ensure_sheet_tab "Leads" sample_world = (Ok "Leads"%string, w1) /\
    map ws_title (tabs w1) = map ws_title (tabs sample_world).
Proof.
  destruct (ensure_sheet_tab_post "Leads" sample_world) as (w1 & Hrun & _ & _ & Hkeep & _).
  exists w1. split; [exact Hrun|]. apply Hkeep. eexists; reflexivity.
Defined.

(** ** Configuration *)

(** X15: the start-up check lets the script go on exactly when the three
    variables are set and not empty; otherwise it raises RuntimeError
    with a message that starts with "Missing required environment
    variables: " and names every variable that is unset or empty, not
    the first one only, and no variable that is set. *)
Theorem validate_config_spec (apify_token sheet_credentials sheet_id : option string) :
  (validate_config apify_token sheet_credentials sheet_id = Started <->
   unset apify_token = false /\ unset sheet_credentials = false /\
   unset sheet_id = false) /\
  (forall message,
     validate_config apify_token sheet_credentials sheet_id = RuntimeError message ->
     prefix "Missing required environment variables: " message = true /\
     occurs "APIFY_TOKEN" message = unset apify_token /\
     occurs "SHEET_CREDENTIALS" message = unset sheet_credentials /\
     occurs "SHEET_ID" message = unset sheet_id).
Proof.
  unfold validate_config, missing_variables. split.
  - destruct (unset apify_token), (unset sheet_credentials), (unset sheet_id);
      cbn [app]; split; try discriminate; auto;
      intros (H1 & H2 & H3); discriminate.
  - intros message.
    destruct (unset apify_token), (unset sheet_credentials), (unset sheet_id);
      cbn [app]; intros [= <-]; vm_compute; auto.
Qed.

Lemma validate_config_spec_witness :
  validate_config (Some "token") (Some "key.json") (Some "sheet") = Started /\
  occurs "SHEET_ID"
    (match validate_config (Some "token") None (Some "") with
     | RuntimeError message => message
     | Started => EmptyString
     end) = true.
Proof.
  split.
  - apply (proj2 (proj1 (validate_config_spec (Some "token") (Some "key.json")
                           (Some "sheet")))).
    repeat split.
  - apply (proj2 (validate_config_spec (Some "token") None (Some ""))).
    reflexivity.
Defined.

(** ** run_apify_search *)

(** X16: a response body that is neither a list nor an object whose
    "items" is a list gives no item, hence no lead and no exception; a
    list and an object carrying that list under "items" give the same
    items. *)
Theorem items_of_data_shapes (repr : value -> string) (data : value) :
  ((forall l, data <> VList l) ->
   (forall d l, data = VDict d -> dict_lookup d "items" <> Some (VList l)) ->
   items_of_data data = [] /\ parse_apify_items repr (items_of_data data) = Ok []) /\
  (forall d l, data = VDict d -> dict_lookup d "items" = Some (VList l) ->
               items_of_data data = items_of_data (VList l)).
Proof.
  split.
  - intros Hl Hd.
    assert (H : items_of_data data = []).
    { destruct data as [| | | | |l|d]; try reflexivity.
      - now destruct (Hl l).
      - cbn [items_of_data].
        destruct (dict_lookup d "items") as [[| | | | |l|]|] eqn:Hi; try reflexivity.
        now destruct (Hd d l eq_refl). }
    now rewrite H.
  - intros d l -> Hi. cbn [items_of_data]. now rewrite Hi.
Qed.

Lemma items_of_data_shapes_witness :
  items_of_data (VDict [("error", VStr "quota")]) = [] /\
  parse_apify_items no_repr (items_of_data (VDict [("error", VStr "quota")])) = Ok [].
Proof.
  apply (proj1 (items_of_data_shapes no_repr (VDict [("error", VStr "quota")]))).
  - discriminate.
  - intros d l [= <-]. discriminate.
Defined.

(** ** Runs of main *)

Lemma input_ended_dec (args_topic typed : option string) :
  input_ended args_topic typed \/ ~ input_ended args_topic typed.
Proof.
  unfold input_ended. destruct (unset args_topic); [destruct typed|].
  - right. intros [_ H]. discriminate.
  - left. auto.
  - right. intros [H _]. discriminate.
Qed.

Section MainProperties.
Variable APIFY_TOKEN : string.
Variable SHEET_CREDENTIALS : string.
Variable SHEET_ID : string.
Variable RESULTS_PER_REQUEST : Z.
Variable post : request -> outcome value.
Variable path_exists : string -> bool.
Variable authorize : string -> outcome unit.
Variable open_by_key : string -> outcome unit.
Variable repr : value -> string.
Variable exn_text : exn -> string.
Variable user_entered : value -> string.
Variable provision_failure : world -> option (string * world).
Variable append_failure : world -> option (string * world).

Abbreviation run :=
  (main APIFY_TOKEN SHEET_CREDENTIALS SHEET_ID RESULTS_PER_REQUEST post
     path_exists authorize open_by_key repr exn_text user_entered
     provision_failure append_failure) (only parsing).
Abbreviation request_for topic pages :=
  (search_request RESULTS_PER_REQUEST topic APIFY_TOKEN pages) (only parsing).
Abbreviation opened :=
  (opening path_exists authorize open_by_key SHEET_CREDENTIALS SHEET_ID)
  (only parsing).

(** When the input has ended at the prompt, main raises EOFError and has
    called no service. *)
Lemma main_input_ended (args_topic : option string) (tab : string) (pages : Z)
  (p : process) :
  unset args_topic = true ->
  fst (run args_topic tab pages None p) = Raise EOFError /\
  sheet (snd (run args_topic tab pages None p)) = sheet p /\
  requests (snd (run args_topic tab pages None p)) = requests p.
Proof. intros H. unfold main. rewrite H. cbn. auto. Qed.

(** The run of main when [input] returns, stage by stage. *)
Lemma main_cases (args_topic : option string) (tab : string) (pages : Z)
  (typed : option string) (p : process) :
  ~ input_ended args_topic typed ->
  let topic := effective_topic args_topic typed in
  let r := fst (run args_topic tab pages typed p) in
  let p' := snd (run args_topic tab pages typed p) in
  if String.eqb topic ""
  then r = Ok tt /\ sheet p' = sheet p /\ requests p' = requests p
  else
    requests p' = requests p ++ [request_for topic pages] /\
    match post (request_for topic pages) with
    | Failed _ => r = Ok tt /\ sheet p' = sheet p
    | Returned data =>
        match parse_apify_items repr (items_of_data data) with
        | Raise e => r = Raise e /\ sheet p' = sheet p
        | Ok leads =>
            r = Ok tt /\
            match opened with
            | Failed _ => sheet p' = sheet p
            | Returned _ =>
                match provision_failure (sheet p) with
                | Some (_, w) => sheet p' = w
                | None =>
                    let w1 := snd (ensure_sheet_tab tab (sheet p)) in
                    match leads, append_failure w1 with
                    | _ :: _, Some (_, w) => sheet p' = w
                    | _, _ =>
                        sheet p' =
                        snd (append_leads_to_sheet repr user_entered tab topic
                               leads w1) /\
                        In (appended_line (List.length leads) tab) (stdout p')
                    end
                end
            end
        end
    end.
Proof.
  intros Hin. cbv zeta.
  unfold opening, main, effective_topic, run_apify_search.
  set (topic := if unset args_topic
                then match typed with Some line => strip line | None => EmptyString end
                else match args_topic with Some t => t | None => EmptyString end).
  assert (Hsplit : exists p0,
             (if unset args_topic
              then
                match typed with
                | Some line =>
                    (Ok (strip line),
                     print "Enter topic/niche to search for (e.g., 'nft artists'): " p)
                | None =>
                    (Raise EOFError,
                     print "Enter topic/niche to search for (e.g., 'nft artists'): " p)
                end
              else (Ok (match args_topic with Some t => t | None => EmptyString end), p))
             = (Ok topic, p0) /\ sheet p0 = sheet p /\ requests p0 = requests p).
  { subst topic. destruct (unset args_topic) eqn:Hu.
    - destruct typed as [line|].
      + eexists; repeat split.
      + exfalso. apply Hin. split; [assumption|reflexivity].
    - eexists; repeat split. }
  destruct Hsplit as (p0 & -> & Hs0 & Hr0).
  destruct (String.eqb topic "") eqn:Htopic; [cbn; auto|].
  cbn [print sheet requests stdout].
  destruct (post _) as [data|m]; cbn [fst snd sheet requests];
    [|rewrite Hs0, Hr0; auto].
  destruct (parse_apify_items repr (items_of_data data)) as [leads|e];
    cbn [fst snd sheet requests]; [|rewrite Hs0, Hr0; auto].
  destruct (ensure_sheet_tab_establishes tab (sheet p)) as (w1 & Hw1 & _).
  destruct (authorize_gsheets path_exists authorize SHEET_CREDENTIALS) as [u|m];
    cbn [fst snd print sheet requests]; [|rewrite Hs0, Hr0; auto].
  destruct (open_by_key SHEET_ID) as [u'|m];
    cbn [fst snd print sheet requests]; [|rewrite Hs0, Hr0; auto].
  rewrite Hs0.
  destruct (provision_failure (sheet p)) as [[m w]|];
    [cbn [fst snd print with_sheet sheet requests]; rewrite Hr0; auto|].
  rewrite Hw1. cbn [snd].
  assert (Hdone :
    let '(appended, w) :=
      append_leads_to_sheet repr user_entered tab topic leads w1 in
    let p2 :=
      print ("Appended " ++ str_int appended ++ " rows to sheet '" ++ tab ++ "'.")
        (with_sheet w
           (print ("Found " ++ str_int (Z.of_nat (List.length leads))
                   ++ " leads (parsed).")
              (mkProcess (sheet p0)
                 (requests
                    (print ("Searching X.com for Cardano-related accounts about: '"
                            ++ topic ++ "'") p0)
                  ++ [request_for topic pages])
                 (stdout
                    (print ("Searching X.com for Cardano-related accounts about: '"
                            ++ topic ++ "'") p0))))) in
    let out :=
      (@Ok unit tt,
       print "Done. Tip: open the Google Sheet to review and remove duplicates if needed." p2) in
    requests (snd out) = requests p ++ [request_for topic pages] /\
    fst out = Ok tt /\
    sheet (snd out) =
    snd (append_leads_to_sheet repr user_entered tab topic leads w1) /\
    In (appended_line (List.length leads) tab) (stdout (snd out))).
  { pose proof (append_leads_count repr user_entered tab topic leads w1) as Hn.
    destruct (append_leads_to_sheet repr user_entered tab topic leads w1) as [n w2].
    cbn [fst snd print with_sheet sheet requests stdout] in *. rewrite Hr0, Hn.
    repeat split. unfold appended_line.
    apply in_or_app. left. apply in_or_app. right. now left. }
  destruct leads as [|lead leads'].
  - destruct (append_leads_to_sheet repr user_entered tab topic [] w1) as [n w2].
    cbv zeta in Hdone.
    cbn [fst snd print with_sheet sheet requests stdout] in *.
    destruct Hdone as (H1 & H2 & H3 & H4). auto.
  - destruct (append_failure w1) as [[m w]|].
    + cbn [fst snd print with_sheet sheet requests]. rewrite Hr0. auto.
    + destruct (append_leads_to_sheet repr user_entered tab topic (lead :: leads') w1)
        as [n w2].
      cbv zeta in Hdone.
      cbn [fst snd print with_sheet sheet requests stdout] in *.
      destruct Hdone as (H1 & H2 & H3 & H4). auto.
Qed.

(** X17: the exceptions that leave main are EOFError, when the topic is
    asked for and the input has ended, and those of parse_apify_items:
    main raises [e] exactly when the input ended at the prompt and [e] is
    EOFError, or a topic was given, the search answered and parsing its
    items raised [e]; no failure of the search or of the spreadsheet
    service leaves main.  The spreadsheet is then as it was before the
    run. *)
Theorem main_raises (args_topic : option string) (tab : string) (pages : Z)
  (typed : option string) (p : process) (e : exn) :
  let topic := effective_topic args_topic typed in
  (fst (run args_topic tab pages typed p) = Raise e <->
   (input_ended args_topic typed /\ e = EOFError) \/
   (topic <> EmptyString /\
    exists data, post (request_for topic pages) = Returned data /\
                 parse_apify_items repr (items_of_data data) = Raise e)) /\
  (fst (run args_topic tab pages typed p) = Raise e ->
   sheet (snd (run args_topic tab pages typed p)) = sheet p).
Proof.
  cbv zeta.
  destruct (input_ended_dec args_topic typed) as [[Hu ->]|Hin].
  - destruct (main_input_ended args_topic tab pages p Hu) as (Hr & Hs & _).
    rewrite Hr. split; [|auto]. split.
    + intros [= <-]. left. repeat split. assumption.
    + intros [[_ ->]|[Hne _]]; [reflexivity|].
      exfalso. apply Hne. unfold effective_topic. now rewrite Hu.
  - pose proof (main_cases args_topic tab pages typed p Hin) as H. cbv zeta in H.
    destruct (String.eqb_spec (effective_topic args_topic typed) "") as [Ht|Ht].
    + destruct H as (Hr & Hs & _). rewrite Hr. split; [|discriminate].
      split; [discriminate|]. intros [[Hi _]|[Hne _]]; contradiction.
    + destruct H as (_ & H).
      destruct (post _) as [data|m].
      * destruct (parse_apify_items repr (items_of_data data)) as [leads|e'] eqn:Hp.
        -- destruct H as [Hr _]. rewrite Hr. split; [|discriminate].
           split; [discriminate|].
           intros [[Hi _]|(_ & data' & [= <-] & Hp')]; [contradiction|].
           rewrite Hp in Hp'. discriminate.
        -- destruct H as [Hr Hs]. rewrite Hr. split; [|auto].
           split.
           ++ intros [= <-]. right. split; [assumption|]. now exists data.
           ++ intros [[Hi _]|(_ & data' & [= <-] & Hp')]; [contradiction|].
              rewrite Hp in Hp'. congruence.
      * destruct H as [Hr Hs]. rewrite Hr. split; [|discriminate].
        split; [discriminate|].
        intros [[Hi _]|(_ & data' & Hd & _)]; [contradiction|discriminate].
Qed.

(** X18: unless a topic was given, the search answered, its items were
    parsed and the spreadsheet was opened, main leaves the spreadsheet as
    it was: no call to it, no clock reading.  With a topic it sends one
    request, without a topic none. *)
Theorem main_sheet_frame (args_topic : option string) (tab : string) (pages : Z)
  (typed : option string) (p : process) :
  let topic := effective_topic args_topic typed in
  let p' := snd (run args_topic tab pages typed p) in
  (sheet p' = sheet p \/
   (topic <> EmptyString /\
    exists data leads u,
      post (request_for topic pages) = Returned data /\
      parse_apify_items repr (items_of_data data) = Ok leads /\
      opened = Returned u)) /\
  requests p' =
  requests p ++ (if String.eqb topic "" then [] else [request_for topic pages]).
Proof.
  cbv zeta.
  destruct (input_ended_dec args_topic typed) as [[Hu ->]|Hin].
  - destruct (main_input_ended args_topic tab pages p Hu) as (_ & Hs & Hr).
    unfold effective_topic. rewrite Hu. cbn [String.eqb].
    rewrite app_nil_r. auto.
  - pose proof (main_cases args_topic tab pages typed p Hin) as H. cbv zeta in H.
    destruct (String.eqb_spec (effective_topic args_topic typed) "") as [Ht|Ht].
    + destruct H as (_ & Hs & Hr). rewrite app_nil_r. auto.
    + destruct H as (Hr & H). split; [|assumption].
      destruct (post _) as [data|m]; [|now left].
      destruct (parse_apify_items repr (items_of_data data)) as [leads|e'] eqn:Hp;
        [|now left].
      destruct H as [_ H]. destruct opened as [u|m] eqn:Ho; [|now left].
      right. split; [assumption|]. exists data, leads, u. auto.
Qed.

(** X19: when a topic was given, the search answered, its items gave
    [leads], the spreadsheet was opened and the spreadsheet service
    failed neither while the tab was provisioned nor, for leads that are
    not empty, in the append, main ends without exception; the tab then
    exists with its header in place and is longer by one row for each
    lead, and the number of rows main reports is the number of leads. *)
Theorem main_success (args_topic : option string) (tab : string) (pages : Z)
  (typed : option string) (p : process) (data : value) (leads : list dict)
  (u : unit) :
  let topic := effective_topic args_topic typed in
  let p' := snd (run args_topic tab pages typed p) in
  topic <> EmptyString ->
  post (request_for topic pages) = Returned data ->
  parse_apify_items repr (items_of_data data) = Ok leads ->
  opened = Returned u ->
  provision_failure (sheet p) = None ->
  (leads <> [] ->
   append_failure (snd (ensure_sheet_tab tab (sheet p))) = None) ->
  fst (run args_topic tab pages typed p) = Ok tt /\
  tab_exists (sheet p') tab /\ header_ok (sheet p') tab /\
  List.length (grid_of (sheet p') tab) =
  (List.length (grid_of (snd (ensure_sheet_tab tab (sheet p))) tab)
   + List.length leads)%nat /\
  In (appended_line (List.length leads) tab) (stdout p').
Proof.
  cbv zeta. intros Ht Hpost Hparse Hopen Hprov Happ.
  assert (Hin : ~ input_ended args_topic typed).
  { intros [Hu ->]. apply Ht. unfold effective_topic. now rewrite Hu. }
  pose proof (main_cases args_topic tab pages typed p Hin) as H. cbv zeta in H.
  destruct (String.eqb_spec (effective_topic args_topic typed) "") as [Ht'|_];
    [contradiction|].
  rewrite Hpost, Hparse, Hopen, Hprov in H. destruct H as (_ & Hr & H).
  assert (H' : sheet (snd (run args_topic tab pages typed p)) =
               snd (append_leads_to_sheet repr user_entered tab
                      (effective_topic args_topic typed) leads
                      (snd (ensure_sheet_tab tab (sheet p)))) /\
               In (appended_line (List.length leads) tab)
                  (stdout (snd (run args_topic tab pages typed p)))).
  { destruct leads as [|lead leads']; [exact H|].
    rewrite Happ in H by discriminate. exact H. }
  clear H. destruct H' as [Hs Hout].
  split; [assumption|]. rewrite Hs.
  destruct (ensure_sheet_tab_establishes tab (sheet p)) as (w1 & Hw1 & Hex & Hok).
  rewrite Hw1. cbn [snd].
  pose proof (append_leads_keeps_header repr user_entered tab
                (effective_topic args_topic typed) leads w1 Hex Hok) as (H1 & H2 & H3).
  auto.
Qed.
End MainProperties.

Lemma main_raises_witness :
  fst (main "token" "key.json" "sheet" 100 malformed_post sample_exists
         sample_service sample_service no_repr sample_exn_text shown
         no_failure no_failure
         (Some "nft") "Leads" 1 None sample_process) = Raise ValueError.
Proof.
  apply (proj2 (proj1 (main_raises "token" "key.json" "sheet" 100 malformed_post
                         sample_exists sample_service sample_service no_repr
                         sample_exn_text shown no_failure no_failure
                         (Some "nft") "Leads" 1 None
                         sample_process ValueError))).
  right. split; [discriminate|].
  eexists. split; [reflexivity|]. vm_compute; reflexivity.
Defined.

Lemma main_success_witness :
  header_ok
    (sheet (snd (main "token" "key.json" "sheet" 100 sample_post sample_exists
                   sample_service sample_service no_repr sample_exn_text shown
                   no_failure no_failure
                   None "Leads" 1 (Some "  nft artists  ") sample_process))) "Leads" /\
  In (appended_line 2 "Leads")
     (stdout (snd (main "token" "key.json" "sheet" 100 sample_post sample_exists
                     sample_service sample_service no_repr sample_exn_text shown
                     no_failure no_failure
                     None "Leads" 1 (Some "  nft artists  ") sample_process))).
Proof.
  assert (Hne : effective_topic None (Some "  nft artists  ") <> EmptyString)
    by (vm_compute; discriminate).
  assert (Hparse : parse_apify_items no_repr (items_of_data (VList [sample_container]))
                   = Ok sample_leads) by (vm_compute; reflexivity).
  pose proof (main_success "token" "key.json" "sheet" 100 sample_post sample_exists
                sample_service sample_service no_repr sample_exn_text shown
                no_failure no_failure
                None "Leads" 1 (Some "  nft artists  ") sample_process
                (VList [sample_container]) sample_leads tt
                Hne eq_refl Hparse eq_refl eq_refl (fun _ => eq_refl))
    as (_ & _ & Hok & _ & Hout).
  split; [exact Hok|exact Hout].
Defined.

Example main_run :
  main "token" "key.json" "sheet" 100 sample_post sample_exists
    sample_service sample_service no_repr sample_exn_text shown
    no_failure no_failure
    None "New" 2 (Some " nft ") (mkProcess sample_world [] []) =
  (Ok tt,
   mkProcess
     (mkWorld
        [mkWorksheet "Sheet1" []; mkWorksheet "Leads" [headers ++ ["Notes"]];
         mkWorksheet "New"
           [headers;
            ["2025-03-09 14:05:07 UTC"; "nft"; "Ada"; "ada"; "https://x.com/ada";
             ""; "1200000"]%string;
            ["2025-03-09 14:05:07 UTC"; "nft"; "Bob"; "bob";
             "https://x.com/bob?lang=en"; ""; ""]%string]]
        [CallWorksheet "New"; CallAddWorksheet "New" "1000" "20";
         CallRowValues "New" 1; CallUpdate "New" "A1:G1" [headers];
         CallAppendRows "New"
           [[VStr "2025-03-09 14:05:07 UTC"; VStr "nft"; VStr "Ada"; VStr "ada";
             VStr "https://x.com/ada"; VStr ""; VStr "1200000"];
            [VStr "2025-03-09 14:05:07 UTC"; VStr "nft"; VStr "Bob"; VStr "bob";
             VStr "https://x.com/bob?lang=en"; VStr ""; VStr ""]]
           "USER_ENTERED"]
        sample_clock 15)
     [search_request 100 "nft" "token" 2]
     ["Enter topic/niche to search for (e.g., 'nft artists'): ";
      "Searching X.com for Cardano-related accounts about: 'nft'";
      "Found 2 leads (parsed).";
      "Appended 2 rows to sheet 'New'.";
      "Done. Tip: open the Google Sheet to review and remove duplicates if needed."]%string).
Proof. vm_compute; reflexivity. Qed.

(** A run in which the service refuses the append: the tab is
    provisioned, the error is printed, and main returns. *)
Example main_run_append_refused :
  main "token" "key.json" "sheet" 100 sample_post sample_exists
    sample_service sample_service no_repr sample_exn_text shown
    no_failure quota_failure
    (Some "nft") "New" 2 None (mkProcess sample_world [] []) =
  (Ok tt,
   mkProcess
     (mkWorld
        [mkWorksheet "Sheet1" []; mkWorksheet "Leads" [headers ++ ["Notes"]];
         mkWorksheet "New" [headers]]
        [CallWorksheet "New"; CallAddWorksheet "New" "1000" "20";
         CallRowValues "New" 1; CallUpdate "New" "A1:G1" [headers]]
        sample_clock 14)
     [search_request 100 "nft" "token" 2]
     ["Searching X.com for Cardano-related accounts about: 'nft'";
      "Found 2 leads (parsed).";
      "Error appending to sheet: Quota exceeded"]%string).
Proof. vm_compute; reflexivity. Qed.

(** A run in which the input has ended at the prompt. *)
Example main_run_input_ended :
  main "token" "key.json" "sheet" 100 sample_post sample_exists
    sample_service sample_service no_repr sample_exn_text shown
    no_failure no_failure
    None "New" 2 None (mkProcess sample_world [] []) =
  (Raise EOFError,
   mkProcess sample_world []
     ["Enter topic/niche to search for (e.g., 'nft artists'): "%string]).
Proof. vm_compute; reflexivity. Qed.

(** ** Rounding in the normal range *)

(** For a rational [p / q] from 2^-64 up to 2^52 the rounding is a float
    [m * 2^-s] with 53 significant bits that is at most half a unit of
    the last place away. *)
Lemma round_nearest_even_normal p q :
  0 < p -> 0 < q -> p < q * 2 ^ 52 -> q <= p * 2 ^ 64 ->
  exists s m,
    0 < s /\ round_nearest_even p q = FFinite m (- s) /\
    2 ^ 52 * q <= p * 2 ^ s < 2 ^ 53 * q /\
    Z.abs (2 * (m * q - p * 2 ^ s)) <= q.
Proof.
  intros Hp Hq Hhi Hlo. unfold round_nearest_even.
  replace (p =? 0) with false by (symmetry; apply Z.eqb_neq; lia).
  rewrite (Z.abs_eq p) by lia.
  destruct (Z.log2_spec p Hp) as [A1 A2]. destruct (Z.log2_spec q Hq) as [B1 B2].
  pose proof (Z.log2_nonneg p) as Hlp. pose proof (Z.log2_nonneg q) as Hlq.
  rewrite Z.pow_succ_r in A2, B2 by assumption.
  set (lp := Z.log2 p) in *. set (lq := Z.log2 q) in *.
  set (d := lp - lq).
  assert (Hpow : forall a, 0 <= a -> 0 < 2 ^ a) by (intros; apply Z.pow_pos_nonneg; lia).
  assert (Hlg : exists lg,
             (if (if 0 <=? d then q * 2 ^ d <=? p else q <=? p * 2 ^ (- d))
              then d else d - 1) = lg /\
             -66 <= lg <= 51 /\
             2 ^ 52 * q <= p * 2 ^ (52 - lg) < 2 ^ 53 * q).
  { eexists; split; [reflexivity|].
    destruct (0 <=? d) eqn:Hd; [apply Z.leb_le in Hd|apply Z.leb_gt in Hd].
    - assert (Elp : 2 ^ lp = 2 ^ lq * 2 ^ d)
        by (rewrite <- Z.pow_add_r by lia; f_equal; lia).
      pose proof (Hpow d Hd) as Hd2. pose proof (Hpow lq Hlq) as Hq2.
      destruct (q * 2 ^ d <=? p) eqn:Ht;
        [apply Z.leb_le in Ht|apply Z.leb_gt in Ht].
      + assert (Hd51 : d <= 51).
        { destruct (Z.le_gt_cases d 51) as [|Hbig]; [assumption|exfalso].
          assert (2 ^ 52 <= 2 ^ d) by (apply Z.pow_le_mono_r; lia). nia. }
        split; [lia|].
        assert (E52 : 2 ^ 52 = 2 ^ d * 2 ^ (52 - d))
          by (rewrite <- Z.pow_add_r by lia; f_equal; lia).
        pose proof (Hpow (52 - d) ltac:(lia)) as Hs2.
        replace (2 ^ 53) with (2 * 2 ^ 52) by reflexivity. rewrite E52. nia.
      + assert (Hd52 : d <= 52).
        { destruct (Z.le_gt_cases d 52) as [|Hbig]; [assumption|exfalso].
          assert (2 ^ 53 <= 2 ^ d) by (apply Z.pow_le_mono_r; lia).
          change (2 ^ 53) with (2 * 2 ^ 52) in *. nia. }
        split; [lia|].
        replace (52 - (d - 1)) with (53 - d) by lia.
        assert (E53 : 2 ^ 53 = 2 ^ d * 2 ^ (53 - d))
          by (rewrite <- Z.pow_add_r by lia; f_equal; lia).
        pose proof (Hpow (53 - d) ltac:(lia)) as Hs2.
        replace (2 ^ 52 * q) with (2 ^ 53 * q / 2)
          by (change (2 ^ 53) with (2 * 2 ^ 52);
              rewrite <- Z.mul_assoc, Z.mul_comm, Z.div_mul; lia).
        assert (2 ^ 53 * q / 2 <= 2 ^ 53 * q) by (apply Z.div_le_upper_bound; nia).
        rewrite E53 in *.
        split; [|nia].
        apply Z.div_le_upper_bound; [lia|]. nia.
    - set (k := - d). assert (Hk : 0 < k) by (subst k; lia).
      assert (Elq : 2 ^ lq = 2 ^ lp * 2 ^ k)
        by (rewrite <- Z.pow_add_r by lia; f_equal; subst k d; lia).
      pose proof (Hpow k ltac:(lia)) as Hk2. pose proof (Hpow lp Hlp) as Hp2.
      assert (Hk64 : k <= 64).
      { destruct (Z.le_gt_cases k 64) as [|Hbig]; [assumption|exfalso].
        assert (2 ^ 65 <= 2 ^ k) by (apply Z.pow_le_mono_r; lia).
        change (2 ^ 65) with (2 * 2 ^ 64) in *. nia. }
      destruct (q <=? p * 2 ^ k) eqn:Ht;
        [apply Z.leb_le in Ht|apply Z.leb_gt in Ht].
      + split; [subst k; lia|].
        replace (52 - d) with (52 + k) by (subst k; lia).
        rewrite Z.pow_add_r by lia.
        change (2 ^ 53) with (2 * 2 ^ 52). nia.
      + split; [subst k; lia|].
        replace (52 - (d - 1)) with (53 + k) by (subst k; lia).
        rewrite Z.pow_add_r by lia.
        change (2 ^ 53) with (2 * 2 ^ 52). nia. }
  destruct Hlg as (lg & -> & Hrange & Hscale). cbv zeta.
  replace (Z.max (lg - 52) (-1074)) with (lg - 52) by lia.
  replace (0 <=? lg - 52) with false by (symmetry; apply Z.leb_gt; lia).
  cbn [andb]. replace (- (lg - 52)) with (52 - lg) by lia.
  rewrite (Z.sgn_pos p Hp), Z.mul_1_l.
  set (num := p * 2 ^ (52 - lg)) in *.
  exists (52 - lg).
  eexists. split; [lia|]. split; [f_equal; lia|]. split; [exact Hscale|].
  pose proof (Z.div_mod num q ltac:(lia)) as Hdm.
  pose proof (Z.mod_pos_bound num q Hq) as Hr.
  destruct (q <? 2 * (num mod q)) eqn:H1; [apply Z.ltb_lt in H1|apply Z.ltb_ge in H1];
    cbn [orb].
  - lia.
  - destruct (q =? 2 * (num mod q)) eqn:H2;
      [apply Z.eqb_eq in H2|apply Z.eqb_neq in H2]; cbn [andb].
    + destruct (Z.odd (num / q)); lia.
    + lia.
Qed.

(** A float less than one half away from the integer [t] rounds to [t]. *)
Lemma py_round_near m s t :
  0 < s -> 2 * Z.abs (m - t * 2 ^ s) < 2 ^ s -> py_round (FFinite m (- s)) = Ok t.
Proof.
  intros Hs Hnear. cbn [py_round].
  replace (0 <=? - s) with false by (symmetry; apply Z.leb_gt; lia).
  rewrite Z.opp_involutive. f_equal.
  assert (Hden : 0 < 2 ^ s) by (apply Z.pow_pos_nonneg; lia).
  set (den := 2 ^ s) in *.
  destruct (Z.le_gt_cases (t * den) m) as [Hge|Hlt].
  - assert (Hq : m / den = t).
    { symmetry. apply (Z.div_unique m den t (m - t * den)); lia. }
    assert (Hr : m mod den = m - t * den).
    { symmetry. apply (Z.mod_unique m den t (m - t * den)); lia. }
    rewrite Hq, Hr.
    replace (den <? 2 * (m - t * den)) with false by (symmetry; apply Z.ltb_ge; lia).
    replace (den =? 2 * (m - t * den)) with false by (symmetry; apply Z.eqb_neq; lia).
    reflexivity.
  - assert (Hq : m / den = t - 1).
    { symmetry. apply (Z.div_unique m den (t - 1) (m - (t - 1) * den)); lia. }
    assert (Hr : m mod den = m - (t - 1) * den).
    { symmetry. apply (Z.mod_unique m den (t - 1) (m - (t - 1) * den)); lia. }
    rewrite Hq, Hr.
    replace (den <? 2 * (m - (t - 1) * den)) with true by (symmetry; apply Z.ltb_lt; lia).
    cbn [orb]. lia.
Qed.

(** A float exactly half way between [a] and [a + 1] rounds to the even
    one of the two. *)
Lemma py_round_half m s a :
  0 < s -> 2 * m = (2 * a + 1) * 2 ^ s ->
  py_round (FFinite m (- s)) = Ok (if Z.even a then a else a + 1).
Proof.
  intros Hs Hhalf. cbn [py_round].
  replace (0 <=? - s) with false by (symmetry; apply Z.leb_gt; lia).
  rewrite Z.opp_involutive. f_equal.
  assert (Hden : 0 < 2 ^ s) by (apply Z.pow_pos_nonneg; lia).
  assert (Heven : 2 ^ s = 2 * 2 ^ (s - 1)).
  { rewrite <- Z.pow_succ_r by lia. f_equal. lia. }
  set (h := 2 ^ (s - 1)) in *. set (den := 2 ^ s) in *.
  assert (Hq : m / den = a).
  { symmetry. apply (Z.div_unique m den a h); lia. }
  assert (Hr : m mod den = h).
  { symmetry. apply (Z.mod_unique m den a h); lia. }
  rewrite Hq, Hr.
  replace (den <? 2 * h) with false by (symmetry; apply Z.ltb_ge; lia).
  replace (den =? 2 * h) with true by (symmetry; apply Z.eqb_eq; lia).
  cbn [orb andb]. rewrite <- Z.negb_even. now destruct (Z.even a).
Qed.

Lemma int_of_digits_from_app s t : forall acc,
  int_of_digits_from acc (s ++ t) = int_of_digits_from (int_of_digits_from acc s) t.
Proof. induction s as [|c s IH]; intros acc; [reflexivity|apply IH]. Qed.

Lemma int_of_digits_from_shift s : forall acc,
  int_of_digits_from acc s = acc * 10 ^ slen s + int_of_digits s.
Proof.
  unfold int_of_digits, slen.
  induction s as [|c s IH]; intros acc.
  - cbn. lia.
  - cbn [int_of_digits_from String.length]. rewrite (IH (10 * acc + digit_value c)).
    rewrite (IH (10 * 0 + digit_value c)).
    rewrite Nat2Z.inj_succ, Z.pow_succ_r by lia. ring.
Qed.

Lemma py_float_decimal ip fp :
  all_chars is_digit ip = true -> all_chars is_digit fp = true ->
  (ip ++ fp)%string <> EmptyString ->
  py_float (ip ++ "." ++ fp) =
  Ok (round_nearest_even (int_of_digits (ip ++ fp)) (10 ^ slen fp)).
Proof.
  intros Hip Hfp Hne. unfold py_float.
  rewrite (span_maximal is_digit ip ("." ++ fp) Hip eq_refl).
  cbn [append]. change ("." =? ".")%char with true. cbv iota.
  rewrite (span_all is_digit fp Hfp).
  destruct ip, fp; try reflexivity. now destruct Hne.
Qed.

(** Scaling the nearest float of [N / q] by [F] and rounding gives
    [N * F / q] when that is an integer below 2^50. *)
Lemma scaled_decimal_exact N q F T :
  0 < q -> 0 < F < 2 ^ 20 -> 0 < T < 2 ^ 50 -> N * F = T * q ->
  py_round (fmul_int (round_nearest_even N q) F) = Ok T.
Proof.
  intros Hq [HF0 HF] [HT0 HT] Heq.
  assert (HN : 0 < N) by nia.
  destruct (round_nearest_even_normal N q HN Hq) as (s1 & m1 & Hs1 & -> & Hsc1 & Herr1);
    [nia|nia|].
  assert (HA : 0 < 2 ^ s1) by (apply Z.pow_pos_nonneg; lia).
  set (A := 2 ^ s1) in *.
  assert (H4F : 4 * F < A).
  { assert (2 ^ 52 * q * F <= T * q * A) by nia.
    change (2 ^ 52) with (4 * 2 ^ 50) in *. nia. }
  assert (HE : Z.abs (2 * (m1 * F - T * A)) <= F).
  { assert (Z.abs (2 * (m1 * q - N * A)) * F <= q * F) by nia.
    assert (Hq' : q * Z.abs (2 * (m1 * F - T * A)) <= q * F).
    { rewrite <- (Z.abs_eq q) at 1 by lia. rewrite <- Z.abs_mul.
      replace (q * (2 * (m1 * F - T * A))) with (2 * (m1 * q - N * A) * F) by nia.
      rewrite Z.abs_mul, (Z.abs_eq F) by lia. assumption. }
    nia. }
  cbn [fmul_int].
  replace (0 <=? - s1) with false by (symmetry; apply Z.leb_gt; lia).
  rewrite Z.opp_involutive. fold A.
  assert (HX : T * A - F <= m1 * F <= T * A + F) by lia.
  assert (HTA : A <= T * A < 2 ^ 50 * A) by nia.
  destruct (round_nearest_even_normal (m1 * F) A) as (s2 & m2 & Hs2 & -> & Hsc2 & Herr2);
    [lia|assumption|lia|lia|].
  apply py_round_near; [assumption|].
  assert (HB : 2 <= 2 ^ s2).
  { change 2 with (2 ^ 1) at 1. apply Z.pow_le_mono_r; lia. }
  set (B := 2 ^ s2) in *.
  assert (HD : A * Z.abs (2 * (m2 - T * B)) <= A + F * B).
  { rewrite <- (Z.abs_eq A) at 1 by lia. rewrite <- Z.abs_mul.
    replace (A * (2 * (m2 - T * B)))
      with (2 * (m2 * A - m1 * F * B) + B * (2 * (m1 * F - T * A))) by ring.
    eapply Z.le_trans; [apply Z.abs_triangle|].
    rewrite (Z.abs_mul B), (Z.abs_eq B) by lia. nia. }
  nia.
Qed.

Lemma remove_commas_none s : all_chars non_comma s = true -> remove_commas s = s.
Proof.
  unfold remove_commas, non_comma. induction s as [|c s IH]; [reflexivity|].
  cbn [all_chars filter_chars]. intros H. apply andb_true_iff in H as [Hc Hs].
  now rewrite Hc, (IH Hs).
Qed.

Lemma digit_non_comma c : is_digit c = true -> non_comma c = true.
Proof.
  unfold non_comma. intros H.
  destruct (Ascii.eqb_spec c ","); [subst c; discriminate|reflexivity].
Qed.

Lemma digit_is_num c : is_digit c = true -> is_num_char c = true.
Proof. unfold is_num_char. now intros ->. Qed.

Lemma suffix_factor_bound c : 0 < suffix_factor c < 2 ^ 20.
Proof. unfold suffix_factor. destruct (Ascii.eqb (lower c) "k"); split; reflexivity. Qed.

(** X20: a number written with a decimal point and followed by K, k, M
    or m, separators and white space allowed, is read exactly whenever
    its scaled value [T] is an integer from 1 to 2^50: the two roundings
    of the float arithmetic and the final [round] cancel out. *)
Theorem parse_followers_decimal (s ip fp ws : string) (c : ascii) (T : Z) :
  all_chars is_num_char s = true ->
  remove_commas s = (ip ++ "." ++ fp)%string ->
  all_chars is_digit ip = true -> all_chars is_digit fp = true ->
  (ip ++ fp)%string <> EmptyString ->
  all_chars is_space ws = true -> is_suffix_char c = true ->
  int_of_digits (ip ++ fp) * suffix_factor c = T * 10 ^ slen fp ->
  0 < T < 2 ^ 50 ->
  parse_followers (Some (s ++ ws ++ String c EmptyString)%string) = Ok (Some T).
Proof.
  intros Hs Hrc Hip Hfp Hne Hws Hc Heq HT.
  assert (Hsne : s <> EmptyString).
  { intros ->. cbn in Hrc. destruct ip; discriminate. }
  assert (Hrest : match (ws ++ String c EmptyString)%string with
                  | EmptyString => True
                  | String k _ => is_num_char k = false
                  end).
  { destruct ws as [|k ws]; cbn [append].
    - now apply suffix_not_num.
    - cbn [all_chars] in Hws. apply andb_true_iff in Hws as [Hk _].
      now apply space_not_num. }
  pose proof (search_followers_token s _ Hs Hsne Hrest) as Hsearch.
  rewrite (suffix_after_spaces ws c Hws Hc) in Hsearch.
  rewrite (parse_followers_found _ _ _ Hsearch), Hrc.
  rewrite (py_float_decimal ip fp Hip Hfp Hne). cbn [bind].
  rewrite (suffix_scaling c _ Hc).
  rewrite (scaled_decimal_exact _ (10 ^ slen fp) (suffix_factor c) T); [reflexivity| | | |].
  - apply Z.pow_pos_nonneg; [lia|]. unfold slen. lia.
  - apply suffix_factor_bound.
  - assumption.
  - assumption.
Qed.

Lemma parse_followers_decimal_witness :
  parse_followers (Some "1,204.75 k") = Ok (Some 1204750).
Proof.
  apply (parse_followers_decimal "1,204.75" "1204" "75" " " "k" 1204750);
    try reflexivity.
  - discriminate.
  - split; reflexivity.
Defined.

(** X21: a text of digits followed by ".5" is read as the even one of
    its two neighbouring integers: the built-in [round] rounds halves to
    even, so "2.5" gives 2 and "3.5" gives 4. *)
Theorem parse_followers_half (ip : string) :
  all_chars is_digit ip = true ->
  int_of_digits ip < 2 ^ 51 ->
  parse_followers (Some (ip ++ ".5")%string) =
  Ok (Some (if Z.even (int_of_digits ip) then int_of_digits ip
            else int_of_digits ip + 1)).
Proof.
  intros Hip Ha. set (a := int_of_digits ip) in *.
  assert (Ha0 : 0 <= a) by now apply int_of_digits_nonneg.
  assert (Hs : all_chars is_num_char (ip ++ ".5") = true).
  { rewrite all_chars_app, (all_chars_impl _ _ ip digit_is_num Hip). reflexivity. }
  assert (Hne : (ip ++ ".5")%string <> EmptyString) by (destruct ip; discriminate).
  pose proof (search_followers_token _ EmptyString Hs Hne I) as Hsearch.
  rewrite sapp_empty_r in Hsearch.
  change (suffix_after EmptyString) with (@None ascii) in Hsearch.
  rewrite (parse_followers_found _ _ _ Hsearch).
  rewrite remove_commas_none
    by (rewrite all_chars_app, (all_chars_impl _ _ ip digit_non_comma Hip); reflexivity).
  change (ip ++ ".5")%string with (ip ++ "." ++ "5")%string.
  rewrite (py_float_decimal ip "5" Hip eq_refl) by (destruct ip; discriminate).
  cbn [bind].
  assert (HN : int_of_digits (ip ++ "5") = 10 * a + 5).
  { unfold int_of_digits. rewrite int_of_digits_from_app. fold (int_of_digits ip).
    fold a. reflexivity. }
  rewrite HN. change (10 ^ slen "5") with 10.
  destruct (round_nearest_even_normal (10 * a + 5) 10) as (s & m & Hs0 & -> & Hsc & Herr);
    [lia|lia|lia|lia|].
  assert (Heven : 2 ^ s = 2 * 2 ^ (s - 1)).
  { rewrite <- Z.pow_succ_r by lia. f_equal. lia. }
  rewrite (py_round_half m s a Hs0); [reflexivity|].
  set (h := 2 ^ (s - 1)) in *. rewrite Heven in *. nia.
Qed.

Lemma parse_followers_half_witness :
  parse_followers (Some "2.5") = Ok (Some 2) /\
  parse_followers (Some "3.5") = Ok (Some 4).
Proof.
  split.
  - exact (parse_followers_half "2" eq_refl eq_refl).
  - exact (parse_followers_half "3" eq_refl eq_refl).
Defined.

(** ** From leads to rows *)

(** X22: for a lead as parse_apify_items builds it, whose Followers are
    within the limit of digits of [str], the Followers cell of its row is
    a str of decimal digits, possibly empty, never "None" nor a sign; when
    the followers are a non-zero int the digits spell it. *)
Theorem followers_cell_digits (repr : value -> string) (now topic : string)
  (lead : dict) :
  lead_wf lead ->
  followers_printable lead ->
  exists t,
    nth_error (row_of_lead repr now topic lead) 6 = Some (VStr t) /\
    all_chars is_digit t = true /\
    (forall n, dict_lookup lead "Followers" = Some (VInt n) -> n <> 0 ->
               int_of_digits t = n).
Proof.
  intros (_ & _ & Hf) _. unfold row_of_lead. cbn [nth_error].
  unfold dict_get_default.
  destruct Hf as [Hf | (n & Hn & Hf)]; rewrite Hf.
  - exists EmptyString. repeat split. intros n [=].
  - unfold py_or. cbn [truthy].
    destruct (Z.eqb_spec n 0) as [-> | Hn0]; cbn [negb py_str].
    + exists EmptyString. repeat split. intros n [= <-]. congruence.
    + exists (str_int n). split; [reflexivity|].
      split; [apply str_int_pos_digits; lia|].
      intros n' [= <-] _. apply str_int_decimal; lia.
Qed.

Lemma sample_lead_wf : lead_wf sample_lead.
Proof.
  split; [reflexivity|]. split.
  - exists "https://x.com/ada"%string. split; reflexivity.
  - right. exists 1200000. split; [lia|reflexivity].
Qed.

Lemma followers_cell_digits_witness :
  exists t,
    nth_error (row_of_lead no_repr "2025-03-09 14:05:07 UTC" "nft" sample_lead) 6
    = Some (VStr t) /\ all_chars is_digit t = true.
Proof.
  destruct (followers_cell_digits no_repr "2025-03-09 14:05:07 UTC" "nft"
              sample_lead sample_lead_wf sample_lead_printable)
    as (t & H1 & H2 & _).
  exists t. split; assumption.
Defined.

Lemma ensure_sheet_tab_frame_witness :
  grid_of (snd (ensure_sheet_tab "New" sample_world)) "Leads" =
  grid_of sample_world "Leads".
Proof.
  pose proof (ensure_sheet_tab_frame "New" sample_world) as H.
  destruct (ensure_sheet_tab "New" sample_world) as [r w'].
  destruct H as [H _]. apply H. discriminate.
Defined.

(** ** Follower counts within the range of binary64 *)

(** The quotient lies below 2^(lg+1), [lg] being the exponent the
    rounding works with. *)
Lemma log2_quotient_bound a q :
  0 < a -> 0 < q ->
  let d := Z.log2 a - Z.log2 q in
  let lg := if (if 0 <=? d then q * 2 ^ d <=? a else q <=? a * 2 ^ (- d))
            then d else d - 1 in
  (0 <= lg + 1 -> a < q * 2 ^ (lg + 1)) /\
  (lg + 1 < 0 -> a * 2 ^ (- (lg + 1)) < q).
Proof.
  intros Ha Hq d lg.
  destruct (Z.log2_spec a Ha) as [Ha1 Ha2].
  destruct (Z.log2_spec q Hq) as [Hq1 Hq2].
  pose proof (Z.log2_nonneg a) as Hla. pose proof (Z.log2_nonneg q) as Hlq.
  replace (Z.succ (Z.log2 a)) with (Z.log2 a + 1) in Ha2 by lia.
  subst lg.
  destruct (if 0 <=? d then q * 2 ^ d <=? a else q <=? a * 2 ^ (- d)) eqn:Hc.
  - split; intros Hk.
    + assert (E : 2 ^ (Z.log2 a + 1) = 2 ^ Z.log2 q * 2 ^ (d + 1))
        by (rewrite <- Z.pow_add_r by lia; f_equal; subst d; lia).
      assert (0 < 2 ^ (d + 1)) by (apply Z.pow_pos_nonneg; lia).
      nia.
    + assert (E : 2 ^ Z.log2 q = 2 ^ (Z.log2 a + 1) * 2 ^ (- (d + 1)))
        by (rewrite <- Z.pow_add_r by lia; f_equal; subst d; lia).
      assert (0 < 2 ^ (- (d + 1))) by (apply Z.pow_pos_nonneg; lia).
      nia.
  - replace (d - 1 + 1) with d by lia.
    destruct (0 <=? d) eqn:Hd.
    + apply Z.leb_le in Hd. apply Z.leb_gt in Hc. split; [auto|lia].
    + apply Z.leb_gt in Hd. apply Z.leb_gt in Hc. split; [lia|auto].
Qed.

Lemma round_nearest_even_bounded p q :
  0 <= p -> 0 < q -> float_bounded (round_nearest_even p q).
Proof.
  intros Hp Hq. unfold round_nearest_even.
  destruct (p =? 0) eqn:Hp0.
  { cbn [float_bounded]. split; [lia|]. change (0 <=? 0) with true. cbv iota.
    rewrite Z.mul_0_l. apply Z.pow_pos_nonneg; lia. }
  apply Z.eqb_neq in Hp0.
  assert (Ha : Z.abs p = p) by lia. rewrite Ha.
  pose proof (log2_quotient_bound p q ltac:(lia) Hq) as HK.
  cbv zeta in HK |- *.
  match goal with
  | |- context [Z.max (?x - 52) (-1074)] => set (lg := x) in *
  end.
  set (e := Z.max (lg - 52) (-1074)).
  assert (He1 : lg - 52 <= e) by (subst e; lia).
  assert (He2 : -1074 <= e) by (subst e; lia).
  clearbody e. clearbody lg.
  assert (Hs : Z.sgn p = 1) by (apply Z.sgn_pos; lia).
  destruct (0 <=? e) eqn:He.
  - (* exponent not negative: the overflow test *)
    apply Z.leb_le in He.
    assert (Hden : 0 < q * 2 ^ e)
      by (apply Z.mul_pos_pos; [assumption|apply Z.pow_pos_nonneg; lia]).
    assert (Hm : 0 <= p / (q * 2 ^ e)) by (apply Z.div_pos; lia).
    set (m' := if _ || _ then _ else _).
    assert (Hm' : 0 <= m') by (subst m'; destruct (_ || _); lia).
    clearbody m'. cbn [andb].
    destruct (2 ^ 1024 <=? m' * 2 ^ e) eqn:Ho.
    + cbn [float_bounded]. apply Z.ltb_ge. lia.
    + apply Z.leb_gt in Ho. cbn [float_bounded]. rewrite Hs, Z.mul_1_l.
      split; [assumption|].
      destruct (Z.leb_spec 0 e); [assumption|lia].
  - (* negative exponent: the mantissa is at most 2^53 *)
    apply Z.leb_gt in He. cbn [andb float_bounded]. rewrite Hs, Z.mul_1_l.
    assert (Hpe : 0 < 2 ^ (- e)) by (apply Z.pow_pos_nonneg; lia).
    assert (Hnum : p * 2 ^ (- e) < q * 2 ^ 53).
    { destruct HK as [HK1 HK2].
      destruct (Z.le_gt_cases 0 (lg + 1)) as [Hk|Hk].
      - specialize (HK1 Hk).
        assert (E : 2 ^ 53 = 2 ^ (lg + 1) * 2 ^ (- e) * 2 ^ (53 - (lg + 1) + e)).
        { rewrite <- !Z.pow_add_r by lia. f_equal. lia. }
        assert (H1 : 1 <= 2 ^ (53 - (lg + 1) + e))
          by (pose proof (Z.pow_pos_nonneg 2 (53 - (lg + 1) + e)); lia).
        assert (H2 : p * 2 ^ (- e) < q * 2 ^ (lg + 1) * 2 ^ (- e)) by nia.
        assert (H3 : 0 < q * 2 ^ (lg + 1) * 2 ^ (- e)) by nia.
        rewrite E. nia.
      - specialize (HK2 Hk).
        assert (H53 : 1 <= 2 ^ 53) by (pose proof (Z.pow_pos_nonneg 2 53); lia).
        destruct (Z.le_gt_cases e (lg + 1)) as [Hek|Hek].
        + assert (E : 2 ^ (- e) = 2 ^ (- (lg + 1)) * 2 ^ (lg + 1 - e))
            by (rewrite <- Z.pow_add_r by lia; f_equal; lia).
          assert (E' : 2 ^ 53 = 2 ^ (lg + 1 - e) * 2 ^ (53 - (lg + 1) + e))
            by (rewrite <- Z.pow_add_r by lia; f_equal; lia).
          assert (H1 : 1 <= 2 ^ (53 - (lg + 1) + e))
            by (pose proof (Z.pow_pos_nonneg 2 (53 - (lg + 1) + e)); lia).
          assert (H2 : 0 < 2 ^ (lg + 1 - e)) by (apply Z.pow_pos_nonneg; lia).
          rewrite E, E'.
          assert (H3 : p * 2 ^ (- (lg + 1)) * 2 ^ (lg + 1 - e)
                       < q * 2 ^ (lg + 1 - e)) by nia.
          nia.
        + assert (H1 : 2 ^ (- e) <= 2 ^ (- (lg + 1)))
            by (apply Z.pow_le_mono_r; lia).
          nia. }
    assert (Hm : 0 <= p * 2 ^ (- e) / q < 2 ^ 53).
    { split; [apply Z.div_pos; nia|].
      apply Z.div_lt_upper_bound; [assumption|nia]. }
    destruct (Z.leb_spec 0 e); [lia|].
    destruct (_ || _); lia.
Qed.

Lemma fmul_int_bounded x k :
  nonneg_float x -> 0 < k -> float_bounded (fmul_int x k).
Proof.
  destruct x as [m e|s|]; cbn [fmul_int nonneg_float float_bounded];
    intros Hx Hk; try assumption.
  destruct (0 <=? e) eqn:He.
  - apply round_nearest_even_bounded; [|lia].
    apply Z.mul_nonneg_nonneg; [apply Z.mul_nonneg_nonneg; lia|].
    apply Z.pow_nonneg; lia.
  - apply Z.leb_gt in He.
    apply round_nearest_even_bounded; [apply Z.mul_nonneg_nonneg; lia|].
    apply Z.pow_pos_nonneg; lia.
Qed.

Lemma py_float_bounded s x : py_float s = Ok x -> float_bounded x.
Proof.
  unfold py_float.
  pose proof (span_fst_all is_digit s) as Hip.
  destruct (span is_digit s) as [ip rest]; simpl in Hip.
  destruct rest as [|c rest'].
  - destruct ip; [discriminate|]. intros [= <-].
    apply round_nearest_even_bounded; [now apply int_of_digits_nonneg|lia].
  - destruct (Ascii.eqb c "."); [|discriminate].
    pose proof (span_fst_all is_digit rest') as Hfp.
    destruct (span is_digit rest') as [fp rest'']; simpl in Hfp.
    destruct rest''; [|discriminate].
    assert (Hnn : float_bounded
                    (round_nearest_even (int_of_digits (ip ++ fp)) (10 ^ slen fp))).
    { apply round_nearest_even_bounded.
      - apply int_of_digits_nonneg. now rewrite all_chars_app, Hip, Hfp.
      - apply Z.pow_pos_nonneg; [lia|]. unfold slen; lia. }
    destruct ip, fp; try discriminate; intros [= <-]; exact Hnn.
Qed.

Lemma py_round_bounded x n :
  float_bounded x -> py_round x = Ok n -> 0 <= n < 2 ^ 1024.
Proof.
  destruct x as [m e|s|]; cbn [py_round float_bounded]; intros Hx; try discriminate.
  destruct Hx as [Hm Hb].
  destruct (0 <=? e) eqn:He; intros [= <-].
  - split; [|assumption].
    apply Z.mul_nonneg_nonneg; [assumption|]. apply Z.pow_nonneg; lia.
  - apply Z.leb_gt in He.
    assert (Hd : 0 < 2 ^ (- e)) by (apply Z.pow_pos_nonneg; lia).
    assert (Hq : 0 <= m / 2 ^ (- e) <= m).
    { split; [apply Z.div_pos; lia|].
      apply Z.div_le_upper_bound; [assumption|]. nia. }
    assert (H54 : 2 ^ 53 + 1 < 2 ^ 1024) by (vm_compute; reflexivity).
    destruct (_ || _); lia.
Qed.

(** A follower count that parse_followers returns is below 2^1024. *)
Lemma parse_followers_some_bound text n :
  parse_followers text = Ok (Some n) -> 0 <= n < 2 ^ 1024.
Proof.
  destruct text as [x|]; [|discriminate].
  destruct (search_followers x) as [[num_str suffix]|] eqn:Hs.
  - rewrite (parse_followers_found _ _ _ Hs).
    destruct (py_float (remove_commas num_str)) as [num|e] eqn:Hf; [|discriminate].
    cbn [bind].
    assert (Hb : float_bounded
                   match suffix with
                   | Some c =>
                       let s := lower c in
                       if Ascii.eqb s "k" then fmul_int num 1000
                       else if Ascii.eqb s "m" then fmul_int num 1000000
                       else num
                   | None => num
                   end).
    { pose proof (py_float_nonneg _ _ Hf) as Hnn.
      pose proof (py_float_bounded _ _ Hf) as Hbd.
      destruct suffix as [c|]; [|assumption]. cbv zeta.
      destruct (Ascii.eqb (lower c) "k"); [apply fmul_int_bounded; [assumption|lia]|].
      destruct (Ascii.eqb (lower c) "m"); [apply fmul_int_bounded; [assumption|lia]|].
      assumption. }
    cbv zeta in Hb |- *.
    destruct (py_round _) as [r|e] eqn:Hr; [|discriminate].
    intros [= <-]. exact (py_round_bounded _ _ Hb Hr).
  - rewrite parse_followers_fallback by now rewrite strip_search. discriminate.
Qed.

Lemma lead_of_entry_printable repr r lead :
  lead_of_entry repr r = Ok lead -> followers_printable lead.
Proof.
  unfold lead_of_entry. destruct r as [| | | | | |d]; try discriminate.
  destruct (extract_username_of_value _) as [u|e]; [|discriminate].
  cbn [bind]. destruct (py_str_checked _ _) as [text|e]; [|discriminate].
  cbn [bind]. destruct (parse_followers _) as [followers|e] eqn:Hf; [|discriminate].
  cbn [bind]. intros [= <-].
  unfold followers_printable, dict_get_default.
  change (dict_lookup _ "Followers") with (Some (followers_value followers)).
  destruct followers as [n|]; cbn [followers_value printable]; [|exact I].
  pose proof (parse_followers_some_bound _ _ Hf) as Hn.
  assert (H : 2 ^ 1024 <= 10 ^ str_digits_limit) by (vm_compute; discriminate).
  lia.
Qed.

(** X23: the leads parse_apify_items returns can all be printed: the
    Followers of each are None or an int below 2^1024, which has 309
    digits at most, so that [str] at the Followers cell of
    append_leads_to_sheet accepts it. *)
Theorem parse_apify_items_printable (repr : value -> string)
  (items : list value) (leads : list dict) :
  parse_apify_items repr items = Ok leads ->
  Forall followers_printable leads /\
  Forall (fun lead =>
            forall n, dict_lookup lead "Followers" = Some (VInt n) ->
                      0 <= n < 2 ^ 1024) leads.
Proof.
  intros H. rewrite parse_apify_items_map in H.
  apply map_result_Forall2 in H.
  split.
  - apply (Forall2_Forall_r _ _ _ _ (lead_of_entry_printable repr) H).
  - refine (Forall2_Forall_r _ _ _ _ _ H). clear.
    intros r lead Hl n Hn. revert Hl.
    unfold lead_of_entry. destruct r as [| | | | | |d]; try discriminate.
    destruct (extract_username_of_value _) as [u|e]; [|discriminate].
    cbn [bind]. destruct (py_str_checked _ _) as [text|e]; [|discriminate].
    cbn [bind]. destruct (parse_followers _) as [followers|e] eqn:Hf; [|discriminate].
    cbn [bind]. intros [= <-].
    change (dict_lookup _ "Followers") with (Some (followers_value followers)) in Hn.
    destruct followers as [k|]; cbn [followers_value] in Hn; [|discriminate].
    injection Hn as <-. exact (parse_followers_some_bound _ _ Hf).
Qed.

Lemma parse_apify_items_printable_witness :
  Forall followers_printable sample_leads.
Proof.
  apply (parse_apify_items_printable no_repr [sample_container] sample_leads).
  vm_compute; reflexivity.
Defined.
